(** * Classroom discussion tool: evaluation normaliser, persistence gateway
      and student session reconciliation

    A shallow embedding of [llm.py] ([AIService.evaluate_answer],
    [get_simple_suggestions], [_extract_json], [generate_quiz]),
    [database.py] (class [Database]), [utils.py] and, of [app.py],
    [render_ai_feedback] and [debug_sanitize_suggestions], the question
    check and the refresh button of [student_view] and the question
    list of [teacher_view], followed by the properties that the
    specification states about them and by further properties of the
    code.

    Conventions.
    - A Python [str] is held as the bytes of its UTF-8 encoding
      ([String.string]); substring tests and the ASCII markers that the
      code searches for behave on the encoding as they do on the text.
    - Python [int] is [Z]; a Python [float] is [pyfloat], a rational with
      the three special values (rounding to binary64 is not part of the
      model).
    - Built-ins of the Python runtime whose complete definition lies
      outside the repository ([json.loads], [json.dumps], [str.strip],
      [str.lower], [str] of a non-string value) are the fields of the
      class [Builtins]; [reference_builtins] is an executable instance
      used to run the model on concrete texts.  [float] of a [str] and
      the rounded product [x * 100] are those of [FloatBuiltins]. *)

From Stdlib Require Import String Ascii List ZArith QArith Lia Bool Arith
  DecimalString Permutation Sorted.
Import ListNotations.
Local Close Scope Q_scope.
Local Open Scope string_scope.
Local Open Scope list_scope.

(* ================================================================== *)
(** ** Python strings *)

Module PyStr.

(** [sub in s] *)
Fixpoint contains (sub s : string) : bool :=
  prefix sub s ||
  match s with
  | EmptyString => false
  | String _ s' => contains sub s'
  end.

(** [s.find(sub)]: lowest index where [sub] starts, [-1] when absent. *)
Fixpoint find_from (sub s : string) (i : Z) : Z :=
  if prefix sub s then i
  else match s with
       | EmptyString => (-1)%Z
       | String _ s' => find_from sub s' (i + 1)%Z
       end.

Definition find (s sub : string) : Z := find_from sub s 0%Z.

(** [s.rfind(sub)]: highest index where [sub] starts, [-1] when absent. *)
Fixpoint rfind_from (sub s : string) (i best : Z) : Z :=
  let best' := if prefix sub s then i else best in
  match s with
  | EmptyString => best'
  | String _ s' => rfind_from sub s' (i + 1)%Z best'
  end.

Definition rfind (s sub : string) : Z := rfind_from sub s 0%Z (-1)%Z.

(** Index normalisation of a slice bound: negative bounds count from the
    end, and every bound is clipped to [0, len]. *)
Definition slice_bound (len i : Z) : Z :=
  if (i <? 0)%Z then Z.max 0 (i + len) else Z.min i len.

(** [s[start:stop]] *)
Definition slice (s : string) (start stop : Z) : string :=
  let len := Z.of_nat (String.length s) in
  let a := slice_bound len start in
  let b := slice_bound len stop in
  substring (Z.to_nat a) (Z.to_nat (b - a)) s.

(** [x in l] for a list of strings *)
Definition mem (x : string) (l : list string) : bool :=
  existsb (String.eqb x) l.

(** [sep.join(l)] *)
Fixpoint join (sep : string) (l : list string) : string :=
  match l with
  | [] => ""
  | [x] => x
  | x :: rest => x ++ sep ++ join sep rest
  end.

(** ASCII letters and white space, for the reference built-ins. *)
Definition is_ascii (c : ascii) : bool := (nat_of_ascii c <? 128)%nat.

Definition ascii_only (s : string) : bool :=
  forallb is_ascii (list_ascii_of_string s).

Definition lower_char (c : ascii) : ascii :=
  let n := nat_of_ascii c in
  if ((65 <=? n) && (n <=? 90))%nat then ascii_of_nat (n + 32) else c.

Fixpoint ascii_lower (s : string) : string :=
  match s with
  | EmptyString => EmptyString
  | String c s' => String (lower_char c) (ascii_lower s')
  end.

(** The ASCII characters for which [str.isspace] holds: tab, line feed,
    vertical tab, form feed, carriage return, the four separators
    0x1c-0x1f and the space. *)
Definition is_space (c : ascii) : bool :=
  let n := nat_of_ascii c in
  ((9 <=? n) && (n <=? 13) || (28 <=? n) && (n <=? 32))%nat.

Fixpoint lstrip (s : string) : string :=
  match s with
  | String c s' => if is_space c then lstrip s' else s
  | EmptyString => EmptyString
  end.

Fixpoint rstrip (s : string) : string :=
  match s with
  | EmptyString => EmptyString
  | String c s' =>
      match rstrip s' with
      | EmptyString => if is_space c then EmptyString else String c EmptyString
      | r => String c r
      end
  end.

Definition ascii_strip (s : string) : string := rstrip (lstrip s).

(** UTF-8 encoding of one code point. *)
Definition byte (n : N) : ascii := ascii_of_N (n mod 256).

Definition utf8 (cp : N) : string :=
  let cont (k : N) := byte (128 + (cp / (64 ^ k)) mod 64) in
  if (cp <? 128)%N then String (byte cp) ""
  else if (cp <? 2048)%N then
    String (byte (192 + cp / 64)) (String (cont 0%N) "")
  else if (cp <? 65536)%N then
    String (byte (224 + cp / 4096)) (String (cont 1%N) (String (cont 0%N) ""))
  else
    String (byte (240 + cp / 262144))
      (String (cont 2%N) (String (cont 1%N) (String (cont 0%N) ""))).

End PyStr.
Import PyStr.

(* ================================================================== *)
(** ** Python values that come out of [json.loads] *)

Inductive pyfloat : Type :=
| FNaN
| FInf
| FNegInf
| FFin (q : Q).

#[local] Set Warnings "-register-all".

Inductive json : Type :=
| JNull
| JBool (b : bool)
| JInt (z : Z)
| JFloat (f : pyfloat)
| JStr (s : string)
| JList (l : list json)
| JDict (d : list (string * json)).

(** [a < b] on floats; every comparison with [nan] is false. *)
Definition float_lt (a b : pyfloat) : bool :=
  match a, b with
  | FNaN, _ | _, FNaN => false
  | FFin x, FFin y => if Qlt_le_dec x y then true else false
  | FNegInf, FNegInf => false
  | FNegInf, _ => true
  | _, FNegInf => false
  | FInf, _ => false
  | FFin _, FInf => true
  end.

(** [min(a, b)] keeps [a] unless [b < a]; [max(a, b)] keeps [a] unless
    [b > a]. *)
Definition py_min (a b : pyfloat) : pyfloat := if float_lt b a then b else a.
Definition py_max (a b : pyfloat) : pyfloat := if float_lt a b then b else a.

(** [float(z)] for an [int]: [OverflowError] (here [None]) from
    [2^1024 - 2^970] on, the first magnitude that rounds past the
    largest binary64. *)
Definition float_of_int (z : Z) : option pyfloat :=
  if (2 ^ 1024 - 2 ^ 970 <=? Z.abs z)%Z then None
  else Some (FFin (inject_Z z)).

Definition float_of_bool (b : bool) : pyfloat :=
  FFin (if b then 1 else 0)%Q.

(** Truth value of a Python object, as tested by [if s]. *)
Definition truthy (v : json) : bool :=
  match v with
  | JNull => false
  | JBool b => b
  | JInt z => negb (z =? 0)%Z
  | JFloat (FFin q) => negb (Qeq_bool q 0)
  | JFloat _ => true
  | JStr s => negb (s =? "")
  | JList l => match l with [] => false | _ => true end
  | JDict d => match d with [] => false | _ => true end
  end.

(** [d[k]] / [k in d] for a [dict] held as its items. *)
Fixpoint dict_get (d : list (string * json)) (k : string) : option json :=
  match d with
  | [] => None
  | (k', v) :: rest => if k' =? k then Some v else dict_get rest k
  end.

(** [d[k] = v]: an existing key keeps its place. *)
Fixpoint dict_set (d : list (string * json)) (k : string) (v : json)
  : list (string * json) :=
  match d with
  | [] => [(k, v)]
  | (k', v') :: rest =>
      if k' =? k then (k', v) :: rest else (k', v') :: dict_set rest k v
  end.

(** The runtime's built-ins.  [json_loads] returns [None] when
    [json.loads] raises. *)
Class Builtins : Type := {
  json_loads : string -> option json;
  json_dumps : json -> string;
  str_strip : string -> string;
  str_lower : string -> string;
  py_repr : json -> string;
  loads_empty : json_loads "" = None;
  lower_ascii_text :
    forall s, ascii_only s = true -> str_lower s = ascii_lower s
}.

(** [str(v)]: a [str] is returned as it is. *)
Definition py_str `{Builtins} (v : json) : string :=
  match v with
  | JStr s => s
  | _ => py_repr v
  end.

(* ================================================================== *)
(** ** llm.py: [AIService.evaluate_answer] *)

Record evaluation : Type := {
  score : pyfloat;
  feedback : string;
  suggestions : list string
}.

Module AIService.

Definition half : pyfloat := FFin (1 # 2)%Q.

(** The result returned when no JSON could be read (inner [except]). *)
Definition unparsed_evaluation : evaluation :=
  {| score := half;
     feedback :=
       "Your answer was evaluated, but we couldn't generate detailed feedback.";
     suggestions :=
       [ "Address the key points in the question";
         "Provide specific examples to support your answer";
         "Structure your response with clear organization" ] |}.

(** The result returned by the outermost [except Exception]. *)
Definition error_evaluation : evaluation :=
  {| score := half;
     feedback := "We encountered a problem evaluating your answer.";
     suggestions :=
       [ "Ensure your answer addresses the question directly";
         "Include specific examples and details";
         "Check your answer's organization and clarity" ] |}.

Definition default_feedback : string :=
  "The answer could be improved for clarity and relevance.".

Definition default_suggestions : list string :=
  [ "Focus on addressing the main points of the question";
    "Add more specific details and examples";
    "Improve the overall structure of your answer" ].

(** The characters of the first check: fullwidth comma U+FF0C,
    ideographic full stop U+3002, U+5B66, U+751F, the double angle
    brackets U+300A and U+300B, U+8BF7, U+4F60. *)
Definition deny_chars : list string :=
  map utf8 [65292; 12290; 23398; 29983; 12298; 12299; 35831; 20320]%N.

Definition deny_words : list string :=
  [ "script"; "refresh"; "student"; "click" ].

Section Normaliser.
Context `{Builtins}.

(** Lines 230-241: the text between a code fence and the last fence. *)
Definition fenced (text marker : string) : string :=
  let start := (find text marker + Z.of_nat (String.length marker))%Z in
  let stop := rfind text "```" in
  if negb (start =? -1)%Z && negb (stop =? -1)%Z
  then str_strip (slice text start stop)
  else text.

Definition unfence (text : string) : string :=
  if contains "```json" text then fenced text "```json"
  else if contains "```" text then fenced text "```"
  else text.

(** Lines 249-255: the text from the first brace to the last one. *)
Definition json_chunk (text : string) : option string :=
  let start := find text "{" in
  let stop := (rfind text "}" + 1)%Z in
  if negb (start =? -1)%Z && (start <? stop)%Z
  then Some (slice text start stop)
  else None.

(** Lines 228-267; [None] is the path that returns the default result. *)
Definition extract_json (evaluation_text : string) : option json :=
  let text := unfence evaluation_text in
  match json_loads text with
  | Some v => Some v
  | None =>
      match json_chunk text with
      | Some chunk => json_loads chunk
      | None => None
      end
  end.

(** [max(0.0, min(1.0, x))] *)
Definition clamp (x : pyfloat) : pyfloat :=
  py_max (FFin 0%Q) (py_min (FFin 1%Q) x).

(** Lines 271-275; [None] when [float] raises [OverflowError].  A [bool]
    is an [int] for [isinstance]. *)
Definition coerce_score (d : list (string * json)) : option pyfloat :=
  match dict_get d "score" with
  | Some (JBool b) => Some (clamp (float_of_bool b))
  | Some (JInt z) => option_map clamp (float_of_int z)
  | Some (JFloat f) => Some (clamp f)
  | _ => Some half
  end.

(** Lines 278-279 *)
Definition coerce_feedback (d : list (string * json)) : string :=
  match dict_get d "feedback" with
  | Some (JStr s) => s
  | _ => default_feedback
  end.

(** Lines 291-309: the body of the filtering loop for one element;
    [None] stands for [continue]. *)
Definition clean_suggestion (suggestion : json) : option string :=
  match suggestion with
  | JStr s =>
      let text := str_strip s in
      if text =? "" then None
      else if existsb (fun char => contains char text) deny_chars then None
      else if existsb (fun word => contains word (str_lower text)) deny_words
      then None
      else Some text
  | _ => None
  end.

Fixpoint clean_suggestions (l : list json) : list string :=
  match l with
  | [] => []
  | suggestion :: rest =>
      match clean_suggestion suggestion with
      | Some text => text :: clean_suggestions rest
      | None => clean_suggestions rest
      end
  end.

(** Lines 330-333: the first default that is not held yet. *)
Definition first_missing (current : list string) : option string :=
  List.find (fun suggestion => negb (mem suggestion current))
            default_suggestions.

(** Lines 329-335: the padding loop.  An iteration that finds nothing to
    append leaves the list as it is and the loop goes round again, so the
    loop is run on fuel; [None] is a loop that has not stopped. *)
Fixpoint pad_suggestions (fuel : nat) (current : list string)
  : option (list string) :=
  if (List.length current <? 3)%nat then
    match fuel with
    | O => None
    | S fuel' =>
        let current' :=
          match first_missing current with
          | Some suggestion => current ++ [suggestion]
          | None => current
          end in
        if (3 <=? List.length current')%nat then Some current'
        else pad_suggestions fuel' current'
    end
  else Some current.

(** Lines 282-335 *)
Definition coerce_suggestions (fuel : nat) (d : list (string * json))
  : option (list string) :=
  match dict_get d "suggestions" with
  | Some (JList l) =>
      let clean := clean_suggestions l in
      let clean := match clean with [] => default_suggestions | _ => clean end in
      pad_suggestions fuel (firstn 3 clean)
  | _ => Some default_suggestions
  end.

(** Lines 269-339: the checks on the parsed value.  A value that is not a
    [dict] makes the first check or the first assignment raise
    [TypeError], which the outermost handler turns into
    [error_evaluation]. *)
Definition normalise (fuel : nat) (parsed : json) : option evaluation :=
  match parsed with
  | JDict d =>
      match coerce_score d with
      | None => Some error_evaluation
      | Some sc =>
          match coerce_suggestions fuel d with
          | Some sugg =>
              Some {| score := sc;
                      feedback := coerce_feedback d;
                      suggestions := sugg |}
          | None => None
          end
      end
  | _ => Some error_evaluation
  end.

(** [evaluate_answer], from the reply of the chat completion on:
    [response] is [None] when obtaining the reply raised (key lookup,
    request, missing content).  The result is [None] only when the
    padding loop has not stopped within [fuel] rounds. *)
Definition evaluate_answer (fuel : nat) (response : option string)
  : option evaluation :=
  match response with
  | None => Some error_evaluation
  | Some content =>
      match extract_json (str_strip content) with
      | None => Some unparsed_evaluation
      | Some parsed => normalise fuel parsed
      end
  end.

End Normaliser.

(** *** [get_simple_suggestions], [_extract_json] and [generate_quiz] *)

(** The defaults of [get_simple_suggestions]. *)
Definition simple_default_suggestions : list string :=
  [ "Focus on addressing the main question more directly.";
    "Include specific examples to support your key points.";
    "Structure your answer with a clear introduction and conclusion." ].

Definition newline : ascii := ascii_of_nat 10.

(** [s.split(sep)] for a separator of one ASCII character. *)
Fixpoint split_on (sep : ascii) (s : string) : list string :=
  match s with
  | EmptyString => [EmptyString]
  | String c r =>
      if Ascii.eqb c sep then EmptyString :: split_on sep r
      else match split_on sep r with
           | piece :: rest => String c piece :: rest
           | [] => [String c EmptyString]
           end
  end.

(** Characters of a [str] held in UTF-8: a character is a byte that is
    not a continuation byte, with the continuation bytes after it. *)
Definition is_continuation (c : ascii) : bool :=
  let n := nat_of_ascii c in ((128 <=? n) && (n <? 192))%nat.

(** [len(s)] *)
Definition py_len (s : string) : nat :=
  List.length
    (filter (fun c => negb (is_continuation c)) (list_ascii_of_string s)).

Fixpoint continuation_bytes (s : string) : string * string :=
  match s with
  | String c r =>
      if is_continuation c
      then let (taken, rest) := continuation_bytes r in (String c taken, rest)
      else (EmptyString, s)
  | EmptyString => (EmptyString, EmptyString)
  end.

(** [(s[0], s[1:])] of a [str] that is not empty. *)
Definition first_char (s : string) : option (string * string) :=
  match s with
  | EmptyString => None
  | String c r =>
      let (taken, rest) := continuation_bytes r in Some (String c taken, rest)
  end.

(** Lines 329-335 and 432-440 are the same loop over different
    defaults: append the first default that is not held until three
    suggestions are held. *)
Fixpoint pad_from (defaults : list string) (fuel : nat)
  (current : list string) : option (list string) :=
  if (List.length current <? 3)%nat then
    match fuel with
    | O => None
    | S fuel' =>
        let current' :=
          match List.find (fun d => negb (mem d current)) defaults with
          | Some d => current ++ [d]
          | None => current
          end in
        if (3 <=? List.length current')%nat then Some current'
        else pad_from defaults fuel' current'
    end
  else Some current.

Section SimpleSuggestions.
Context `{Builtins}.

(** [c.isdigit()] for one character, a built-in of the runtime. *)
Variable char_isdigit : string -> bool.

(** Line 413: the text after the number of a numbered line. *)
Definition numbered (line : string) : option string :=
  if (2 <? py_len line)%nat then
    match first_char line with
    | Some (c0, rest0) =>
        if char_isdigit c0 then
          match first_char rest0 with
          | Some (c1, rest1) =>
              if mem c1 ["."; ")"; " "] then Some rest1 else None
          | None => None
          end
        else None
    | None => None
    end
  else None.

(** Lines 405-419 for one line; [None]: the line is skipped. *)
Definition simple_suggestion (line : string) : option string :=
  let line := str_strip line in
  if line =? "" then None
  else
    match numbered line with
    | Some rest => Some (str_strip rest)
    | None => Some line
    end.

Fixpoint simple_suggestions (lines : list string) : list string :=
  match lines with
  | [] => []
  | line :: rest =>
      match simple_suggestion line with
      | Some suggestion => suggestion :: simple_suggestions rest
      | None => simple_suggestions rest
      end
  end.

(** [get_simple_suggestions], from the reply on; [response] is [None]
    when obtaining it raised.  [None] as a result: the padding loop has
    not stopped within [fuel] rounds. *)
Definition get_simple_suggestions (fuel : nat) (response : option string)
  : option (list string) :=
  match response with
  | None => Some simple_default_suggestions
  | Some content =>
      let raw_text := str_strip content in
      let suggestions := simple_suggestions (split_on newline raw_text) in
      option_map (firstn 3)
        (pad_from simple_default_suggestions fuel (firstn 3 suggestions))
  end.

(** [_extract_json]: from the first [[] to the last []], or the text of
    an empty list. *)
Definition _extract_json (text : string) : string :=
  let start := find text "[" in
  let stop := (rfind text "]" + 1)%Z in
  if negb (start =? -1)%Z && negb (stop =? 0)%Z
  then slice text start stop
  else "[]".

(** [generate_quiz], from the reply on: whatever the JSON text holds, or
    an empty list when anything raised. *)
Definition generate_quiz (response : option string) : json :=
  match response with
  | None => JList []
  | Some content =>
      match json_loads (_extract_json content) with
      | Some questions => questions
      | None => JList []
      end
  end.

End SimpleSuggestions.
End AIService.

(* ================================================================== *)
(** ** An executable instance of the built-ins

    [loads] reads the JSON grammar the way [json.loads] does: no leading
    zero, [NaN] and [Infinity] accepted, no raw control character inside
    a string, no trailing comma, a later duplicate of a key replacing the
    earlier one.  A number with a fraction or an exponent is kept as the
    exact rational.  [dumps] writes what [json.dumps] writes with its
    default arguments, and [repr] what [str] returns, floats in
    positional notation.  [ascii_strip] and [ascii_lower] are
    [str.strip] and [str.lower] on ASCII text. *)

Module Reference.

Definition dquote : ascii := ascii_of_nat 34.
Definition backslash : ascii := ascii_of_nat 92.

Definition code (c : ascii) : N := N_of_ascii c.

Definition is_json_space (c : ascii) : bool :=
  let n := code c in
  ((n =? 32) || (n =? 9) || (n =? 10) || (n =? 13))%N.

Fixpoint skip_space (s : string) : string :=
  match s with
  | String c s' => if is_json_space c then skip_space s' else s
  | EmptyString => s
  end.

Fixpoint strip_prefix (p s : string) : option string :=
  match p, s with
  | EmptyString, _ => Some s
  | String a p', String b s' => if Ascii.eqb a b then strip_prefix p' s' else None
  | String _ _, EmptyString => None
  end.

Definition digit (c : ascii) : option Z :=
  let n := code c in
  if ((48 <=? n) && (n <=? 57))%N then Some (Z.of_N (n - 48)) else None.

Definition hex_digit (c : ascii) : option N :=
  let n := code c in
  if ((48 <=? n) && (n <=? 57))%N then Some (n - 48)%N
  else if ((65 <=? n) && (n <=? 70))%N then Some (n - 55)%N
  else if ((97 <=? n) && (n <=? 102))%N then Some (n - 87)%N
  else None.

(** A run of decimal digits: its value, how many there were, the rest. *)
Fixpoint digits (s : string) (acc : Z) (count : nat) : Z * nat * string :=
  match s with
  | String c s' =>
      match digit c with
      | Some d => digits s' (10 * acc + d)%Z (S count)
      | None => (acc, count, s)
      end
  | EmptyString => (acc, count, s)
  end.

(** The integer part: a single [0], or a run that starts with [1]-[9]. *)
Definition integer_part (s : string) : option (Z * string) :=
  match s with
  | String c s' =>
      match digit c with
      | Some 0%Z => Some (0%Z, s')
      | Some _ => let '(n, _, rest) := digits s 0%Z 0 in Some (n, rest)
      | None => None
      end
  | EmptyString => None
  end.

(** [.digits], when at least one digit follows the point. *)
Definition fraction_part (s : string) : option (Q * string) :=
  match s with
  | String "." s' =>
      match digits s' 0%Z 0 with
      | (_, O, _) => None
      | (n, count, rest) => Some ((inject_Z n / inject_Z (10 ^ Z.of_nat count))%Q, rest)
      end
  | _ => None
  end.

(** [e], an optional sign, and at least one digit. *)
Definition exponent_part (s : string) : option (Z * string) :=
  match s with
  | String c s' =>
      if ((code c =? 101) || (code c =? 69))%N then
        let '(sign, s'') :=
          match s' with
          | String "+" r => (1%Z, r)
          | String "-" r => ((-1)%Z, r)
          | _ => (1%Z, s')
          end in
        match digits s'' 0%Z 0 with
        | (_, O, _) => None
        | (n, _, rest) => Some ((sign * n)%Z, rest)
        end
      else None
  | EmptyString => None
  end.

Definition pow10 (e : Z) : Q :=
  if (0 <=? e)%Z then inject_Z (10 ^ e) else (/ inject_Z (10 ^ (- e)))%Q.

Definition number (s : string) : option (json * string) :=
  let '(sign, s1) :=
    match s with
    | String "-" r => ((-1)%Z, r)
    | _ => (1%Z, s)
    end in
  match integer_part s1 with
  | None => None
  | Some (n, s2) =>
      let '(frac, s3) :=
        match fraction_part s2 with
        | Some (f, r) => (Some f, r)
        | None => (None, s2)
        end in
      let '(expo, s4) :=
        match exponent_part s3 with
        | Some (e, r) => (Some e, r)
        | None => (None, s3)
        end in
      match frac, expo with
      | None, None => Some (JInt (sign * n), s4)
      | _, _ =>
          let f := match frac with Some f => f | None => 0%Q end in
          let e := match expo with Some e => e | None => 0%Z end in
          Some (JFloat (FFin (Qred (inject_Z sign * (inject_Z n + f) * pow10 e)%Q)),
                s4)
      end
  end.

(** The content of a string literal: raw bytes and [\u] escapes. *)
Inductive unit16 : Type :=
| Raw (c : ascii)
| Escaped (u : N).

Definition simple_escape (c : ascii) : option ascii :=
  let n := code c in
  if (n =? 34)%N then Some dquote
  else if (n =? 92)%N then Some backslash
  else if (n =? 47)%N then Some "/"%char
  else if (n =? 98)%N then Some (ascii_of_nat 8)
  else if (n =? 102)%N then Some (ascii_of_nat 12)
  else if (n =? 110)%N then Some (ascii_of_nat 10)
  else if (n =? 114)%N then Some (ascii_of_nat 13)
  else if (n =? 116)%N then Some (ascii_of_nat 9)
  else None.

Definition hex4 (a b c d : ascii) : option N :=
  match hex_digit a, hex_digit b, hex_digit c, hex_digit d with
  | Some x, Some y, Some z, Some w => Some (((x * 16 + y) * 16 + z) * 16 + w)%N
  | _, _, _, _ => None
  end.

Definition cons_unit (u : unit16) (r : option (list unit16 * string))
  : option (list unit16 * string) :=
  match r with
  | Some (us, rest) => Some (u :: us, rest)
  | None => None
  end.

(** From just after the opening quote to just after the closing one. *)
Fixpoint string_units (s : string) : option (list unit16 * string) :=
  match s with
  | EmptyString => None
  | String c s' =>
      if Ascii.eqb c dquote then Some ([], s')
      else if Ascii.eqb c backslash then
        match s' with
        | String e s'' =>
            match simple_escape e with
            | Some x => cons_unit (Raw x) (string_units s'')
            | None =>
                if Ascii.eqb e "u"%char then
                  match s'' with
                  | String h1 (String h2 (String h3 (String h4 rest))) =>
                      match hex4 h1 h2 h3 h4 with
                      | Some u => cons_unit (Escaped u) (string_units rest)
                      | None => None
                      end
                  | _ => None
                  end
                else None
            end
        | EmptyString => None
        end
      else if (code c <? 32)%N then None
      else cons_unit (Raw c) (string_units s')
  end.

(** A high surrogate directly followed by a low one is one character. *)
Fixpoint decode_units (us : list unit16) : string :=
  match us with
  | [] => ""
  | Raw c :: rest => String c (decode_units rest)
  | Escaped hi :: rest =>
      match rest with
      | Escaped lo :: rest' =>
          if ((55296 <=? hi) && (hi <=? 56319) &&
              (56320 <=? lo) && (lo <=? 57343))%N
          then utf8 (65536 + (hi - 55296) * 1024 + (lo - 56320))
                 ++ decode_units rest'
          else utf8 hi ++ decode_units rest
      | _ => utf8 hi ++ decode_units rest
      end
  end.

Definition string_literal (s : string) : option (string * string) :=
  match string_units s with
  | Some (us, rest) => Some (decode_units us, rest)
  | None => None
  end.

Definition literal (s : string) : option (json * string) :=
  match strip_prefix "null" s with Some r => Some (JNull, r) | None =>
  match strip_prefix "true" s with Some r => Some (JBool true, r) | None =>
  match strip_prefix "false" s with Some r => Some (JBool false, r) | None =>
  match strip_prefix "NaN" s with Some r => Some (JFloat FNaN, r) | None =>
  match strip_prefix "Infinity" s with Some r => Some (JFloat FInf, r) | None =>
  match strip_prefix "-Infinity" s with Some r => Some (JFloat FNegInf, r) | None =>
  number s
  end end end end end end.

(** One value at the head of [s]; [elements] and [members] read the
    rest of an array and of an object. *)
Fixpoint value (fuel : nat) (s : string) {struct fuel}
  : option (json * string) :=
  match fuel with
  | O => None
  | S fuel' =>
      match s with
      | String "{" r =>
          match skip_space r with
          | String "}" r' => Some (JDict [], r')
          | r' => members fuel' [] r'
          end
      | String "[" r =>
          match skip_space r with
          | String "]" r' => Some (JList [], r')
          | r' => elements fuel' [] r'
          end
      | String c r =>
          if Ascii.eqb c dquote then
            match string_literal r with
            | Some (str, r') => Some (JStr str, r')
            | None => None
            end
          else literal s
      | EmptyString => None
      end
  end

with elements (fuel : nat) (acc : list json) (s : string) {struct fuel}
  : option (json * string) :=
  match fuel with
  | O => None
  | S fuel' =>
      match value fuel' s with
      | Some (v, r) =>
          match skip_space r with
          | String "," r' => elements fuel' (acc ++ [v]) (skip_space r')
          | String "]" r' => Some (JList (acc ++ [v]), r')
          | _ => None
          end
      | None => None
      end
  end

with members (fuel : nat) (acc : list (string * json)) (s : string)
  {struct fuel} : option (json * string) :=
  match fuel with
  | O => None
  | S fuel' =>
      match s with
      | String c r =>
          if Ascii.eqb c dquote then
            match string_literal r with
            | Some (key, r1) =>
                match skip_space r1 with
                | String ":" r2 =>
                    match value fuel' (skip_space r2) with
                    | Some (v, r3) =>
                        match skip_space r3 with
                        | String "," r4 =>
                            members fuel' (dict_set acc key v) (skip_space r4)
                        | String "}" r4 => Some (JDict (dict_set acc key v), r4)
                        | _ => None
                        end
                    | None => None
                    end
                | _ => None
                end
            | None => None
            end
          else None
      | EmptyString => None
      end
  end.

(** [json.loads]: one value, white space around it, nothing else. *)
Definition loads (s : string) : option json :=
  match value (2 * String.length s + 2) (skip_space s) with
  | Some (v, rest) =>
      match skip_space rest with
      | EmptyString => Some v
      | _ => None
      end
  | None => None
  end.

(** UTF-8 text as code points. *)
Fixpoint code_points (s : string) : list N :=
  match s with
  | EmptyString => []
  | String c r =>
      let n := code c in
      let low (x : ascii) := (code x mod 64)%N in
      if (n <? 128)%N then n :: code_points r
      else if (n <? 224)%N then
        match r with
        | String c1 r' => ((n mod 32) * 64 + low c1)%N :: code_points r'
        | _ => [n]
        end
      else if (n <? 240)%N then
        match r with
        | String c1 (String c2 r') =>
            (((n mod 16) * 64 + low c1) * 64 + low c2)%N :: code_points r'
        | _ => [n]
        end
      else
        match r with
        | String c1 (String c2 (String c3 r')) =>
            ((((n mod 8) * 64 + low c1) * 64 + low c2) * 64 + low c3)%N
              :: code_points r'
        | _ => [n]
        end
  end.

Definition hex_char (n : N) : ascii :=
  if (n <? 10)%N then ascii_of_N (48 + n) else ascii_of_N (87 + n).

Definition hex_escape (marker : string) (width : nat) (u : N) : string :=
  let fix go (k : nat) (u : N) (acc : string) : string :=
    match k with
    | O => acc
    | S k' => go k' (u / 16)%N (String (hex_char (u mod 16)) acc)
    end in
  marker ++ go width u "".

(** One character of a string literal written by [json.dumps]. *)
Definition dump_char (u : N) : string :=
  if (u =? 34)%N then String backslash (String dquote "")
  else if (u =? 92)%N then String backslash (String backslash "")
  else if (u =? 10)%N then "\n"
  else if (u =? 13)%N then "\r"
  else if (u =? 9)%N then "\t"
  else if (u =? 8)%N then "\b"
  else if (u =? 12)%N then "\f"
  else if ((32 <=? u) && (u <=? 126))%N then String (ascii_of_N u) ""
  else if (u <? 65536)%N then hex_escape "\u" 4 u
  else hex_escape "\u" 4 (55296 + (u - 65536) / 1024)
         ++ hex_escape "\u" 4 (56320 + (u - 65536) mod 1024).

Definition dump_string (s : string) : string :=
  String dquote (String.concat "" (map dump_char (code_points s)))
    ++ String dquote "".

Definition decimal (z : Z) : string :=
  DecimalString.NilZero.string_of_int (Z.to_int z).

(** The digits of [r / d] after the point, [r < d]. *)
Fixpoint fraction_digits (fuel : nat) (r d : Z) : string :=
  match fuel with
  | O => ""
  | S fuel' =>
      if (r =? 0)%Z then ""
      else decimal (10 * r / d) ++ fraction_digits fuel' ((10 * r) mod d) d
  end.

(** [repr] of a finite float, in positional notation. *)
Definition float_repr (q : Q) : string :=
  let n := Z.abs (Qnum q) in
  let d := Z.pos (Qden q) in
  (if (Qnum q <? 0)%Z then "-" else "")
    ++ decimal (n / d) ++ "."
    ++ (if (n mod d =? 0)%Z then "0" else fraction_digits 17 (n mod d) d).

Definition dump_float (f : pyfloat) : string :=
  match f with
  | FNaN => "NaN"
  | FInf => "Infinity"
  | FNegInf => "-Infinity"
  | FFin q => float_repr q
  end.

(** [json.dumps] with its default separators and [ensure_ascii]. *)
Fixpoint dumps (v : json) : string :=
  match v with
  | JNull => "null"
  | JBool true => "true"
  | JBool false => "false"
  | JInt z => decimal z
  | JFloat f => dump_float f
  | JStr s => dump_string s
  | JList l => "[" ++ join ", " (map dumps l) ++ "]"
  | JDict d =>
      "{" ++ join ", " (map (fun kv => (dump_string (fst kv) ++ ": "
                                         ++ dumps (snd kv))%string) d) ++ "}"
  end.

(** [repr] of a string: single quotes, unless the text holds one and no
    double quote. *)
Definition repr_char (quote : ascii) (c : ascii) : string :=
  let n := code c in
  if Ascii.eqb c quote || Ascii.eqb c backslash then String backslash (String c "")
  else if (n =? 10)%N then "\n"
  else if (n =? 13)%N then "\r"
  else if (n =? 9)%N then "\t"
  else if ((n <? 32) || (n =? 127))%N then hex_escape "\x" 2 n
  else String c "".

Definition repr_string (s : string) : string :=
  let apostrophe := "'"%char in
  let quote :=
    if contains "'" s && negb (contains (String dquote "") s)
    then dquote else apostrophe in
  String quote
    (String.concat "" (map (repr_char quote) (list_ascii_of_string s)))
    ++ String quote "".

Definition repr_float (f : pyfloat) : string :=
  match f with
  | FNaN => "nan"
  | FInf => "inf"
  | FNegInf => "-inf"
  | FFin q => float_repr q
  end.

(** [repr] / [str] of a value read by [json.loads]. *)
Fixpoint repr (v : json) : string :=
  match v with
  | JNull => "None"
  | JBool true => "True"
  | JBool false => "False"
  | JInt z => decimal z
  | JFloat f => repr_float f
  | JStr s => repr_string s
  | JList l => "[" ++ join ", " (map repr l) ++ "]"
  | JDict d =>
      "{" ++ join ", " (map (fun kv => (repr_string (fst kv) ++ ": "
                                         ++ repr (snd kv))%string) d) ++ "}"
  end.

(** Writes a JSON text with apostrophes where the text has double
    quotes, so that the inputs below read as JSON. *)
Fixpoint json_text (s : string) : string :=
  match s with
  | EmptyString => EmptyString
  | String c r =>
      String (if Ascii.eqb c "'"%char then dquote else c) (json_text r)
  end.

(** [c.isdigit()] for one character of an ASCII text. *)
Definition ascii_isdigit (c : string) : bool :=
  match c with
  | String a EmptyString =>
      let n := nat_of_ascii a in ((48 <=? n) && (n <=? 57))%nat
  | _ => false
  end.

End Reference.

#[global] Instance reference_builtins : Builtins := {|
  json_loads := Reference.loads;
  json_dumps := Reference.dumps;
  str_strip := ascii_strip;
  str_lower := ascii_lower;
  py_repr := Reference.repr;
  loads_empty := eq_refl;
  lower_ascii_text := fun s _ => eq_refl
|}.

(* ================================================================== *)
(** ** database.py: the tables and the connection

    The three tables of [initialize_db], rows in insertion order.  A
    connection works on a copy that replaces the stored tables at
    [commit]; closing it drops what was not committed.  Every call into
    [sqlite3] ([connect], an [execute] with its fetch, [commit]) takes the
    next entry of a fault script and raises the error found there; an
    exhausted script means no further fault. *)

Module Database.

Definition timestamp : Type := Z.

Record classroom : Type := {
  class_code : string;
  created_at : timestamp;
  teacher_id : string;
  question : option string;
  status : string
}.

Record student : Type := {
  student_id : string;
  student_class_code : string;
  joined_at : timestamp
}.

Record answer : Type := {
  answer_student_id : string;
  answer_class_code : string;
  answer_question : string;
  answer_text : string;
  answer_score : pyfloat;
  answer_feedback : string;
  answer_suggestions : string;
  submitted_at : timestamp
}.

Record database : Type := {
  classrooms : list classroom;
  students : list student;
  answers : list answer
}.

(** Subclasses of [sqlite3.Error], and the one other exception that the
    gateway code can raise by subscripting a missing row. *)
Inductive sqlite_error : Type :=
| OperationalError
| IntegrityError
| ProgrammingError.

Inductive exn : Type :=
| SqliteError (e : sqlite_error)
| TypeError.

Inductive outcome (A : Type) : Type :=
| Returned (a : A)
| Raised (e : exn).
Arguments Returned {A} a.
Arguments Raised {A} e.

Definition fault_script : Type := list (option sqlite_error).

Record connection : Type := {
  stored : database;
  working : database;
  foreign_keys : bool;
  faults : fault_script
}.

Definition sql (A : Type) : Type := connection -> outcome A * connection.

Definition ret {A} (a : A) : sql A := fun c => (Returned a, c).

Definition raise {A} (e : exn) : sql A := fun c => (Raised e, c).

Definition bind {A B} (m : sql A) (k : A -> sql B) : sql B :=
  fun c =>
    match m c with
    | (Returned a, c') => k a c'
    | (Raised e, c') => (Raised e, c')
    end.

Declare Scope sql_scope.
Delimit Scope sql_scope with sql.
Notation "x <- m ;; k" := (bind m (fun x => k))
  (at level 100, m at next level, right associativity) : sql_scope.
Notation "m ;; k" := (bind m (fun _ => k))
  (at level 100, right associativity) : sql_scope.
Local Open Scope sql_scope.

(** [try: body except sqlite3.Error: handler] *)
Definition try_except {A} (body : sql A) (handler : sql A) : sql A :=
  fun c =>
    match body c with
    | (Raised (SqliteError _), c') => handler c'
    | r => r
    end.

(** [try: body except sqlite3.IntegrityError: handler] *)
Definition try_except_integrity {A} (body : sql A) (handler : sql A) : sql A :=
  fun c =>
    match body c with
    | (Raised (SqliteError IntegrityError), c') => handler c'
    | r => r
    end.

(** One call into the storage engine. *)
Definition storage_call : sql unit :=
  fun c =>
    match faults c with
    | Some e :: rest =>
        (Raised (SqliteError e),
         {| stored := stored c; working := working c;
            foreign_keys := foreign_keys c; faults := rest |})
    | None :: rest =>
        (Returned tt,
         {| stored := stored c; working := working c;
            foreign_keys := foreign_keys c; faults := rest |})
    | [] => (Returned tt, c)
    end.

(** A [SELECT] and the fetch of its rows. *)
Definition query {A} (q : database -> A) : sql A :=
  storage_call ;; fun c => (Returned (q (working c)), c).

(** A statement that changes the tables, or fails on a constraint. *)
Definition statement (f : bool -> database -> sqlite_error + database)
  : sql unit :=
  storage_call ;;
  fun c =>
    match f (foreign_keys c) (working c) with
    | inl e => (Raised (SqliteError e), c)
    | inr db' =>
        (Returned tt,
         {| stored := stored c; working := db';
            foreign_keys := foreign_keys c; faults := faults c |})
    end.

(** [PRAGMA foreign_keys = ON] *)
Definition pragma_foreign_keys_on : sql unit :=
  storage_call ;;
  fun c =>
    (Returned tt,
     {| stored := stored c; working := working c;
        foreign_keys := true; faults := faults c |}).

(** [conn.commit()] *)
Definition commit : sql unit :=
  storage_call ;;
  fun c =>
    (Returned tt,
     {| stored := working c; working := working c;
        foreign_keys := foreign_keys c; faults := faults c |}).

(** [sqlite3.connect(self.db_path)]; foreign keys are off on a new
    connection. *)
Definition connect (db : database) (script : fault_script)
  : outcome connection :=
  match script with
  | Some e :: _ => Raised (SqliteError e)
  | _ =>
      Returned {| stored := db; working := db;
                  foreign_keys := false; faults := tl script |}
  end.

(** A gateway method: it opens its connection before its [try], and
    the tables that remain are the stored ones. *)
Definition method (A : Type) : Type :=
  database -> fault_script -> outcome A * database.

Definition with_connection {A} (body : sql A) : method A :=
  fun db script =>
    match connect db script with
    | Raised e => (Raised e, db)
    | Returned conn => let (r, conn') := body conn in (r, stored conn')
    end.

(** *** The statements *)

Definition has_classroom (code : string) (db : database) : bool :=
  existsb (fun c => class_code c =? code) (classrooms db).

Definition has_student (id : string) (db : database) : bool :=
  existsb (fun s => student_id s =? id) (students db).

(** [SELECT COUNT( * ) FROM classrooms WHERE class_code = ?] *)
Definition count_classrooms (code : string) (db : database) : nat :=
  List.length (filter (fun c => class_code c =? code) (classrooms db)).

(** [SELECT status FROM classrooms WHERE class_code = ?] *)
Definition select_status (code : string) (db : database) : list string :=
  map status (filter (fun c => class_code c =? code) (classrooms db)).

(** [SELECT class_code, created_at, teacher_id, question, status
     FROM classrooms WHERE class_code = ?] *)
Definition select_classroom (code : string) (db : database) : list classroom :=
  filter (fun c => class_code c =? code) (classrooms db).

(** [SELECT student_id, joined_at FROM students WHERE class_code = ?] *)
Definition select_students (code : string) (db : database)
  : list (string * timestamp) :=
  map (fun s => (student_id s, joined_at s))
      (filter (fun s => student_class_code s =? code) (students db)).

(** The tables with one more row. *)
Definition add_classroom_row (row : classroom) (db : database) : database :=
  {| classrooms := classrooms db ++ [row];
     students := students db;
     answers := answers db |}.

Definition add_student_row (row : student) (db : database) : database :=
  {| classrooms := classrooms db;
     students := students db ++ [row];
     answers := answers db |}.

Definition add_answer_row (row : answer) (db : database) : database :=
  {| classrooms := classrooms db;
     students := students db;
     answers := answers db ++ [row] |}.

(** [INSERT INTO classrooms ...]: [class_code] is [UNIQUE]. *)
Definition insert_classroom (row : classroom) (fk : bool) (db : database)
  : sqlite_error + database :=
  if has_classroom (class_code row) db then inl IntegrityError
  else inr (add_classroom_row row db).

(** [INSERT INTO students ...]: [student_id] is [UNIQUE], and
    [class_code] references [classrooms] when foreign keys are on. *)
Definition insert_student (row : student) (fk : bool) (db : database)
  : sqlite_error + database :=
  if has_student (student_id row) db then inl IntegrityError
  else if fk && negb (has_classroom (student_class_code row) db)
  then inl IntegrityError
  else inr (add_student_row row db).

(** [INSERT INTO answers ...]: both references are checked when foreign
    keys are on. *)
Definition insert_answer (row : answer) (fk : bool) (db : database)
  : sqlite_error + database :=
  if fk && negb (has_student (answer_student_id row) db
                 && has_classroom (answer_class_code row) db)
  then inl IntegrityError
  else inr (add_answer_row row db).

(** [UPDATE classrooms SET question = ? WHERE class_code = ?] *)
Definition update_question (code : string) (q : option string)
  (fk : bool) (db : database) : sqlite_error + database :=
  inr {| classrooms :=
           map (fun c =>
                  if class_code c =? code
                  then {| class_code := class_code c;
                          created_at := created_at c;
                          teacher_id := teacher_id c;
                          question := q;
                          status := status c |}
                  else c) (classrooms db);
         students := students db;
         answers := answers db |}.

(** [ORDER BY]: rows with equal keys keep their order. *)
Fixpoint insert_sorted {A} (before : A -> A -> bool) (x : A) (l : list A)
  : list A :=
  match l with
  | [] => [x]
  | y :: rest =>
      if before y x then y :: insert_sorted before x rest else x :: l
  end.

Definition order_by {A} (before : A -> A -> bool) (l : list A) : list A :=
  fold_right (insert_sorted before) [] l.

(** [FROM answers a JOIN students s ON a.student_id = s.student_id]: one
    row for every pair of an answer and a student with its id. *)
Definition join_students (rows : list answer) (db : database) : list answer :=
  flat_map
    (fun a =>
       map (fun _ => a)
           (filter (fun s => answer_student_id a =? student_id s)
                   (students db)))
    rows.

(** The query of [get_answers_for_question], newest first. *)
Definition select_answers (code q : string) (db : database) : list answer :=
  order_by (fun a b => (submitted_at b <? submitted_at a)%Z)
    (join_students
       (filter (fun a => (answer_class_code a =? code)
                          && (answer_question a =? q))
               (answers db))
       db).

(** The query of [get_classroom_data], oldest first. *)
Definition select_classroom_data (code : string) (db : database)
  : list answer :=
  order_by (fun a b => (submitted_at a <? submitted_at b)%Z)
    (join_students
       (filter (fun a => answer_class_code a =? code) (answers db))
       db).

(** *** The methods of class [Database] *)

Definition create_classroom (code teacher : string) (q : option string)
  (now : timestamp) : method bool :=
  with_connection
    (try_except
       (count <- query (count_classrooms code) ;;
        if (0 <? count)%nat then ret false
        else
          statement
            (insert_classroom
               {| class_code := code; created_at := now;
                  teacher_id := teacher; question := q;
                  status := "active" |}) ;;
          commit ;;
          ret true)
       (ret false)).

Definition add_student (id code : string) (now : timestamp) : method bool :=
  with_connection
    (try_except
       (pragma_foreign_keys_on ;;
        count <- query (count_classrooms code) ;;
        if (count =? 0)%nat then ret false
        else
          rows <- query (select_status code) ;;
          match rows with
          | [] => raise TypeError
          | st :: _ =>
              if negb (st =? "active") then ret false
              else
                try_except_integrity
                  (statement
                     (insert_student
                        {| student_id := id; student_class_code := code;
                           joined_at := now |}) ;;
                   commit ;;
                   ret true)
                  (ret false)
          end)
       (ret false)).

Definition update_classroom_question (code : string) (q : option string)
  : method bool :=
  with_connection
    (try_except
       (statement (update_question code q) ;;
        commit ;;
        ret true)
       (ret false)).

Definition get_classroom_info (code : string) : method (option classroom) :=
  with_connection
    (try_except
       (rows <- query (select_classroom code) ;;
        ret (hd_error rows))
       (ret None)).

(** No [try] in this one: whatever the query raises leaves the method. *)
Definition get_classroom_students (code : string)
  : method (list (string * timestamp)) :=
  with_connection (query (select_students code)).

(** [get_classroom_data] catches every exception and then returns an
    empty frame. *)
Definition get_classroom_data (code : string) : method (list answer) :=
  with_connection
    (fun c =>
       match query (select_classroom_data code) c with
       | (Raised _, c') => (Returned [], c')
       | r => r
       end).

(** What [export_to_csv] does to the file: nothing, a write that raised
    (how much of the file exists then is not known), or the frame
    written. *)
Inductive csv_write : Type :=
| NotWritten
| WriteRaised
| Written (rows : list answer).

(** [export_to_csv]: [to_csv_raises] says whether [df.to_csv] raises,
    [exists_after] is what [os.path.exists] answers after the write. *)
Definition export_to_csv (code : string) (to_csv_raises exists_after : bool)
  (db : database) (script : fault_script)
  : outcome bool * csv_write * database :=
  match get_classroom_data code db script with
  | (Raised e, db') => (Raised e, NotWritten, db')
  | (Returned df, db') =>
      match df with
      | [] => (Returned false, NotWritten, db')
      | _ :: _ =>
          if to_csv_raises then (Returned false, WriteRaised, db')
          else (Returned exists_after, Written df, db')
      end
  end.

Record answer_view : Type := {
  view_student_id : string;
  view_answer : string;
  view_score : pyfloat;
  view_feedback : string;
  view_suggestions : list string;
  view_submitted_at : timestamp
}.

Section Json.
Context `{Builtins}.

Definition save_answer (id code q text : string) (ev : evaluation)
  (now : timestamp) : method bool :=
  with_connection
    (try_except
       (statement
          (insert_answer
             {| answer_student_id := id; answer_class_code := code;
                answer_question := q; answer_text := text;
                answer_score := score ev; answer_feedback := feedback ev;
                answer_suggestions :=
                  json_dumps (JList (map JStr (suggestions ev)));
                submitted_at := now |}) ;;
        commit ;;
        ret true)
       (ret false)).

(** Line 386: [[str(s) for s in suggestions if s]] *)
Definition revalidate (l : list json) : list string :=
  map py_str (filter truthy l).

(** Lines 375-394: the suggestions of one row. *)
Definition read_suggestions (raw : string) : list string :=
  if raw =? "" then []
  else
    match json_loads raw with
    | Some (JList l) => revalidate l
    | Some _ => revalidate []
    | None => []
    end.

Definition view_of (row : answer) : answer_view :=
  {| view_student_id := answer_student_id row;
     view_answer := answer_text row;
     view_score := answer_score row;
     view_feedback := answer_feedback row;
     view_suggestions := read_suggestions (answer_suggestions row);
     view_submitted_at := submitted_at row |}.

Definition get_answers_for_question (code q : string)
  : method (list answer_view) :=
  with_connection
    (try_except
       (rows <- query (select_answers code q) ;;
        ret (map view_of rows))
       (ret [])).

End Json.
End Database.

(* ================================================================== *)
(** ** app.py: the student page and what is shown of an evaluation *)

(** The exceptions of the conversions [float] and [int]. *)
Inductive py_error : Type :=
| PyValueError
| PyTypeError
| PyOverflowError.

(** Floats of the runtime that the rationals of [pyfloat] do not give:
    [float(s)] for a [str] ([None] when it raises [ValueError]) and the
    product [x * 100], which rounds. *)
Class FloatBuiltins : Type := {
  float_of_str : string -> option pyfloat;
  times_hundred : pyfloat -> pyfloat;
  hundred_nan : times_hundred FNaN = FNaN;
  hundred_inf : times_hundred FInf = FInf;
  hundred_neg_inf : times_hundred FNegInf = FNegInf
}.

(** An executable instance: [float] of the text of a JSON number, and
    the product without rounding. *)
#[global] Instance reference_floats : FloatBuiltins := {|
  float_of_str := fun s =>
    match Reference.loads (ascii_strip s) with
    | Some (JFloat f) => Some f
    | Some (JInt z) => float_of_int z
    | _ => None
    end;
  times_hundred := fun f =>
    match f with
    | FFin q => FFin (Qred (q * 100))
    | _ => f
    end;
  hundred_nan := eq_refl;
  hundred_inf := eq_refl;
  hundred_neg_inf := eq_refl
|}.

Module App.

(** The fields of [st.session_state] that the student page reads and
    writes around a question. *)
Record session_state : Type := {
  class_code : option string;
  student_id : option string;
  current_question : option string;
  answer_submitted : bool;
  evaluation_result : option evaluation;
  video_url : option string;
  video_request_id : option string;
  generating_video : bool;
  show_video_form : bool
}.

(** [a != b] on values that are a [str] or [None]. *)
Definition differs (a b : option string) : bool :=
  match a, b with
  | Some x, Some y => negb (x =? y)
  | None, None => false
  | _, _ => true
  end.

(** Lines 613-620, run at the top of every pass over the page. *)
Definition question_check (db_info : option Database.classroom)
  (st : session_state) : session_state :=
  match db_info with
  | Some info =>
      if differs (Database.question info) (current_question st) then
        {| class_code := class_code st;
           student_id := student_id st;
           current_question := Database.question info;
           answer_submitted := false;
           evaluation_result := evaluation_result st;
           video_url := None;
           video_request_id := None;
           generating_video := false;
           show_video_form := false |}
      else st
  | None => st
  end.

(** Lines 627-643, the handler of the button "Refresh Question". *)
Definition refresh_question (db_info : option Database.classroom)
  (st : session_state) : session_state :=
  match db_info with
  | Some info =>
      match Database.question info with
      | Some q =>
          if q =? "" then st
          else if differs (Some q) (current_question st) then
            {| class_code := class_code st;
               student_id := student_id st;
               current_question := Some q;
               answer_submitted := false;
               evaluation_result := None;
               video_url := None;
               video_request_id := None;
               generating_video := false;
               show_video_form := false |}
          else st
      | None => st
      end
  | None => st
  end.

(** [if not st.session_state.class_code:] (line 567) sends a session
    without a class code to the join form; the lines below it are run
    for a session that has one. *)
Definition joined_class (st : session_state) : option string :=
  match class_code st with
  | Some code => if code =? "" then None else Some code
  | None => None
  end.

(** Lines 613-620 with their call of the gateway, which every pass over
    the page of a student who has joined runs first.  They are not run
    for a session without a class code, and an error of
    [sqlite3.connect] leaves them and the page. *)
Definition check_question (db : Database.database)
  (script : Database.fault_script) (st : session_state)
  : Database.outcome session_state :=
  match joined_class st with
  | None => Database.Returned st
  | Some code =>
      match fst (Database.get_classroom_info code db script) with
      | Database.Returned db_info =>
          Database.Returned (question_check db_info st)
      | Database.Raised e => Database.Raised e
      end
  end.

(** Lines 625-645, the handler of the button "Refresh Question" with
    its own call of the gateway. *)
Definition press_refresh (db : Database.database)
  (script : Database.fault_script) (st : session_state)
  : Database.outcome session_state :=
  match joined_class st with
  | None => Database.Returned st
  | Some code =>
      match fst (Database.get_classroom_info code db script) with
      | Database.Returned db_info =>
          Database.Returned (refresh_question db_info st)
      | Database.Raised e => Database.Raised e
      end
  end.

(** Lines 613-645 of a pass that the button "Refresh Question" has
    started: the check, then the handler, each with its own reading of
    the classroom.  What a pass does below line 645 (the answer form,
    the video form and the poll of the video provider, the buttons
    "Next Question" and "Leave Class") is not part of it. *)
Definition refresh_pass (db : Database.database)
  (script script' : Database.fault_script) (st : session_state)
  : Database.outcome session_state :=
  match check_question db script st with
  | Database.Returned st' => press_refresh db script' st'
  | Database.Raised e => Database.Raised e
  end.

(** Lines 880-885, the handler of the button "Leave Class". *)
Definition leave_class (st : session_state) : session_state :=
  {| class_code := None;
     student_id := None;
     current_question := None;
     answer_submitted := false;
     evaluation_result := None;
     video_url := video_url st;
     video_request_id := video_request_id st;
     generating_video := generating_video st;
     show_video_form := show_video_form st |}.

(** Lines 382-425: the fields of a new session; the class code and the
    student id are those of the query parameters, if any. *)
Definition new_session (query_class_code query_student_id : option string)
  : session_state :=
  {| class_code := query_class_code;
     student_id := query_student_id;
     current_question := None;
     answer_submitted := false;
     evaluation_result := None;
     video_url := None;
     video_request_id := None;
     generating_video := false;
     show_video_form := false |}.

(** *** The suggestions of [render_ai_feedback] *)

(** The defaults of [render_ai_feedback]. *)
Definition render_default_suggestions : list string :=
  [ "Focus on addressing the question directly";
    "Provide more detailed examples and evidence";
    "Structure your answer with a clear introduction and conclusion" ].

(** Line 106: U+FF0C, U+3002, U+5B66, U+751F, U+8BF7, U+4F60, U+627E and
    the two-character words U+65E0 U+6CD5 and U+70B9 U+51FB. *)
Definition render_deny_chars : list string :=
  map utf8 [65292; 12290; 23398; 29983; 35831; 20320; 25214]%N
    ++ [ (utf8 26080 ++ utf8 27861)%string;
         (utf8 28857 ++ utf8 20987)%string ].

Definition render_deny_phrases : list string :=
  [ "reload"; "refresh button"; "find the"; "student click" ].

(** Line 527: U+FF0C and the words U+5B66 U+751F, U+70B9 U+51FB and
    U+8BF7 U+4F60. *)
Definition sanitize_deny : list string :=
  [ utf8 65292;
    (utf8 23398 ++ utf8 29983)%string;
    (utf8 28857 ++ utf8 20987)%string;
    (utf8 35831 ++ utf8 20320)%string ].

(** The defaults of [debug_sanitize_suggestions]. *)
Definition sanitize_default_suggestions : list string :=
  [ "Focus on addressing the question directly";
    "Provide more specific examples";
    "Organize your answer with a clear structure" ].

(** Lines 521-531 for one item; [None] stands for [continue]. *)
Definition sanitize_item (item : json) : option string :=
  match item with
  | JStr s =>
      if existsb (fun x => contains x s) sanitize_deny then None else Some s
  | _ => None
  end.

Fixpoint sanitize_items (l : list json) : list string :=
  match l with
  | [] => []
  | item :: rest =>
      match sanitize_item item with
      | Some s => s :: sanitize_items rest
      | None => sanitize_items rest
      end
  end.

Definition debug_sanitize_suggestions (suggestions : json) : list string :=
  match suggestions with
  | JList l =>
      match sanitize_items l with
      | [] => sanitize_default_suggestions
      | clean_suggestions => clean_suggestions
      end
  | _ => sanitize_default_suggestions
  end.

Section Render.
Context `{Builtins} `{FB : FloatBuiltins}.

(** Lines 95-119 for one suggestion; [None] stands for [continue]. *)
Definition render_clean (suggestion : json) : option string :=
  match suggestion with
  | JStr s =>
      let clean_text := str_strip s in
      if clean_text =? "" then None
      else if existsb (fun char => contains char clean_text) render_deny_chars
      then None
      else if contains "<" clean_text || contains ">" clean_text then None
      else if existsb (fun phrase => contains phrase (str_lower clean_text))
                render_deny_phrases
      then None
      else Some clean_text
  | _ => None
  end.

Fixpoint render_clean_all (l : list json) : list string :=
  match l with
  | [] => []
  | suggestion :: rest =>
      match render_clean suggestion with
      | Some clean_text => clean_text :: render_clean_all rest
      | None => render_clean_all rest
      end
  end.

(** Lines 81-136 of [render_ai_feedback]: the suggestions for the page,
    from the value under the key [suggestions]; [None]: the padding loop
    has not stopped within [fuel] rounds. *)
Definition page_suggestions (fuel : nat) (raw_suggestions : json)
  : option (list string) :=
  let raw := match raw_suggestions with JList l => l | _ => [] end in
  let clean := render_clean_all raw in
  let clean :=
    match clean with [] => render_default_suggestions | _ => clean end in
  AIService.pad_from render_default_suggestions fuel (firstn 3 clean).

(** [float(v)] *)
Definition py_float (v : json) : py_error + pyfloat :=
  match v with
  | JNull => inl PyTypeError
  | JBool b => inr (float_of_bool b)
  | JInt z =>
      match float_of_int z with
      | Some f => inr f
      | None => inl PyOverflowError
      end
  | JFloat f => inr f
  | JStr s =>
      match float_of_str s with
      | Some f => inr f
      | None => inl PyValueError
      end
  | JList _ | JDict _ => inl PyTypeError
  end.

(** [int(f)]: the integer towards zero. *)
Definition py_int (f : pyfloat) : py_error + Z :=
  match f with
  | FNaN => inl PyValueError
  | FInf | FNegInf => inl PyOverflowError
  | FFin q => inr (Z.quot (Qnum q) (Z.pos (Qden q)))
  end.

(** Lines 64-72: the score as a percentage.  The handler of line 69
    catches [ValueError] and [TypeError]; an [OverflowError] leaves
    these lines. *)
Definition page_score (d : list (string * json)) : py_error + Z :=
  match dict_get d "score" with
  | None | Some JNull => inr 50%Z
  | Some v =>
      let converted :=
        match py_float v with
        | inr f => py_int (times_hundred f)
        | inl e => inl e
        end in
      match converted with
      | inr score => inr (Z.max 0 (Z.min 100 score))
      | inl PyOverflowError => inl PyOverflowError
      | inl _ => inr 50%Z
      end
  end.

(** Lines 139-144 *)
Definition score_color (score : Z) : string :=
  if (80 <=? score)%Z then "#4CAF50"
  else if (60 <=? score)%Z then "#FFC107"
  else "#FF5722".

(** What [render_ai_feedback] puts on the page: the notice of line 53,
    the error of line 60, the assessment of line 178 with its score, the
    colour of the score, its feedback and its suggestions, or the error
    of line 183. *)
Inductive rendering : Type :=
| NotAvailable
| InvalidFormat
| Assessment (score : Z) (color feedback : string)
    (clean_suggestions : list string)
| Problem.

(** [render_ai_feedback]; [None]: the padding loop has not stopped
    within [fuel] rounds. *)
Definition render_ai_feedback (fuel : nat) (evaluation_result : json)
  : option rendering :=
  if negb (truthy evaluation_result) then Some NotAvailable
  else
    match evaluation_result with
    | JDict d =>
        match page_score d with
        | inl _ => Some Problem
        | inr score =>
            let feedback :=
              match dict_get d "feedback" with
              | Some (JStr s) => s
              | _ => "No feedback available"
              end in
            let raw_suggestions :=
              match dict_get d "suggestions" with
              | Some v => v
              | None => JList []
              end in
            match page_suggestions fuel raw_suggestions with
            | Some clean_suggestions =>
                Some (Assessment score (score_color score) feedback
                        clean_suggestions)
            | None => None
            end
        end
    | _ => Some InvalidFormat
    end.

End Render.

End App.

(* ================================================================== *)
(** ** utils.py *)

Module Utils.

(** [validate_input]; [max_length] is [None] or an [int]. *)
Definition validate_input (text : string) (min_length : Z)
  (max_length : option Z) : bool :=
  let len := Z.of_nat (AIService.py_len text) in
  if (text =? "") || (len <? min_length)%Z then false
  else
    match max_length with
    | Some m => if negb (m =? 0)%Z && (m <? len)%Z then false else true
    | None => true
    end.

(** [string.ascii_uppercase + string.digits] *)
Definition chars : string := "ABCDEFGHIJKLMNOPQRSTUVWXYZ0123456789".

(** [random.choice(seq)]: the character at the position that the
    generator draws below [len(seq)]; [draw] is the generator's number,
    reduced here. *)
Definition choice (seq : string) (draw : nat) : ascii :=
  match String.get (draw mod String.length seq) seq with
  | Some c => c
  | None => " "%char
  end.

(** [''.join(random.choice(chars) for _ in range(length))]; [draws k] is
    the number drawn at the call of rank [k]. *)
Definition random_code (length : Z) (draws : nat -> nat) : string :=
  string_of_list_ascii
    (map (fun k => choice chars (draws k)) (seq 0 (Z.to_nat length))).

Definition generate_class_code (length : Z) (draws : nat -> nat) : string :=
  random_code length draws.

Definition generate_student_id (draws : nat -> nat) : string :=
  ("S-" ++ random_code 4 draws)%string.

(** What binding a socket to a port does: it succeeds, raises [OSError],
    or raises something else. *)
Inductive bind_result : Type :=
| Bound
| RaisesOSError
| RaisesOther.

(** The loop of [find_available_port]; [None]: out of fuel, [Some None]:
    an exception that is not an [OSError] left the function. *)
Fixpoint try_ports (bind : Z -> bind_result) (fuel : nat)
  (port max_port : Z) : option (option Z) :=
  if (port <? max_port)%Z then
    match fuel with
    | O => None
    | S fuel' =>
        match bind port with
        | Bound => Some (Some port)
        | RaisesOSError => try_ports bind fuel' (port + 1)%Z max_port
        | RaisesOther => Some None
        end
    end
  else Some (Some 8501%Z).

Definition find_available_port (bind : Z -> bind_result) (fuel : nat)
  (start_port : Z) : option (option Z) :=
  try_ports bind fuel start_port (start_port + 100)%Z.

End Utils.

(* ================================================================== *)
(** ** app.py: the question list of [teacher_view] *)

Module TeacherView.

Import Database.

(** The fields of [st.session_state] that the teacher page reads and
    writes around its list of questions. *)
Record teacher_state : Type := {
  questions : list string;
  current_question : option string;
  current_question_index : Z;
  editing_question_index : Z;
  delete_confirm : option nat;
  class_code : option string
}.

(** Lines 396-415: the fields of a new session. *)
Definition new_session : teacher_state :=
  {| questions := [];
     current_question := None;
     current_question_index := -1;
     editing_question_index := -1;
     delete_confirm := None;
     class_code := None |}.

(** [l[i]] with an [int]: a negative index counts from the end, and
    [None] stands for [IndexError]. *)
Definition py_get (l : list string) (i : Z) : option string :=
  let len := Z.of_nat (List.length l) in
  if (0 <=? i)%Z then nth_error l (Z.to_nat i)
  else if (- len <=? i)%Z then nth_error l (Z.to_nat (len + i))
  else None.

(** [l[i] = x] for a position of the list. *)
Fixpoint set_nth (l : list string) (i : nat) (x : string) : list string :=
  match l, i with
  | [], _ => []
  | _ :: rest, O => x :: rest
  | y :: rest, S i' => y :: set_nth rest i' x
  end.

(** [l[i], l[j] = l[j], l[i]] for two positions of the list. *)
Definition swap (l : list string) (i j : nat) : list string :=
  match nth_error l i, nth_error l j with
  | Some x, Some y => set_nth (set_nth l i y) j x
  | _, _ => l
  end.

(** The list after [l.pop(i)] for a position of the list. *)
Fixpoint pop (l : list string) (i : nat) : list string :=
  match l, i with
  | [], _ => []
  | _ :: rest, O => rest
  | y :: rest, S i' => y :: pop rest i'
  end.

(** [if st.session_state.class_code:] *)
Definition open_class (st : teacher_state) : option string :=
  match class_code st with
  | Some code => if code =? "" then None else Some code
  | None => None
  end.

(** How a handler ends: it runs to its end, or an exception leaves it,
    from the gateway or from subscripting the list. *)
Inductive ending : Type :=
| Ended
| GatewayRaised (e : exn)
| IndexError.

(** What a handler leaves: its ending, the session and the tables. *)
Definition handled : Type := ending * teacher_state * database.

(** [db.update_classroom_question(code, question)], its value dropped,
    followed by [rest] on the session. *)
Definition push_question (code : string) (st : teacher_state)
  (rest : teacher_state -> teacher_state) (db : database)
  (script : fault_script) : handled :=
  match update_classroom_question code (current_question st) db script with
  | (Returned _, db') => (Ended, rest st, db')
  | (Raised e, db') => (GatewayRaised e, st, db')
  end.

(** Lines 907-915 and 949-955: a question is added to the list. *)
Definition add_question (question_text : string) (st : teacher_state)
  : teacher_state :=
  if Utils.validate_input question_text 0 None then
    let questions' := questions st ++ [question_text] in
    let first :=
      (List.length questions' =? 1)%nat
      || match current_question st with None => true | Some _ => false end in
    {| questions := questions';
       current_question :=
         if first then Some question_text else current_question st;
       current_question_index :=
         if first then 0%Z else current_question_index st;
       editing_question_index := editing_question_index st;
       delete_confirm := delete_confirm st;
       class_code := class_code st |}
  else st.

Definition with_editing (index : Z) (st : teacher_state) : teacher_state :=
  {| questions := questions st;
     current_question := current_question st;
     current_question_index := current_question_index st;
     editing_question_index := index;
     delete_confirm := delete_confirm st;
     class_code := class_code st |}.

(** Lines 982-991: "Save Changes" on row [i], which is drawn for a
    position of the list that is being edited. *)
Definition save_edit (i : nat) (edited_question : string)
  (st : teacher_state) (db : database) (script : fault_script) : handled :=
  if (i <? List.length (questions st))%nat
     && (editing_question_index st =? Z.of_nat i)%Z
     && Utils.validate_input edited_question 0 None
  then
    let questions' := set_nth (questions st) i edited_question in
    if (Z.of_nat i =? current_question_index st)%Z then
      let st' :=
        {| questions := questions';
           current_question := Some edited_question;
           current_question_index := current_question_index st;
           editing_question_index := editing_question_index st;
           delete_confirm := delete_confirm st;
           class_code := class_code st |} in
      match open_class st' with
      | Some code => push_question code st' (with_editing (-1)) db script
      | None => (Ended, with_editing (-1) st', db)
      end
    else
      (Ended,
       {| questions := questions';
          current_question := current_question st;
          current_question_index := current_question_index st;
          editing_question_index := -1;
          delete_confirm := delete_confirm st;
          class_code := class_code st |},
       db)
  else (Ended, st, db).

(** Lines 1016-1023 and 1026-1033: rows [i] and [j] change places, and
    the index follows the current question. *)
Definition exchange (i j : nat) (st : teacher_state) : teacher_state :=
  {| questions := swap (questions st) i j;
     current_question := current_question st;
     current_question_index :=
       if (Z.of_nat i =? current_question_index st)%Z then Z.of_nat j
       else if (Z.of_nat j =? current_question_index st)%Z then Z.of_nat i
       else current_question_index st;
     editing_question_index := editing_question_index st;
     delete_confirm := delete_confirm st;
     class_code := class_code st |}.

(** "Move Up" on row [i]: drawn for a position that is not being edited
    and is not the first. *)
Definition move_up (i : nat) (st : teacher_state) : teacher_state :=
  if (i <? List.length (questions st))%nat
     && negb (editing_question_index st =? Z.of_nat i)%Z
     && (0 <? i)%nat
  then exchange i (i - 1) st
  else st.

(** "Move Down" on row [i]: drawn for a position that is not being
    edited and is not the last. *)
Definition move_down (i : nat) (st : teacher_state) : teacher_state :=
  if (i <? List.length (questions st))%nat
     && negb (editing_question_index st =? Z.of_nat i)%Z
     && (Z.of_nat i <? Z.of_nat (List.length (questions st)) - 1)%Z
  then exchange i (i + 1) st
  else st.

Definition with_delete_confirm (confirm : option nat) (st : teacher_state)
  : teacher_state :=
  {| questions := questions st;
     current_question := current_question st;
     current_question_index := current_question_index st;
     editing_question_index := editing_question_index st;
     delete_confirm := confirm;
     class_code := class_code st |}.

(** Lines 1009-1013: "Delete" on row [i]. *)
Definition request_delete (i : nat) (st : teacher_state) : teacher_state :=
  if (i <? List.length (questions st))%nat
     && negb (editing_question_index st =? Z.of_nat i)%Z
  then with_delete_confirm (Some i) st
  else st.

(** Lines 1035-1057: "Confirm Delete", drawn while the list is not empty
    and a row awaits confirmation.  [pop] raises [IndexError] when the
    row is no longer a position of the list. *)
Definition confirm_delete (st : teacher_state) (db : database)
  (script : fault_script) : handled :=
  match questions st, delete_confirm st with
  | _ :: _, Some i =>
      if (i <? List.length (questions st))%nat then
        let questions' := pop (questions st) i in
        if (Z.of_nat i =? current_question_index st)%Z then
          match questions' with
          | _ :: _ =>
              let new_index :=
                Z.min (Z.of_nat i) (Z.of_nat (List.length questions') - 1) in
              match py_get questions' new_index with
              | Some question =>
                  let st' :=
                    {| questions := questions';
                       current_question := Some question;
                       current_question_index := new_index;
                       editing_question_index := editing_question_index st;
                       delete_confirm := delete_confirm st;
                       class_code := class_code st |} in
                  match open_class st' with
                  | Some code =>
                      push_question code st' (with_delete_confirm None)
                        db script
                  | None => (Ended, with_delete_confirm None st', db)
                  end
              | None =>
                  (IndexError,
                   {| questions := questions';
                      current_question := current_question st;
                      current_question_index := new_index;
                      editing_question_index := editing_question_index st;
                      delete_confirm := delete_confirm st;
                      class_code := class_code st |},
                   db)
              end
          | [] =>
              (Ended,
               {| questions := questions';
                  current_question := None;
                  current_question_index := -1;
                  editing_question_index := editing_question_index st;
                  delete_confirm := None;
                  class_code := class_code st |},
               db)
          end
        else
          (Ended,
           {| questions := questions';
              current_question := current_question st;
              current_question_index :=
                if (Z.of_nat i <? current_question_index st)%Z
                then (current_question_index st - 1)%Z
                else current_question_index st;
              editing_question_index := editing_question_index st;
              delete_confirm := None;
              class_code := class_code st |},
           db)
      else (IndexError, st, db)
  | _, _ => (Ended, st, db)
  end.

(** The three assignments and the call shared by lines 1091-1093,
    1102-1104 and 1112-1114: the index moves, the current question is
    read at it, and the question is written to the classroom. *)
Definition go_to (index : Z) (code : string) (st : teacher_state)
  (db : database) (script : fault_script) : handled :=
  let moved :=
    {| questions := questions st;
       current_question := current_question st;
       current_question_index := index;
       editing_question_index := editing_question_index st;
       delete_confirm := delete_confirm st;
       class_code := class_code st |} in
  match py_get (questions st) index with
  | Some question =>
      push_question code
        {| questions := questions st;
           current_question := Some question;
           current_question_index := index;
           editing_question_index := editing_question_index st;
           delete_confirm := delete_confirm st;
           class_code := class_code st |}
        (fun st' => st') db script
  | None => (IndexError, moved, db)
  end.

(** Lines 1084-1094: a choice in the list of the questions, drawn while
    a class is open and the list is not empty. *)
Definition select_question (selected_index : nat) (st : teacher_state)
  (db : database) (script : fault_script) : handled :=
  match open_class st, questions st with
  | Some code, _ :: _ =>
      if (selected_index <? List.length (questions st))%nat
         && negb (Z.of_nat selected_index =? current_question_index st)%Z
      then go_to (Z.of_nat selected_index) code st db script
      else (Ended, st, db)
  | _, _ => (Ended, st, db)
  end.

(** Lines 1100-1105: "Previous Question". *)
Definition previous_question (st : teacher_state) (db : database)
  (script : fault_script) : handled :=
  match open_class st, questions st with
  | Some code, _ :: _ =>
      if (0 <? current_question_index st)%Z
      then go_to (current_question_index st - 1) code st db script
      else (Ended, st, db)
  | _, _ => (Ended, st, db)
  end.

(** Lines 1110-1115: "Next Question". *)
Definition next_question (st : teacher_state) (db : database)
  (script : fault_script) : handled :=
  match open_class st, questions st with
  | Some code, _ :: _ =>
      if (current_question_index st
            <? Z.of_nat (List.length (questions st)) - 1)%Z
      then go_to (current_question_index st + 1) code st db script
      else (Ended, st, db)
  | _, _ => (Ended, st, db)
  end.

(** Lines 1245-1250: "End Class". *)
Definition end_class (st : teacher_state) : teacher_state :=
  {| questions := questions st;
     current_question := None;
     current_question_index := current_question_index st;
     editing_question_index := editing_question_index st;
     delete_confirm := delete_confirm st;
     class_code := None |}.

(** Lines 1254-1265: "Generate Class Code", drawn while no class is open
    and the list is not empty; [new_code] is the code generated. *)
Definition create_class (new_code : string) (now : timestamp)
  (st : teacher_state) (db : database) (script : fault_script) : handled :=
  match open_class st, questions st with
  | None, _ :: _ =>
      match create_classroom new_code "teacher-1" (current_question st) now
              db script with
      | (Returned true, db') =>
          (Ended,
           {| questions := questions st;
              current_question := current_question st;
              current_question_index := current_question_index st;
              editing_question_index := editing_question_index st;
              delete_confirm := delete_confirm st;
              class_code := Some new_code |},
           db')
      | (Returned false, db') => (Ended, st, db')
      | (Raised e, db') => (GatewayRaised e, st, db')
      end
  | _, _ => (Ended, st, db)
  end.

End TeacherView.

(* ================================================================== *)
(** * What the specification states, as predicates *)

(** A score that is a number of the unit interval. *)
Definition unit_score (x : pyfloat) : Prop :=
  exists q, x = FFin q /\ (0 <= q <= 1)%Q.

(** Exactly three suggestions, none of them empty. *)
Definition three_suggestions (l : list string) : Prop :=
  List.length l = 3 /\ Forall (fun s => s <> "") l.

(** The output contract of the normaliser as the specification has it. *)
Definition output_contract (ev : evaluation) : Prop :=
  unit_score (score ev) /\ feedback ev <> "" /\
  three_suggestions (suggestions ev).

(** A suggestion that passes both checks of the filtering loop. *)
Definition free_of_denylist `{Builtins} (s : string) : Prop :=
  (forall char, In char AIService.deny_chars -> contains char s = false) /\
  (forall word, In word AIService.deny_words ->
                contains word (str_lower s) = false).

(** The nine suggestions that the code holds as literals. *)
Definition canned_suggestions : list string :=
  AIService.default_suggestions
    ++ suggestions AIService.unparsed_evaluation
    ++ suggestions AIService.error_evaluation.

(** The two checks of the filtering loop on an ASCII text, as a test. *)
Definition passes_denylist (s : string) : bool :=
  ascii_only s
  && forallb (fun char => negb (contains char s)) AIService.deny_chars
  && forallb (fun word => negb (contains word (ascii_lower s)))
       AIService.deny_words.

(** A suggestion without markup delimiters. *)
Definition free_of_markup (s : string) : Prop :=
  contains "<" s = false /\ contains ">" s = false.

(** A suggestion value that the filtering loop appends as it stands. *)
Definition kept_as_is `{Builtins} (v : json) : Prop :=
  exists s, v = JStr s /\ AIService.clean_suggestion v = Some s.

(** The connection of a method opens under this script. *)
Definition opens (script : Database.fault_script) : bool :=
  match script with
  | Some _ :: _ => false
  | _ => true
  end.

(** A method that lets no exception out once its connection is open:
    it returns, and either it returned [neutral] with the tables as they
    were, or the script made no difference to the run. *)
Definition catches {A} (neutral : A) (run : Database.method A) : Prop :=
  forall db script,
    opens script = true ->
    (exists a, fst (run db script) = Database.Returned a) /\
    (run db script = (Database.Returned neutral, db) \/
     run db script = run db []).

(** The row that the queries on [class_code] find first. *)
Definition classroom_of (code : string) (db : Database.database)
  : option Database.classroom :=
  List.find (fun c => Database.class_code c =? code) (Database.classrooms db).

(** *** Concrete replies of the AI service, run with the reference
    built-ins *)

(** An object whose feedback is the empty string. *)
Definition reply_empty_feedback : string :=
  Reference.json_text
    "{'score': 0.9, 'feedback': '', 'suggestions': ['Quote the text']}".

(** Suggestions with markup and with a phrase of the denylist, inside a
    code fence. *)
Definition reply_markup : string :=
  Reference.json_text
    "Here you are: ```json {'score': 7, 'feedback': 'ok', 'suggestions': ['Use <b>bold</b> headings', 'click the refresh button', 'Add dates']} ```".

Definition result_markup : evaluation :=
  {| score := FFin 1%Q;
     feedback := "ok";
     suggestions :=
       [ "Use <b>bold</b> headings"; "Add dates";
         "Focus on addressing the main points of the question" ] |}.

(** A reply to [get_simple_suggestions] of two numbered lines, and
    lines without numbers. *)
Definition simple_reply : string :=
  "1. Add dates" ++ String AIService.newline "2) Quote the text".

Definition plain_lines : list string :=
  [ "Add <b>dates</b>"; "Quote the text"; "Name your sources";
    "Check the spelling" ].

(** *** Concrete tables and sessions *)

Definition no_tables : Database.database :=
  {| Database.classrooms := [];
     Database.students := [];
     Database.answers := [] |}.

(** The classroom of the scenario of the specification. *)
Definition classroom_AB12 (q : string) : Database.classroom :=
  {| Database.class_code := "AB12";
     Database.created_at := 1%Z;
     Database.teacher_id := "teacher-1";
     Database.question := Some q;
     Database.status := "active" |}.

Definition student_S1 : Database.student :=
  {| Database.student_id := "S-0001";
     Database.student_class_code := "AB12";
     Database.joined_at := 2%Z |}.

(** One classroom with one student in it. *)
Definition one_classroom : Database.database :=
  {| Database.classrooms := [classroom_AB12 "Why is X?"];
     Database.students := [student_S1];
     Database.answers := [] |}.

(** A student who has answered the first question and holds a video
    for it. *)
Definition answered_session : App.session_state :=
  {| App.class_code := Some "AB12";
     App.student_id := Some "S-0001";
     App.current_question := Some "Why is X?";
     App.answer_submitted := true;
     App.evaluation_result := None;
     App.video_url := Some "https://video.example/1.mp4";
     App.video_request_id := Some "tlk_1";
     App.generating_video := false;
     App.show_video_form := false |}.

(** An evaluation as [student_view] saves it, and a stored payload
    with values of several types. *)
Definition simple_eval : evaluation :=
  {| score := FFin (7 # 10)%Q;
     feedback := "Thank you for your answer.";
     suggestions := ["Add dates"; "Quote the text"; "Name your sources"] |}.

Definition mixed_payload : string :=
  Reference.json_text
    "[1, 'a', 0, '', null, 'b', 'c', [2], true, false, 'd']".

Definition mixed_values : list json :=
  [ JInt 1; JStr "a"; JInt 0; JStr ""; JNull; JStr "b"; JStr "c";
    JList [JInt 2]; JBool true; JBool false; JStr "d" ].

(** The same classroom after two answers of its student. *)
Definition two_answers : Database.database :=
  {| Database.classrooms := [classroom_AB12 "Why is X?"];
     Database.students := [student_S1];
     Database.answers :=
       [ {| Database.answer_student_id := "S-0001";
            Database.answer_class_code := "AB12";
            Database.answer_question := "Why is X?";
            Database.answer_text := "Because of Y.";
            Database.answer_score := FFin (7 # 10)%Q;
            Database.answer_feedback := "Thank you for your answer.";
            Database.answer_suggestions := "[]";
            Database.submitted_at := 3%Z |};
         {| Database.answer_student_id := "S-0001";
            Database.answer_class_code := "AB12";
            Database.answer_question := "Why is X?";
            Database.answer_text := "Because of Y and Z.";
            Database.answer_score := FFin (9 # 10)%Q;
            Database.answer_feedback := "Better.";
            Database.answer_suggestions := "[]";
            Database.submitted_at := 4%Z |} ] |}.

(** An evaluation as a [dict], with suggestions that have markup. *)
Definition page_evaluation : json :=
  JDict [ ("score", JFloat (FFin (7 # 10)%Q));
          ("feedback", JStr "ok");
          ("suggestions", JList (map JStr (suggestions result_markup))) ].

(** A teacher with two questions and the classroom "AB12" open on the
    first. *)
Definition teaching_session : TeacherView.teacher_state :=
  {| TeacherView.questions := ["Why is X?"; "Why is Y?"];
     TeacherView.current_question := Some "Why is X?";
     TeacherView.current_question_index := 0%Z;
     TeacherView.editing_question_index := (-1)%Z;
     TeacherView.delete_confirm := None;
     TeacherView.class_code := Some "AB12" |}.


(** The classroom "AB12" with an answer whose stored suggestions are
    [mixed_payload]. *)
Definition mixed_row : Database.answer :=
  {| Database.answer_student_id := "S-0001";
     Database.answer_class_code := "AB12";
     Database.answer_question := "Why is X?";
     Database.answer_text := "Because of Y.";
     Database.answer_score := FFin (7 # 10)%Q;
     Database.answer_feedback := "Thank you for your answer.";
     Database.answer_suggestions := mixed_payload;
     Database.submitted_at := 3%Z |}.

Definition mixed_tables : Database.database :=
  {| Database.classrooms := [classroom_AB12 "Why is X?"];
     Database.students := [student_S1];
     Database.answers := [mixed_row] |}.

(** *** Tables as the gateway leaves them *)

(** Class codes and student ids are unique, every student row names a
    classroom that is there, and every classroom is [active]. *)
Definition consistent (db : Database.database) : Prop :=
  NoDup (map Database.class_code (Database.classrooms db)) /\
  NoDup (map Database.student_id (Database.students db)) /\
  (forall s, In s (Database.students db) ->
     Database.has_classroom (Database.student_class_code s) db = true) /\
  (forall c, In c (Database.classrooms db) -> Database.status c = "active").

(** A classroom row with another question. *)
Definition with_question (c : Database.classroom) (q : option string)
  : Database.classroom :=
  {| Database.class_code := Database.class_code c;
     Database.created_at := Database.created_at c;
     Database.teacher_id := Database.teacher_id c;
     Database.question := q;
     Database.status := Database.status c |}.

(** A suggestion that passes the four checks of [render_ai_feedback]. *)
Definition fit_to_render `{Builtins} (s : string) : Prop :=
  s <> "" /\ free_of_markup s /\
  (forall char, In char App.render_deny_chars -> contains char s = false) /\
  (forall phrase, In phrase App.render_deny_phrases ->
                  contains phrase (str_lower s) = false).

(** The four checks on an ASCII text, as a test. *)
Definition passes_render (s : string) : bool :=
  ascii_only s
  && negb (s =? "")
  && negb (contains "<" s) && negb (contains ">" s)
  && forallb (fun char => negb (contains char s)) App.render_deny_chars
  && forallb (fun phrase => negb (contains phrase (ascii_lower s)))
       App.render_deny_phrases.

(** A suggestion without the four texts of
    [debug_sanitize_suggestions]. *)
Definition fit_to_list (s : string) : Prop :=
  forall x, In x App.sanitize_deny -> contains x s = false.

(** The parts of what a handler of the teacher page leaves. *)
Definition ending_of (h : TeacherView.handled) : TeacherView.ending :=
  fst (fst h).

Definition session_of (h : TeacherView.handled) : TeacherView.teacher_state :=
  snd (fst h).

Definition tables_of (h : TeacherView.handled) : Database.database := snd h.

(** The index points at the current question in the list, or there is
    no question at all. *)
Definition pointer_ok (st : TeacherView.teacher_state) : Prop :=
  (TeacherView.questions st = [] /\
   TeacherView.current_question st = None /\
   TeacherView.current_question_index st = (-1)%Z) \/
  (exists q,
     (0 <= TeacherView.current_question_index st)%Z /\
     nth_error (TeacherView.questions st)
       (Z.to_nat (TeacherView.current_question_index st)) = Some q /\
     TeacherView.current_question st = Some q).

(** The row that awaits the confirmation of its deletion is a row of
    the list. *)
Definition confirm_ok (st : TeacherView.teacher_state) : Prop :=
  forall i,
    TeacherView.delete_confirm st = Some i ->
    i < List.length (TeacherView.questions st).

(** A handler that keeps both: it does not end in [IndexError], the
    index points at the current question afterwards, and the row
    awaiting confirmation is a row of the list when the handler ran to
    its end. *)
Definition well_kept (h : TeacherView.handled) : Prop :=
  ending_of h <> TeacherView.IndexError /\
  pointer_ok (session_of h) /\
  (ending_of h = TeacherView.Ended -> confirm_ok (session_of h)).

(** The classroom that is open holds the current question of the
    teacher's session. *)
Definition mirrored (st : TeacherView.teacher_state)
  (db : Database.database) : Prop :=
  forall code c,
    TeacherView.open_class st = Some code ->
    classroom_of code db = Some c ->
    Database.question c = TeacherView.current_question st.

(** A session with the same list, current question and index. *)
Definition same_list (st st' : TeacherView.teacher_state) : Prop :=
  TeacherView.questions st' = TeacherView.questions st /\
  TeacherView.current_question st' = TeacherView.current_question st /\
  TeacherView.current_question_index st'
  = TeacherView.current_question_index st.

(** A handler that ran to its end and left the classroom with the
    current question. *)
Definition ends_mirrored (h : TeacherView.handled) : Prop :=
  ending_of h = TeacherView.Ended /\
  mirrored (session_of h) (tables_of h).

(** An upper-case ASCII letter or a digit. *)
Definition upper_or_digit (c : ascii) : bool :=
  let n := nat_of_ascii c in
  (((65 <=? n) && (n <=? 90)) || ((48 <=? n) && (n <=? 57)))%nat.

(** The defaults that [current] does not hold, in their order. *)
Definition missing (defaults current : list string) : list string :=
  filter (fun d => negb (mem d current)) defaults.

(** Newest first, oldest first. *)
Definition newest_first (v w : Database.answer_view) : Prop :=
  (Database.view_submitted_at w <= Database.view_submitted_at v)%Z.

Definition oldest_first (a b : Database.answer) : Prop :=
  (Database.submitted_at a <= Database.submitted_at b)%Z.

(* ================================================================== *)
(** * Properties *)

(** ** Strings *)

Lemma mem_true_iff (x : string) (l : list string) :
  mem x l = true <-> In x l.
Proof.
  unfold mem. rewrite existsb_exists. split.
  - intros [y [Hy Heq]]. apply String.eqb_eq in Heq. now subst.
  - intros Hin. exists x. split; [assumption | apply String.eqb_refl].
Qed.

Lemma mem_false_iff (x : string) (l : list string) :
  mem x l = false <-> ~ In x l.
Proof.
  rewrite <- mem_true_iff. destruct (mem x l); split; congruence.
Qed.

Lemma in_firstn {A} (n : nat) (l : list A) (x : A) :
  In x (firstn n l) -> In x l.
Proof.
  revert l. induction n as [|n IH]; intros [|y l]; simpl; try tauto.
  intros [-> | Hin]; auto.
Qed.

Lemma eqb_empty_false (s : string) : (s =? "") = false -> s <> "".
Proof. intros H E. subst. discriminate. Qed.

(** ** The evaluation normaliser *)

Section NormaliserFacts.
Context `{Builtins}.
Import AIService.

Lemma clamp_unit (x : pyfloat) : unit_score (clamp x).
Proof.
  unfold clamp, py_max, py_min, unit_score.
  destruct x as [| | |q]; simpl.
  - exists 1%Q. split; [reflexivity | split; discriminate].
  - exists 1%Q. split; [reflexivity | split; discriminate].
  - exists 0%Q. split; [reflexivity | split; discriminate].
  - destruct (Qlt_le_dec q 1%Q) as [Hlt | Hge]; simpl.
    + destruct (Qlt_le_dec 0%Q q) as [Hpos | Hneg].
      * exists q. split; [reflexivity | split; apply Qlt_le_weak; assumption].
      * exists 0%Q. split; [reflexivity | split; discriminate].
    + exists 1%Q. split; [reflexivity | split; discriminate].
Qed.

Lemma half_unit : unit_score half.
Proof. exists (1 # 2)%Q. split; [reflexivity | split; discriminate]. Qed.

Lemma coerce_score_unit d x : coerce_score d = Some x -> unit_score x.
Proof.
  unfold coerce_score.
  destruct (dict_get d "score") as [[| b | z | f | s | l | d']|];
    intros E; try (injection E as <-; auto using half_unit, clamp_unit).
  destruct (float_of_int z); simpl in E; [|discriminate].
  injection E as <-. apply clamp_unit.
Qed.

Lemma default_suggestions_NoDup : NoDup default_suggestions.
Proof.
  unfold default_suggestions.
  repeat constructor; simpl; intuition discriminate.
Qed.

(** With fewer than three suggestions held, one default is missing. *)
Lemma first_missing_some (current : list string) :
  List.length current < 3 ->
  exists d, first_missing current = Some d /\
            In d default_suggestions /\ ~ In d current.
Proof.
  intros Hlen. unfold first_missing.
  destruct (List.find _ default_suggestions) as [d|] eqn:E.
  - apply find_some in E as [Hin Hnot].
    exists d. repeat split; auto.
    apply mem_false_iff. now apply negb_true_iff.
  - exfalso.
    assert (Hincl : incl default_suggestions current).
    { intros d Hd. apply mem_true_iff.
      pose proof (find_none _ _ E d Hd) as Hn.
      now apply negb_false_iff in Hn. }
    pose proof (NoDup_incl_length default_suggestions_NoDup Hincl) as Hle.
    simpl in Hle. lia.
Qed.

Lemma pad_suggestions_O (current : list string) :
  pad_suggestions 0 current =
  if (List.length current <? 3)%nat then None else Some current.
Proof. reflexivity. Qed.

Lemma pad_suggestions_S (fuel : nat) (current : list string) :
  pad_suggestions (S fuel) current =
  if (List.length current <? 3)%nat then
    let current' :=
      match first_missing current with
      | Some suggestion => current ++ [suggestion]
      | None => current
      end in
    if (3 <=? List.length current')%nat then Some current'
    else pad_suggestions fuel current'
  else Some current.
Proof. reflexivity. Qed.

(** Whatever the loop returns holds what was there and defaults. *)
Lemma pad_suggestions_from (fuel : nat) :
  forall current l,
    pad_suggestions fuel current = Some l ->
    forall s, In s l -> In s current \/ In s default_suggestions.
Proof.
  induction fuel as [|fuel IH]; intros current l.
  - rewrite pad_suggestions_O.
    destruct (List.length current <? 3)%nat; [discriminate|].
    intros E; injection E as <-; auto.
  - rewrite pad_suggestions_S.
    destruct (List.length current <? 3)%nat;
      [|intros E; injection E as <-; auto].
    cbv zeta.
    destruct (first_missing current) as [d|] eqn:Ed.
    + apply find_some in Ed as [Hd _].
      destruct (3 <=? List.length (current ++ [d]))%nat.
      * intros E; injection E as <-. intros s Hs.
        apply in_app_or in Hs as [Hs | [<- | []]]; auto.
      * intros E s Hs. destruct (IH _ _ E s Hs) as [Hc | Hc]; auto.
        apply in_app_or in Hc as [Hc | [<- | []]]; auto.
    + destruct (3 <=? List.length current)%nat.
      * intros E; injection E as <-; auto.
      * intros E s Hs. apply (IH _ _ E s Hs).
Qed.

(** The padding loop stops within [3 - len] rounds, on three
    suggestions, each of them held before or a default. *)
Lemma pad_suggestions_stops (fuel : nat) :
  forall current,
    3 <= fuel + List.length current ->
    exists l,
      pad_suggestions fuel current = Some l /\
      (List.length current <= 3 -> List.length l = 3) /\
      (forall s, In s l -> In s current \/ In s default_suggestions).
Proof.
  induction fuel as [|fuel IH]; intros current Hfuel.
  - rewrite pad_suggestions_O.
    destruct (List.length current <? 3)%nat eqn:E.
    + apply Nat.ltb_lt in E. simpl in Hfuel. lia.
    + apply Nat.ltb_ge in E. exists current. repeat split; auto. lia.
  - rewrite pad_suggestions_S.
    destruct (List.length current <? 3)%nat eqn:E.
    + apply Nat.ltb_lt in E.
      destruct (first_missing_some current E) as [d [Hd [Hin _]]].
      rewrite Hd. cbv zeta.
      destruct (3 <=? List.length (current ++ [d]))%nat eqn:E3.
      * exists (current ++ [d]). split; [reflexivity|]. split.
        -- intros _. apply Nat.leb_le in E3.
           rewrite length_app in *. simpl in *. lia.
        -- intros s Hs. apply in_app_or in Hs as [Hs | [<- | []]]; auto.
      * apply Nat.leb_gt in E3.
        destruct (IH (current ++ [d])) as [l [Hl [Hlen Hfrom]]].
        { rewrite length_app. simpl. lia. }
        exists l. split; [assumption|]. split.
        -- intros _. apply Hlen. lia.
        -- intros s Hs. destruct (Hfrom s Hs) as [Hc | Hdft]; auto.
           apply in_app_or in Hc as [Hc | [<- | []]]; auto.
    + apply Nat.ltb_ge in E. exists current. repeat split; auto. lia.
Qed.

Lemma clean_suggestions_from (l : list json) (s : string) :
  In s (clean_suggestions l) ->
  exists v, In v l /\ clean_suggestion v = Some s.
Proof.
  induction l as [|v l IH]; simpl; [tauto|].
  destruct (clean_suggestion v) as [text|] eqn:E; simpl.
  - intros [<- | Hin].
    + exists v. auto.
    + destruct (IH Hin) as [w [Hw Hc]]. exists w. auto.
  - intros Hin. destruct (IH Hin) as [w [Hw Hc]]. exists w. auto.
Qed.

(** What the filtering loop appends is not empty and passes both
    denylists. *)
Lemma clean_suggestion_some (v : json) (s : string) :
  clean_suggestion v = Some s ->
  s <> "" /\ free_of_denylist s /\
  exists raw, v = JStr raw /\ s = str_strip raw.
Proof.
  unfold clean_suggestion.
  destruct v as [| b | z | f | raw | l | d]; try discriminate.
  destruct (str_strip raw =? "") eqn:Eempty; [discriminate|].
  destruct (existsb _ deny_chars) eqn:Echars; [discriminate|].
  destruct (existsb _ deny_words) eqn:Ewords; [discriminate|].
  intros E. injection E as <-.
  split; [now apply eqb_empty_false|]. split.
  - split.
    + intros char Hin.
      destruct (contains char (str_strip raw)) eqn:Ec; [|reflexivity].
      assert (existsb (fun char => contains char (str_strip raw)) deny_chars
              = true) as Habs
        by (apply existsb_exists; exists char; auto).
      congruence.
    + intros word Hin.
      destruct (contains word (str_lower (str_strip raw))) eqn:Ec;
        [|reflexivity].
      assert (existsb (fun word => contains word (str_lower (str_strip raw)))
                deny_words = true) as Habs
        by (apply existsb_exists; exists word; auto).
      congruence.
  - exists raw. auto.
Qed.

(** The suggestions of a parsed object: three of them for any fuel from
    three on, each one appended by the filtering loop or a default. *)
Lemma coerce_suggestions_three (fuel : nat) (d : list (string * json)) :
  3 <= fuel ->
  exists l,
    coerce_suggestions fuel d = Some l /\
    List.length l = 3 /\
    (forall s, In s l ->
       In s default_suggestions \/ exists v, clean_suggestion v = Some s).
Proof.
  intros Hfuel. unfold coerce_suggestions.
  assert (Hdefault :
    exists l, Some default_suggestions = Some l /\ List.length l = 3 /\
      (forall s, In s l ->
         In s default_suggestions \/ exists v, clean_suggestion v = Some s)).
  { exists default_suggestions. repeat split; auto. }
  destruct (dict_get d "suggestions") as [[| b | z | f | raw | l | d']|];
    try exact Hdefault.
  set (clean := match clean_suggestions l with
                | [] => default_suggestions
                | _ :: _ => clean_suggestions l
                end).
  assert (Hclean : forall s, In s clean ->
            In s default_suggestions \/ exists v, clean_suggestion v = Some s).
  { intros s Hs. subst clean.
    destruct (clean_suggestions l) as [|x xs] eqn:E; [auto|].
    right. rewrite <- E in Hs.
    destruct (clean_suggestions_from l s Hs) as [v [_ Hv]]. eauto. }
  destruct (pad_suggestions_stops fuel (firstn 3 clean)) as [r [Hr [Hlen Hfrom]]].
  { lia. }
  exists r. split; [exact Hr|]. split.
  - apply Hlen. rewrite length_firstn. lia.
  - intros s Hs. destruct (Hfrom s Hs) as [Hin | Hin]; auto.
    apply Hclean. eapply in_firstn; eauto.
Qed.

(** Where the suggestions of a result come from. *)
Lemma evaluate_answer_suggestions (fuel : nat) (response : option string)
  (ev : evaluation) :
  evaluate_answer fuel response = Some ev ->
  forall s, In s (suggestions ev) ->
    In s canned_suggestions \/ exists v, clean_suggestion v = Some s.
Proof.
  assert (Herr : forall s, In s (suggestions error_evaluation) ->
                           In s canned_suggestions).
  { intros s Hs. unfold canned_suggestions.
    apply in_or_app. right. apply in_or_app. now right. }
  assert (Hunp : forall s, In s (suggestions unparsed_evaluation) ->
                           In s canned_suggestions).
  { intros s Hs. unfold canned_suggestions.
    apply in_or_app. right. apply in_or_app. now left. }
  assert (Hdft : forall s, In s default_suggestions ->
                           In s canned_suggestions).
  { intros s Hs. unfold canned_suggestions. apply in_or_app. now left. }
  unfold evaluate_answer.
  destruct response as [content|];
    [|intros E; injection E as <-; auto].
  destruct (extract_json (str_strip content)) as [parsed|];
    [|intros E; injection E as <-; auto].
  unfold normalise.
  destruct parsed as [| b | z | f | raw | l | d];
    try (intros E; injection E as <-; auto).
  destruct (coerce_score d) as [sc|];
    [|intros E; injection E as <-; auto].
  destruct (coerce_suggestions fuel d) as [sugg|] eqn:Es; [|discriminate].
  intros E; injection E as <-. cbn [suggestions]. intros s Hs.
  unfold coerce_suggestions in Es.
  destruct (dict_get d "suggestions") as [[| b | z | f | raw | l | d']|];
    try solve [injection Es as <-; auto].
  set (clean := match clean_suggestions l with
                | [] => default_suggestions
                | _ :: _ => clean_suggestions l
                end) in *.
  assert (Hclean : forall t, In t clean ->
            In t canned_suggestions \/ exists v, clean_suggestion v = Some t).
  { intros t Ht. subst clean.
    destruct (clean_suggestions l) as [|x xs] eqn:E; [auto|].
    right. rewrite <- E in Ht.
    destruct (clean_suggestions_from l t Ht) as [v [_ Hv]]. eauto. }
  destruct (pad_suggestions_from _ _ _ Es s Hs) as [Hin | Hin]; auto.
  apply Hclean. eapply in_firstn; eauto.
Qed.

Lemma passes_denylist_sound (s : string) :
  passes_denylist s = true -> free_of_denylist s.
Proof.
  unfold passes_denylist. intros Hp.
  apply andb_true_iff in Hp as [Hp Hwords].
  apply andb_true_iff in Hp as [Hascii Hchars].
  rewrite forallb_forall in Hchars, Hwords.
  split.
  - intros char Hin. specialize (Hchars char Hin).
    now apply negb_true_iff in Hchars.
  - intros word Hin. specialize (Hwords word Hin).
    rewrite (lower_ascii_text s Hascii).
    now apply negb_true_iff in Hwords.
Qed.

Lemma canned_suggestions_checked :
  forallb (fun s => passes_denylist s && negb (s =? "")) canned_suggestions
  = true.
Proof. vm_compute. reflexivity. Qed.

Lemma canned_suggestion_fine (s : string) :
  In s canned_suggestions -> s <> "" /\ free_of_denylist s.
Proof.
  intros Hin.
  pose proof canned_suggestions_checked as Hall.
  rewrite forallb_forall in Hall. specialize (Hall s Hin).
  apply andb_true_iff in Hall as [Hp Hne]. split.
  - apply eqb_empty_false. now apply negb_true_iff in Hne.
  - now apply passes_denylist_sound.
Qed.

(** C1 (amended): for every reply of the AI service, and when obtaining
    the reply raised, [evaluate_answer] returns (its padding loop stops
    within three rounds) a result whose score is a number of [0,1] and
    whose suggestions are exactly three non-empty strings.  Its feedback
    is a string, and it is empty only when the reply parsed to an object
    whose [feedback] field is the empty string, which is kept. *)
Theorem evaluate_answer_contract (fuel : nat) (response : option string) :
  3 <= fuel ->
  exists ev,
    evaluate_answer fuel response = Some ev /\
    unit_score (score ev) /\
    three_suggestions (suggestions ev) /\
    (feedback ev = "" ->
     exists content d,
       response = Some content /\
       extract_json (str_strip content) = Some (JDict d) /\
       dict_get d "feedback" = Some (JStr "")).
Proof.
  intros Hfuel.
  assert (Hshape : forall ev,
            evaluate_answer fuel response = Some ev ->
            List.length (suggestions ev) = 3 ->
            three_suggestions (suggestions ev)).
  { intros ev Hev Hlen. split; [exact Hlen|].
    apply Forall_forall. intros s Hs.
    destruct (evaluate_answer_suggestions fuel response ev Hev s Hs)
      as [Hc | [v Hv]].
    - now apply canned_suggestion_fine.
    - now apply clean_suggestion_some in Hv. }
  assert (Hfixed : forall ev,
            evaluate_answer fuel response = Some ev ->
            score ev = half -> List.length (suggestions ev) = 3 ->
            feedback ev <> "" ->
            exists ev',
              evaluate_answer fuel response = Some ev' /\
              unit_score (score ev') /\
              three_suggestions (suggestions ev') /\
              (feedback ev' = "" ->
               exists content d,
                 response = Some content /\
                 extract_json (str_strip content) = Some (JDict d) /\
                 dict_get d "feedback" = Some (JStr ""))).
  { intros ev Hev Hsc Hlen Hfb. exists ev. split; [exact Hev|].
    split; [rewrite Hsc; apply half_unit|].
    split; [now apply Hshape|]. intros E. contradiction. }
  revert Hshape Hfixed. unfold evaluate_answer.
  destruct response as [content|].
  2:{ intros _ Hfixed. apply (Hfixed error_evaluation); auto.
      discriminate. }
  destruct (extract_json (str_strip content)) as [parsed|] eqn:Eparse.
  2:{ intros _ Hfixed. apply (Hfixed unparsed_evaluation); auto.
      discriminate. }
  unfold normalise.
  destruct parsed as [| b | z | f | raw | l | d];
    try (intros _ Hfixed; apply (Hfixed error_evaluation); auto;
         discriminate).
  destruct (coerce_score d) as [sc|] eqn:Esc.
  2:{ intros _ Hfixed. apply (Hfixed error_evaluation); auto.
      discriminate. }
  destruct (coerce_suggestions_three fuel d Hfuel) as [sugg [Hsugg [Hlen _]]].
  rewrite Hsugg. intros Hshape _.
  eexists. split; [reflexivity|]. cbn [score suggestions feedback].
  split; [eapply coerce_score_unit; eauto|].
  split; [exact (Hshape _ eq_refl Hlen)|].
  intros Hfb. exists content, d. repeat split; auto.
  unfold coerce_feedback in Hfb.
  destruct (dict_get d "feedback") as [[| b | z | f | raw | l | d']|];
    try discriminate.
  now subst raw.
Qed.

(** C4 (amended): no suggestion returned by [evaluate_answer] contains,
    once lower-cased, one of the words [script], [refresh], [student],
    [click], so that the phrase of the specification is never returned,
    and none contains one of the eight characters of the first check
    (two punctuation marks, the two double angle brackets and four
    ideographs).  The characters [<] and [>] are not among them. *)
Theorem evaluate_answer_denylist (fuel : nat) (response : option string)
  (ev : evaluation) :
  evaluate_answer fuel response = Some ev ->
  Forall free_of_denylist (suggestions ev) /\
  ~ In "click the refresh button" (suggestions ev).
Proof.
  intros Hev.
  assert (Hall : Forall free_of_denylist (suggestions ev)).
  { apply Forall_forall. intros s Hs.
    destruct (evaluate_answer_suggestions fuel response ev Hev s Hs)
      as [Hc | [v Hv]].
    - now apply canned_suggestion_fine.
    - now apply clean_suggestion_some in Hv. }
  split; [exact Hall|].
  intros Hin. rewrite Forall_forall in Hall.
  destruct (Hall _ Hin) as [_ Hwords].
  specialize (Hwords "click").
  rewrite lower_ascii_text in Hwords by reflexivity.
  assert (Hc : In "click" deny_words) by (simpl; tauto).
  specialize (Hwords Hc). vm_compute in Hwords. discriminate.
Qed.

(** C2 (amended): the filter of [evaluate_answer] and the re-validation
    of [get_answers_for_question] return the same list on every list of
    values that the former appends as they stand (stripped, non-empty
    strings that pass both denylists), and re-validating what the former
    has returned changes nothing. *)
Theorem filters_agree_on_kept :
  (forall l, Forall kept_as_is l ->
             clean_suggestions l = Database.revalidate l) /\
  (forall l, Database.revalidate (map JStr (clean_suggestions l))
             = clean_suggestions l).
Proof.
  assert (Hkept : forall l, Forall kept_as_is l ->
                            clean_suggestions l = Database.revalidate l).
  { induction 1 as [|v l [s [-> Hs]] _ IH]; [reflexivity|].
    cbn [clean_suggestions]. rewrite Hs.
    destruct (clean_suggestion_some _ _ Hs) as [Hne _].
    unfold Database.revalidate in *. cbn [filter truthy].
    destruct (s =? "") eqn:E; [apply String.eqb_eq in E; contradiction|].
    cbn [negb map py_str]. now rewrite IH. }
  split; [exact Hkept|].
  intros l. unfold Database.revalidate.
  induction l as [|v l IH]; [reflexivity|].
  cbn [clean_suggestions].
  destruct (clean_suggestion v) as [s|] eqn:Hs; [|exact IH].
  destruct (clean_suggestion_some _ _ Hs) as [Hne _].
  cbn [map filter truthy].
  destruct (s =? "") eqn:E; [apply String.eqb_eq in E; contradiction|].
  cbn [negb map py_str]. now rewrite IH.
Qed.

End NormaliserFacts.

(** *** The normaliser on concrete replies *)

(** C1, counterexample: the reply [reply_empty_feedback] is a JSON
    object with all three fields; the result keeps its empty feedback,
    so the output contract of the specification fails on it. *)
Lemma evaluate_answer_empty_feedback :
  exists ev,
    AIService.evaluate_answer 3 (Some reply_empty_feedback) = Some ev /\
    feedback ev = "" /\ ~ output_contract ev.
Proof.
  eexists. split; [vm_compute; reflexivity|].
  split; [reflexivity|].
  intros [_ [Hfeedback _]]. now apply Hfeedback.
Qed.

Lemma evaluate_answer_contract_witness :
  exists ev,
    AIService.evaluate_answer 3 (Some reply_empty_feedback) = Some ev /\
    unit_score (score ev) /\
    three_suggestions (suggestions ev) /\
    (feedback ev = "" ->
     exists content d,
       Some reply_empty_feedback = Some content /\
       AIService.extract_json (str_strip content) = Some (JDict d) /\
       dict_get d "feedback" = Some (JStr "")).
Proof.
  exact (evaluate_answer_contract (H := reference_builtins)
           3 (Some reply_empty_feedback) (le_n 3)).
Defined.

(** C4, counterexample: of the three suggestions of [reply_markup] the
    one with the phrase of the denylist is dropped and the one with
    [<b>] is returned. *)
Lemma evaluate_answer_keeps_markup :
  AIService.evaluate_answer 3 (Some reply_markup) = Some result_markup /\
  In "Use <b>bold</b> headings" (suggestions result_markup) /\
  ~ Forall free_of_markup (suggestions result_markup).
Proof.
  split; [vm_compute; reflexivity|].
  split; [simpl; tauto|].
  intros Hall. inversion Hall as [|s l [Hlt _] _]. vm_compute in Hlt.
  discriminate.
Qed.

Lemma evaluate_answer_denylist_witness :
  Forall free_of_denylist (suggestions result_markup) /\
  ~ In "click the refresh button" (suggestions result_markup).
Proof.
  apply (evaluate_answer_denylist (H := reference_builtins)
           3 (Some reply_markup) result_markup).
  vm_compute. reflexivity.
Defined.

(** C2, counterexample: a suggestion with a phrase of the denylist and a
    number are dropped by the filter of [evaluate_answer] and both
    returned, the number as text, by the re-validation of
    [get_answers_for_question]. *)
Lemma filters_differ :
  AIService.clean_suggestions [JStr "click the refresh button"; JInt 7] = []
  /\ Database.revalidate [JStr "click the refresh button"; JInt 7]
     = ["click the refresh button"; "7"]
  /\ ~ (forall l, AIService.clean_suggestions l = Database.revalidate l).
Proof.
  split; [vm_compute; reflexivity|].
  split; [vm_compute; reflexivity|].
  intros Hsame.
  specialize (Hsame [JStr "click the refresh button"; JInt 7]).
  vm_compute in Hsame. discriminate.
Qed.

Lemma filters_agree_on_kept_witness :
  AIService.clean_suggestions [JStr "Add dates"; JStr "Quote the text"]
  = Database.revalidate [JStr "Add dates"; JStr "Quote the text"].
Proof.
  apply (proj1 (filters_agree_on_kept (H := reference_builtins))).
  repeat constructor.
  - exists "Add dates". split; [reflexivity | vm_compute; reflexivity].
  - exists "Quote the text". split; [reflexivity | vm_compute; reflexivity].
Defined.

(* ================================================================== *)
(** ** The persistence gateway *)

Lemma find_hd_filter {A} (p : A -> bool) (l : list A) :
  List.find p l = hd_error (filter p l).
Proof.
  induction l as [|x l IH]; simpl; [reflexivity|].
  destruct (p x); [reflexivity | exact IH].
Qed.

Lemma existsb_filter {A} (p : A -> bool) (l : list A) :
  existsb p l = match filter p l with [] => false | _ => true end.
Proof.
  induction l as [|x l IH]; simpl; [reflexivity|].
  destruct (p x); [reflexivity | exact IH].
Qed.

Import Database.

(** What the three queries on [class_code] return, from the row that
    [classroom_of] finds. *)
Lemma classroom_absent code db :
  classroom_of code db = None ->
  count_classrooms code db = 0 /\ has_classroom code db = false /\
  select_status code db = [] /\ select_classroom code db = [].
Proof.
  unfold classroom_of, count_classrooms, has_classroom, select_status,
    select_classroom.
  rewrite find_hd_filter, existsb_filter.
  destruct (filter _ (classrooms db)); [auto | discriminate].
Qed.

Lemma classroom_present code db c :
  classroom_of code db = Some c ->
  exists n rest,
    count_classrooms code db = S n /\ has_classroom code db = true /\
    select_status code db = status c :: map status rest /\
    select_classroom code db = c :: rest.
Proof.
  unfold classroom_of, count_classrooms, has_classroom, select_status,
    select_classroom.
  rewrite find_hd_filter, existsb_filter.
  destruct (filter _ (classrooms db)) as [|c' cs]; [discriminate|].
  intros E; injection E as ->. exists (List.length cs), cs. auto.
Qed.

(** Proof steps for a method: the next entry of the fault script, the
    run of the method's statements on the facts known of the tables. *)
Ltac fault script := destruct script as [|[[]|] script].

Ltac unfold_sql :=
  unfold with_connection, connect, try_except, try_except_integrity, bind,
    query, statement, commit, pragma_foreign_keys_on, storage_call, ret,
    raise.

Ltac run_sql :=
  cbn -[existsb filter List.find has_student has_classroom count_classrooms
        select_status select_classroom select_students select_answers
        select_classroom_data classroom_of String.eqb map].

Ltac sql_run :=
  unfold_sql;
  repeat (run_sql;
          progress repeat match goal with
                 | H : count_classrooms _ _ = _ |- _ => rewrite H
                 | H : has_classroom _ _ = _ |- _ => rewrite H
                 | H : has_student _ _ = _ |- _ => rewrite H
                 | H : select_status _ _ = _ |- _ => rewrite H
                 | H : select_classroom _ _ = _ |- _ => rewrite H
                 | H : (_ =? _) = _ |- _ => rewrite H
                 end);
  run_sql.

Ltac classroom_cases code db :=
  let c := fresh "c" in
  let E := fresh "Eclass" in
  destruct (classroom_of code db) as [c|] eqn:E;
  [ destruct (classroom_present code db c E)
      as (?n & ?rest & ?Hcount & ?Hhas & ?Hstatus & ?Hselect)
  | destruct (classroom_absent code db E)
      as (?Hcount & ?Hhas & ?Hstatus & ?Hselect) ].

Ltac caught :=
  solve [ split;
          [ eexists; reflexivity
          | first [ left; reflexivity | right; reflexivity ] ] ].

(** A fault at [connect] leaves the method before its [try]. *)
Lemma connect_fault {A} (body : sql A) db e script :
  with_connection body db (Some e :: script)
  = (Raised (SqliteError e), db).
Proof. reflexivity. Qed.

Lemma not_opens script :
  opens script = false -> exists e rest, script = Some e :: rest.
Proof.
  destruct script as [|[e|] rest]; try discriminate. intros _. eauto.
Qed.

(** *** The methods without faults *)

Lemma create_classroom_no_fault code teacher q now db :
  create_classroom code teacher q now db [] =
  match classroom_of code db with
  | Some _ => (Returned false, db)
  | None =>
      (Returned true,
       add_classroom_row
         {| class_code := code; created_at := now; teacher_id := teacher;
            question := q; status := "active" |} db)
  end.
Proof.
  unfold create_classroom, insert_classroom.
  classroom_cases code db; sql_run; reflexivity.
Qed.

Lemma add_student_no_fault id code now db :
  add_student id code now db [] =
  match classroom_of code db with
  | Some c =>
      if (status c =? "active") && negb (has_student id db)
      then (Returned true,
            add_student_row
              {| student_id := id; student_class_code := code;
                 joined_at := now |} db)
      else (Returned false, db)
  | None => (Returned false, db)
  end.
Proof.
  unfold add_student, insert_student.
  classroom_cases code db.
  - destruct (status c =? "active") eqn:Eactive;
      destruct (has_student id db) eqn:Ehas; sql_run; reflexivity.
  - sql_run. reflexivity.
Qed.

Lemma get_classroom_info_no_fault code db :
  get_classroom_info code db [] = (Returned (classroom_of code db), db).
Proof.
  unfold get_classroom_info.
  classroom_cases code db; sql_run; reflexivity.
Qed.

(** *** The methods under faults *)

Lemma create_classroom_catches code teacher q now :
  catches false (create_classroom code teacher q now).
Proof.
  intros db script Hopen.
  rewrite create_classroom_no_fault.
  unfold create_classroom, insert_classroom.
  classroom_cases code db.
  all: fault script; try discriminate Hopen; sql_run; try caught.
  all: fault script; sql_run; try caught.
  all: fault script; sql_run; try caught.
  all: fault script; sql_run; try caught.
Qed.

Lemma add_student_catches id code now :
  catches false (add_student id code now).
Proof.
  intros db script Hopen.
  rewrite add_student_no_fault.
  unfold add_student, insert_student.
  classroom_cases code db;
    [ destruct (status c =? "active") eqn:Eactive;
      destruct (has_student id db) eqn:Ehas | ].
  all: fault script; try discriminate Hopen; sql_run; try caught.
  all: fault script; sql_run; try caught.
  all: fault script; sql_run; try caught.
  all: fault script; sql_run; try caught.
  all: fault script; sql_run; try caught.
  all: fault script; sql_run; try caught.
Qed.

Lemma update_classroom_question_catches code q :
  catches false (update_classroom_question code q).
Proof.
  intros db script Hopen.
  unfold update_classroom_question, update_question.
  fault script; try discriminate Hopen; sql_run; try caught.
  all: fault script; sql_run; try caught.
  all: fault script; sql_run; try caught.
Qed.

Lemma get_classroom_info_catches code :
  catches None (get_classroom_info code).
Proof.
  intros db script Hopen.
  unfold get_classroom_info.
  fault script; try discriminate Hopen; sql_run; try caught.
  all: fault script; sql_run; try caught.
Qed.

Lemma get_classroom_data_catches code :
  catches [] (get_classroom_data code).
Proof.
  intros db script Hopen.
  unfold get_classroom_data.
  fault script; try discriminate Hopen; sql_run; try caught.
  all: fault script; sql_run; try caught.
Qed.

Section GatewayFacts.
Context `{Builtins}.

Lemma save_answer_no_fault id code q text ev now db :
  save_answer id code q text ev now db [] =
  (Returned true,
   add_answer_row
     {| answer_student_id := id; answer_class_code := code;
        answer_question := q; answer_text := text;
        answer_score := score ev; answer_feedback := feedback ev;
        answer_suggestions :=
          json_dumps (JList (map JStr (suggestions ev)));
        submitted_at := now |} db).
Proof. reflexivity. Qed.

Lemma get_answers_for_question_no_fault code q db :
  get_answers_for_question code q db [] =
  (Returned (map view_of (select_answers code q db)), db).
Proof. reflexivity. Qed.

Lemma save_answer_catches id code q text ev now :
  catches false (save_answer id code q text ev now).
Proof.
  intros db script Hopen.
  unfold save_answer, insert_answer.
  fault script; try discriminate Hopen; sql_run; try caught.
  all: fault script; sql_run; try caught.
  all: fault script; sql_run; try caught.
Qed.

Lemma get_answers_for_question_catches code q :
  catches [] (get_answers_for_question code q).
Proof.
  intros db script Hopen.
  unfold get_answers_for_question.
  fault script; try discriminate Hopen; sql_run; try caught.
  all: fault script; sql_run; try caught.
Qed.

(** C3 (amended): each of [create_classroom], [add_student],
    [save_answer], [update_classroom_question], [get_classroom_info],
    [get_answers_for_question] and [get_classroom_data], for every
    input and every storage error raised once its connection is open
    (by a statement, a fetch or the commit), lets no exception out: it
    returns, and when an error was raised it returns its neutral value
    ([False], [None], an empty list) with the stored tables unchanged.
    An error raised by [connect] is outside every [try]. *)
Theorem gateway_catches_after_connect :
  (forall code teacher q now,
      catches false (create_classroom code teacher q now)) /\
  (forall id code now, catches false (add_student id code now)) /\
  (forall id code q text ev now,
      catches false (save_answer id code q text ev now)) /\
  (forall code q, catches false (update_classroom_question code q)) /\
  (forall code, catches None (get_classroom_info code)) /\
  (forall code q, catches [] (get_answers_for_question code q)) /\
  (forall code, catches [] (get_classroom_data code)).
Proof.
  repeat split.
  all: auto using create_classroom_catches, add_student_catches,
         save_answer_catches, update_classroom_question_catches,
         get_classroom_info_catches, get_answers_for_question_catches,
         get_classroom_data_catches.
  all: first [ apply create_classroom_catches | apply add_student_catches
             | apply save_answer_catches
             | apply update_classroom_question_catches
             | apply get_classroom_info_catches
             | apply get_answers_for_question_catches
             | apply get_classroom_data_catches ]; assumption.
Qed.

End GatewayFacts.

(** C3, counterexample: with the students table read under a failing
    statement, [get_classroom_students] lets [OperationalError] out (it
    has no [try]); and [create_classroom], like every other method,
    lets out the error that [connect] raises. *)
Lemma gateway_errors_propagate :
  get_classroom_students "AB12" one_classroom [None; Some OperationalError]
  = (Raised (SqliteError OperationalError), one_classroom)
  /\ create_classroom "AB12" "teacher-1" (Some "Why is X?") 1%Z
       no_tables [Some OperationalError]
     = (Raised (SqliteError OperationalError), no_tables).
Proof. split; reflexivity. Qed.

Lemma gateway_catches_after_connect_witness :
  (exists a,
     fst (create_classroom "AB12" "teacher-1" (Some "Why is X?") 1%Z
            no_tables [None; None; None; Some OperationalError])
     = Returned a) /\
  (create_classroom "AB12" "teacher-1" (Some "Why is X?") 1%Z
     no_tables [None; None; None; Some OperationalError]
   = (Returned false, no_tables) \/
   create_classroom "AB12" "teacher-1" (Some "Why is X?") 1%Z
     no_tables [None; None; None; Some OperationalError]
   = create_classroom "AB12" "teacher-1" (Some "Why is X?") 1%Z
       no_tables []).
Proof.
  apply (proj1 (gateway_catches_after_connect (H := reference_builtins))
           "AB12" "teacher-1" (Some "Why is X?") 1%Z no_tables
           [None; None; None; Some OperationalError]).
  reflexivity.
Defined.

(** *** Joining and creating *)



Lemma classroom_of_added (row : classroom) db :
  classroom_of (class_code row) db = None ->
  classroom_of (class_code row) (add_classroom_row row db) = Some row.
Proof.
  unfold classroom_of, add_classroom_row. cbn [classrooms].
  induction (classrooms db) as [|c l IH]; cbn [List.find app].
  - now rewrite String.eqb_refl.
  - destruct (class_code c =? class_code row); [discriminate | exact IH].
Qed.

(** C7: from tables without the code and with no storage error,
    [create_classroom] returns [True] and appends the row with status
    [active]; called again with the same code, whatever the other
    arguments, it returns [False] and leaves the tables, that row
    included, as the first call left them. *)
Theorem create_classroom_twice code teacher q now teacher' q' now' db :
  classroom_of code db = None ->
  create_classroom code teacher q now db []
  = (Returned true,
     add_classroom_row
       {| class_code := code; created_at := now; teacher_id := teacher;
          question := q; status := "active" |} db) /\
  create_classroom code teacher' q' now'
    (add_classroom_row
       {| class_code := code; created_at := now; teacher_id := teacher;
          question := q; status := "active" |} db) []
  = (Returned false,
     add_classroom_row
       {| class_code := code; created_at := now; teacher_id := teacher;
          question := q; status := "active" |} db) /\
  classroom_of code
    (add_classroom_row
       {| class_code := code; created_at := now; teacher_id := teacher;
          question := q; status := "active" |} db)
  = Some {| class_code := code; created_at := now; teacher_id := teacher;
            question := q; status := "active" |}.
Proof.
  intros Habsent.
  set (row := {| class_code := code; created_at := now;
                 teacher_id := teacher; question := q;
                 status := "active" |}).
  assert (Hadded : classroom_of code (add_classroom_row row db) = Some row)
    by (apply (classroom_of_added row db); exact Habsent).
  split; [|split].
  - rewrite create_classroom_no_fault, Habsent. reflexivity.
  - rewrite create_classroom_no_fault, Hadded. reflexivity.
  - exact Hadded.
Qed.

Lemma create_classroom_twice_witness :
  create_classroom "AB12" "teacher-1" (Some "Why is X?") 1%Z no_tables []
  = (Returned true,
     add_classroom_row (classroom_AB12 "Why is X?") no_tables) /\
  create_classroom "AB12" "teacher-2" None 9%Z
    (add_classroom_row (classroom_AB12 "Why is X?") no_tables) []
  = (Returned false,
     add_classroom_row (classroom_AB12 "Why is X?") no_tables) /\
  classroom_of "AB12"
    (add_classroom_row (classroom_AB12 "Why is X?") no_tables)
  = Some (classroom_AB12 "Why is X?").
Proof.
  apply (create_classroom_twice "AB12" "teacher-1" (Some "Why is X?") 1%Z
           "teacher-2" None 9%Z no_tables).
  reflexivity.
Defined.

(** C9: with the classroom present and [active] and the student id
    already in [students], [add_student] returns [False] (the
    [IntegrityError] of the [UNIQUE] column stays inside), for every
    script under which its connection opens; under every script the
    tables are unchanged and the call does not return [True]. *)
Theorem add_student_duplicate id code now db script c :
  classroom_of code db = Some c ->
  status c = "active" ->
  has_student id db = true ->
  add_student id code now db [] = (Returned false, db) /\
  (opens script = true ->
   add_student id code now db script = (Returned false, db)) /\
  snd (add_student id code now db script) = db /\
  fst (add_student id code now db script) <> Returned true.
Proof.
  intros Hc Hactive Hdup.
  assert (Hplain : add_student id code now db [] = (Returned false, db)).
  { rewrite add_student_no_fault, Hc, Hdup.
    now destruct (status c =? "active"). }
  assert (Hopened : opens script = true ->
                    add_student id code now db script = (Returned false, db)).
  { intros Hopen.
    destruct (add_student_catches id code now db script Hopen)
      as [_ [Hneutral | Hsame]]; congruence. }
  split; [exact Hplain|]. split; [exact Hopened|].
  destruct (opens script) eqn:Hopen.
  - rewrite (Hopened eq_refl). split; [reflexivity | discriminate].
  - destruct (not_opens script Hopen) as [e [rest ->]].
    unfold add_student. rewrite connect_fault.
    split; [reflexivity | discriminate].
Qed.

Lemma add_student_duplicate_witness :
  add_student "S-0001" "AB12" 5%Z one_classroom []
  = (Returned false, one_classroom) /\
  (opens [None; None; None; None; Some IntegrityError] = true ->
   add_student "S-0001" "AB12" 5%Z one_classroom
     [None; None; None; None; Some IntegrityError]
   = (Returned false, one_classroom)) /\
  snd (add_student "S-0001" "AB12" 5%Z one_classroom
         [None; None; None; None; Some IntegrityError]) = one_classroom /\
  fst (add_student "S-0001" "AB12" 5%Z one_classroom
         [None; None; None; None; Some IntegrityError]) <> Returned true.
Proof.
  apply (add_student_duplicate "S-0001" "AB12" 5%Z one_classroom
           [None; None; None; None; Some IntegrityError]
           (classroom_AB12 "Why is X?")); reflexivity.
Defined.

(** *** Writing an answer and reading it back *)

Lemma insert_sorted_In {A} (before : A -> A -> bool) (x y : A) (l : list A) :
  In y (insert_sorted before x l) <-> y = x \/ In y l.
Proof.
  induction l as [|z l IH]; cbn [insert_sorted In].
  - intuition.
  - destruct (before z x); cbn [In]; [rewrite IH|]; intuition.
Qed.

Lemma order_by_In {A} (before : A -> A -> bool) (y : A) (l : list A) :
  In y (order_by before l) <-> In y l.
Proof.
  unfold order_by. induction l as [|x l IH]; cbn [fold_right In].
  - tauto.
  - rewrite insert_sorted_In, IH. intuition.
Qed.

Lemma join_students_In (rows : list answer) db (a : answer) :
  In a (join_students rows db) <->
  In a rows /\ has_student (answer_student_id a) db = true.
Proof.
  unfold join_students, has_student. rewrite in_flat_map. split.
  - intros [b [Hb Hin]]. apply in_map_iff in Hin as [s [<- Hs]].
    apply filter_In in Hs as [Hs Heq]. split; [exact Hb|].
    apply existsb_exists. exists s. split; [exact Hs|].
    now rewrite String.eqb_sym.
  - intros [Ha Hex]. apply existsb_exists in Hex as [s [Hs Heq]].
    exists a. split; [exact Ha|]. apply in_map_iff. exists s.
    split; [reflexivity|]. apply filter_In. split; [exact Hs|].
    now rewrite String.eqb_sym.
Qed.

(** The rows that [get_answers_for_question] reads. *)
Lemma select_answers_In code q db (a : answer) :
  In a (select_answers code q db) <->
  In a (answers db) /\
  answer_class_code a = code /\ answer_question a = q /\
  has_student (answer_student_id a) db = true.
Proof.
  unfold select_answers.
  rewrite order_by_In, join_students_In, filter_In, andb_true_iff.
  rewrite !String.eqb_eq. tauto.
Qed.

Section RoundTrip.
Context `{Builtins}.

Lemma revalidate_strings (l : list string) :
  Forall (fun s => s <> "") l -> revalidate (map JStr l) = l.
Proof.
  unfold revalidate.
  induction 1 as [|s l Hs _ IH]; [reflexivity|].
  cbn [map filter truthy].
  destruct (s =? "") eqn:E; [apply String.eqb_eq in E; contradiction|].
  cbn [negb map py_str]. now rewrite IH.
Qed.

(** What [read_suggestions] makes of a payload that is a JSON list. *)
Lemma read_suggestions_list (raw : string) (l : list json) :
  json_loads raw = Some (JList l) ->
  read_suggestions raw = map py_str (filter truthy l).
Proof.
  intros Hload. unfold read_suggestions.
  destruct (raw =? "") eqn:E.
  - apply String.eqb_eq in E. subst raw. rewrite loads_empty in Hload.
    discriminate.
  - rewrite Hload. reflexivity.
Qed.

(** C8: an evaluation with at most three suggestions, none empty, whose
    JSON text reads back as written; without storage errors.
    [save_answer] returns [True], and [get_answers_for_question] for the
    same classroom and question then returns what it returned before
    together with, when the student is in [students], the view of the
    new row: its answer is the text that was saved and its suggestions
    are those of the evaluation, at most three. *)
Theorem save_answer_round_trip id code q text ev now db :
  List.length (suggestions ev) <= 3 ->
  Forall (fun s => s <> "") (suggestions ev) ->
  json_loads (json_dumps (JList (map JStr (suggestions ev))))
  = Some (JList (map JStr (suggestions ev))) ->
  exists db' old views written,
    get_answers_for_question code q db [] = (Returned old, db) /\
    save_answer id code q text ev now db [] = (Returned true, db') /\
    get_answers_for_question code q db' [] = (Returned views, db') /\
    (forall v, In v views <->
               In v old \/ (has_student id db = true /\ v = written)) /\
    view_student_id written = id /\
    view_answer written = text /\
    view_suggestions written = suggestions ev /\
    List.length (view_suggestions written) <= 3.
Proof.
  intros Hlen Hnonempty Hcodec.
  set (row := {| answer_student_id := id; answer_class_code := code;
                 answer_question := q; answer_text := text;
                 answer_score := score ev; answer_feedback := feedback ev;
                 answer_suggestions :=
                   json_dumps (JList (map JStr (suggestions ev)));
                 submitted_at := now |}).
  exists (add_answer_row row db), (map view_of (select_answers code q db)),
    (map view_of (select_answers code q (add_answer_row row db))),
    (view_of row).
  assert (Hread : view_suggestions (view_of row) = suggestions ev).
  { cbn [view_of view_suggestions row answer_suggestions].
    rewrite (read_suggestions_list _ _ Hcodec).
    apply revalidate_strings. exact Hnonempty. }
  split; [apply get_answers_for_question_no_fault|].
  split; [apply save_answer_no_fault|].
  split; [apply get_answers_for_question_no_fault|].
  split; [|split; [reflexivity | split; [reflexivity | split;
            [exact Hread | rewrite Hread; exact Hlen]]]].
  intros v. rewrite !in_map_iff. split.
  - intros [a [<- Ha]]. apply select_answers_In in Ha
      as [Hin [Hcode [Hq Hstudent]]].
    cbn [add_answer_row answers] in Hin.
    apply in_app_or in Hin as [Hin | [<- | []]].
    + left. exists a. split; [reflexivity|].
      apply select_answers_In. auto.
    + right. split; [exact Hstudent | reflexivity].
  - intros [[a [<- Ha]] | [Hstudent ->]].
    + exists a. split; [reflexivity|].
      apply select_answers_In in Ha as [Hin [Hcode [Hq Hst]]].
      apply select_answers_In. cbn [add_answer_row answers].
      repeat split; auto. apply in_or_app. now left.
    + exists row. split; [reflexivity|].
      apply select_answers_In. cbn [add_answer_row answers].
      repeat split; auto. apply in_or_app. right. now left.
Qed.

(** C10: for every stored answer of a student who has joined, whose
    suggestions payload [json.loads] reads as a list,
    [get_answers_for_question] for its classroom and question returns
    (without storage faults) a view of that row whose suggestions are
    the [str] of the truthy elements of the list, in their order: falsy
    elements are dropped, every other element is kept whatever its type,
    and as many are returned as there are truthy elements, with no bound
    at three.  Under any fault script, every view returned is the view
    of a stored row of that classroom and question, read in this way. *)
Theorem stored_suggestions_stringified code q db row l :
  In row (answers db) ->
  answer_class_code row = code ->
  answer_question row = q ->
  has_student (answer_student_id row) db = true ->
  json_loads (answer_suggestions row) = Some (JList l) ->
  (exists views,
      get_answers_for_question code q db [] = (Returned views, db) /\
      In {| view_student_id := answer_student_id row;
            view_answer := answer_text row;
            view_score := answer_score row;
            view_feedback := answer_feedback row;
            view_suggestions := map py_str (filter truthy l);
            view_submitted_at := submitted_at row |} views) /\
  List.length (map py_str (filter truthy l)) = List.length (filter truthy l) /\
  (forall v, In v l -> truthy v = true ->
             In (py_str v) (map py_str (filter truthy l))) /\
  (forall script views view,
      fst (get_answers_for_question code q db script) = Returned views ->
      In view views ->
      exists row',
        In row' (answers db) /\
        answer_class_code row' = code /\
        answer_question row' = q /\
        has_student (answer_student_id row') db = true /\
        view_student_id view = answer_student_id row' /\
        view_answer view = answer_text row' /\
        (forall l',
            json_loads (answer_suggestions row') = Some (JList l') ->
            view_suggestions view = map py_str (filter truthy l'))).
Proof.
  intros Hin Hcode Hq Hjoined Hload.
  split; [|split; [|split]].
  - exists (map view_of (select_answers code q db)).
    split; [apply get_answers_for_question_no_fault|].
    apply in_map_iff. exists row. split.
    + unfold view_of. now rewrite (read_suggestions_list _ l Hload).
    + apply select_answers_In. auto.
  - apply length_map.
  - intros v Hv Htruthy. apply in_map. apply filter_In. auto.
  - intros script views view Hrun Hview.
    assert (Hfrom : In view (map view_of (select_answers code q db))).
    { destruct (opens script) eqn:Hopen.
      - destruct (get_answers_for_question_catches code q db script Hopen)
          as [_ [Hneutral | Hsame]].
        + rewrite Hneutral in Hrun. injection Hrun as <-. destruct Hview.
        + rewrite Hsame, get_answers_for_question_no_fault in Hrun.
          injection Hrun as <-. exact Hview.
      - destruct (not_opens script Hopen) as [e [rest ->]].
        unfold get_answers_for_question in Hrun.
        rewrite connect_fault in Hrun. discriminate. }
    apply in_map_iff in Hfrom as [row' [<- Hrow']].
    apply select_answers_In in Hrow' as [Hin' [Hcode' [Hq' Hjoined']]].
    exists row'. repeat split; auto.
    intros l' Hload'. cbn [view_of view_suggestions].
    apply read_suggestions_list. exact Hload'.
Qed.

End RoundTrip.

Lemma save_answer_round_trip_witness :
  exists db' old views written,
    get_answers_for_question "AB12" "Why is X?" one_classroom []
    = (Returned old, one_classroom) /\
    save_answer "S-0001" "AB12" "Why is X?" "Because of Y." simple_eval 7%Z
      one_classroom [] = (Returned true, db') /\
    get_answers_for_question "AB12" "Why is X?" db' []
    = (Returned views, db') /\
    (forall v, In v views <->
               In v old \/
               (has_student "S-0001" one_classroom = true /\ v = written)) /\
    view_student_id written = "S-0001" /\
    view_answer written = "Because of Y." /\
    view_suggestions written = suggestions simple_eval /\
    List.length (view_suggestions written) <= 3.
Proof.
  apply (save_answer_round_trip (H := reference_builtins)
           "S-0001" "AB12" "Why is X?" "Because of Y." simple_eval 7%Z
           one_classroom).
  - simpl. lia.
  - repeat constructor; discriminate.
  - vm_compute. reflexivity.
Defined.

(** The payload [mixed_payload]: the number, the nested list and [True]
    come back as text, and seven suggestions are returned. *)
Lemma read_suggestions_mixed :
  read_suggestions mixed_payload
  = ["1"; "a"; "b"; "c"; "[2]"; "True"; "d"].
Proof. vm_compute. reflexivity. Qed.

Lemma stored_suggestions_stringified_witness :
  exists views,
    get_answers_for_question (H := reference_builtins)
      "AB12" "Why is X?" mixed_tables [] = (Returned views, mixed_tables) /\
    In {| view_student_id := "S-0001";
          view_answer := "Because of Y.";
          view_score := FFin (7 # 10)%Q;
          view_feedback := "Thank you for your answer.";
          view_suggestions := ["1"; "a"; "b"; "c"; "[2]"; "True"; "d"];
          view_submitted_at := 3%Z |} views.
Proof.
  exact (proj1 (stored_suggestions_stringified (H := reference_builtins)
                  "AB12" "Why is X?" mixed_tables mixed_row mixed_values
                  (or_introl eq_refl) eq_refl eq_refl eq_refl eq_refl)).
Defined.

(* ================================================================== *)
(** ** The question check of the student page *)

(** Whenever the question read differs from the cached one, the check
    takes the new question and resets the answer flag and the four video
    fields; the cached evaluation is left as it was. *)
Lemma question_check_resets info st :
  App.differs (question info) (App.current_question st) = true ->
  let st' := App.question_check (Some info) st in
  App.current_question st' = question info /\
  App.answer_submitted st' = false /\
  App.video_url st' = None /\
  App.video_request_id st' = None /\
  App.generating_video st' = false /\
  App.show_video_form st' = false /\
  App.evaluation_result st' = App.evaluation_result st.
Proof.
  intros Hdiff. unfold App.question_check. rewrite Hdiff.
  cbn. repeat split.
Qed.

(** The handler of the refresh button resets the cached evaluation as
    well, for a question that is not empty. *)
Lemma refresh_question_resets info q st :
  question info = Some q -> q <> "" ->
  App.differs (Some q) (App.current_question st) = true ->
  let st' := App.refresh_question (Some info) st in
  App.current_question st' = Some q /\
  App.answer_submitted st' = false /\
  App.evaluation_result st' = None /\
  App.video_url st' = None /\
  App.video_request_id st' = None /\
  App.generating_video st' = false /\
  App.show_video_form st' = false.
Proof.
  intros Hq Hne Hdiff. unfold App.refresh_question. rewrite Hq.
  destruct (q =? "") eqn:E; [apply String.eqb_eq in E; contradiction|].
  rewrite Hdiff. cbn. repeat split.
Qed.

Lemma differs_same (a : option string) : App.differs a a = false.
Proof.
  destruct a as [x|]; [|reflexivity]. cbn. now rewrite String.eqb_refl.
Qed.

(** A second check on the same classroom row changes nothing. *)
Lemma question_check_idempotent db_info st :
  App.question_check db_info (App.question_check db_info st)
  = App.question_check db_info st.
Proof.
  destruct db_info as [info|]; [|reflexivity].
  unfold App.question_check.
  destruct (App.differs (question info) (App.current_question st)) eqn:E.
  - cbn [App.current_question]. now rewrite differs_same.
  - now rewrite E.
Qed.

(** The scenario of the specification, on the gateway without faults:
    the teacher creates "AB12", a student joins and answers, the teacher
    moves to the next question, the student's page is run again. *)
Lemma scenario_AB12 :
  let joined :=
    {| App.class_code := Some "AB12"; App.student_id := Some "S-0001";
       App.current_question := None; App.answer_submitted := false;
       App.evaluation_result := None; App.video_url := None;
       App.video_request_id := None; App.generating_video := false;
       App.show_video_form := false |} in
  exists db1 db2 db3 seen moved,
    create_classroom "AB12" "teacher-1" (Some "Why is X?") 1%Z no_tables []
    = (Returned true, db1) /\
    add_student "S-0001" "AB12" 2%Z db1 [] = (Returned true, db2) /\
    db2 = one_classroom /\
    App.check_question db2 [] joined = Returned seen /\
    App.current_question seen = Some "Why is X?" /\
    update_classroom_question "AB12" (Some "Why is Y?") db2 []
    = (Returned true, db3) /\
    App.check_question db3 [] answered_session = Returned moved /\
    App.current_question moved = Some "Why is Y?" /\
    App.answer_submitted moved = false /\
    App.video_url moved = None.
Proof.
  cbv zeta. do 5 eexists.
  split; [vm_compute; reflexivity|].
  split; [vm_compute; reflexivity|].
  split; [vm_compute; reflexivity|].
  split; [vm_compute; reflexivity|].
  split; [vm_compute; reflexivity|].
  split; [vm_compute; reflexivity|].
  split; [vm_compute; reflexivity|].
  vm_compute. repeat split.
Qed.

(** The page stores nothing but [None] in [evaluation_result]: app.py
    assigns it at lines 409, 634, 885 and 1415, each time [None], and
    the check of lines 613-620 does not assign it.  So it is [None] in a
    new session and stays so. *)
Lemma evaluation_result_stays_None :
  (forall query_class_code query_student_id,
      App.evaluation_result
        (App.new_session query_class_code query_student_id) = None) /\
  (forall st,
      App.evaluation_result st = None ->
      (forall db_info,
          App.evaluation_result (App.question_check db_info st) = None) /\
      (forall db_info,
          App.evaluation_result (App.refresh_question db_info st) = None) /\
      App.evaluation_result (App.leave_class st) = None).
Proof.
  split; [reflexivity|].
  intros st Hnone. split; [|split; [|reflexivity]].
  - intros [info|]; [|exact Hnone]. unfold App.question_check.
    destruct (App.differs _ _); [exact Hnone | exact Hnone].
  - intros [info|]; [|exact Hnone]. unfold App.refresh_question.
    destruct (question info) as [q|]; [|exact Hnone].
    destruct (q =? ""); [exact Hnone|].
    destruct (App.differs _ _); [reflexivity | exact Hnone].
Qed.



(* ================================================================== *)
(** ** The gateway: what its methods keep and how they compose *)

Lemma update_classroom_question_no_fault code q db :
  update_classroom_question code q db [] =
  (Returned true,
   {| classrooms :=
        map (fun c => if class_code c =? code then with_question c q else c)
            (classrooms db);
      students := students db;
      answers := answers db |}).
Proof. reflexivity. Qed.

Lemma get_classroom_students_no_fault code db :
  get_classroom_students code db [] = (Returned (select_students code db), db).
Proof. reflexivity. Qed.

Lemma get_classroom_data_no_fault code db :
  get_classroom_data code db []
  = (Returned (select_classroom_data code db), db).
Proof. reflexivity. Qed.

(** The tables after a method that catches: those before, or those of
    the run without faults. *)
Lemma final_tables {A} (neutral : A) (body : sql A) :
  catches neutral (with_connection body) ->
  forall db script,
    snd (with_connection body db script) = db \/
    with_connection body db script = with_connection body db [].
Proof.
  intros Hcatch db script. destruct (opens script) eqn:Hopen.
  - destruct (Hcatch db script Hopen) as [_ [-> | Hsame]]; auto.
  - destruct (not_opens script Hopen) as [e [rest ->]].
    rewrite connect_fault. now left.
Qed.

Lemma has_classroom_In code db :
  has_classroom code db = true <-> In code (map class_code (classrooms db)).
Proof.
  unfold has_classroom. rewrite existsb_exists, in_map_iff.
  split; intros [c [H1 H2]]; exists c.
  - apply String.eqb_eq in H2. auto.
  - split; [tauto|]. apply String.eqb_eq. tauto.
Qed.

Lemma has_student_In id db :
  has_student id db = true <-> In id (map student_id (students db)).
Proof.
  unfold has_student. rewrite existsb_exists, in_map_iff.
  split; intros [c [H1 H2]]; exists c.
  - apply String.eqb_eq in H2. auto.
  - split; [tauto|]. apply String.eqb_eq. tauto.
Qed.

Lemma classroom_of_None code db :
  classroom_of code db = None <-> has_classroom code db = false.
Proof.
  unfold classroom_of, has_classroom.
  rewrite find_hd_filter, existsb_filter.
  destruct (filter _ (classrooms db)); cbn; split; congruence.
Qed.

Lemma classroom_of_Some code db c :
  classroom_of code db = Some c ->
  In c (classrooms db) /\ class_code c = code.
Proof.
  unfold classroom_of. intros Hfind. apply find_some in Hfind as [Hin Heq].
  apply String.eqb_eq in Heq. auto.
Qed.

Lemma NoDup_snoc {A} (l : list A) (x : A) :
  NoDup l -> ~ In x l -> NoDup (l ++ [x]).
Proof.
  intros Hl Hx. apply NoDup_app; [exact Hl | repeat constructor; auto |].
  intros a Ha [<- | []]. contradiction.
Qed.

Lemma consistent_add_classroom (row : classroom) db :
  consistent db ->
  has_classroom (class_code row) db = false ->
  status row = "active" ->
  consistent (add_classroom_row row db).
Proof.
  intros (Hcodes & Hids & Hrefs & Hactive) Hnew Hrow.
  unfold consistent, add_classroom_row. cbn [classrooms students].
  repeat split.
  - rewrite map_app. apply NoDup_snoc; [exact Hcodes|].
    intros Hin. apply has_classroom_In in Hin. congruence.
  - exact Hids.
  - intros s Hs. apply has_classroom_In. cbn [classrooms].
    rewrite map_app. apply in_or_app. left.
    apply has_classroom_In. auto.
  - intros c Hc. apply in_app_or in Hc as [Hc | [<- | []]]; auto.
Qed.

Lemma consistent_add_student (row : student) db :
  consistent db ->
  has_student (student_id row) db = false ->
  has_classroom (student_class_code row) db = true ->
  consistent (add_student_row row db).
Proof.
  intros (Hcodes & Hids & Hrefs & Hactive) Hnew Hclass.
  unfold consistent, add_student_row. cbn [classrooms students].
  repeat split; auto.
  - rewrite map_app. apply NoDup_snoc; [exact Hids|].
    intros Hin. apply has_student_In in Hin. congruence.
  - intros s Hs. apply in_app_or in Hs as [Hs | [<- | []]].
    + apply (Hrefs s Hs).
    + exact Hclass.
Qed.

Lemma consistent_update code q db :
  consistent db ->
  consistent
    {| classrooms :=
         map (fun c => if class_code c =? code then with_question c q else c)
             (classrooms db);
       students := students db;
       answers := answers db |}.
Proof.
  intros (Hcodes & Hids & Hrefs & Hactive).
  assert (Hsame :
    map class_code
      (map (fun c => if class_code c =? code then with_question c q else c)
           (classrooms db))
    = map class_code (classrooms db)).
  { rewrite map_map. apply map_ext. intros c.
    now destruct (class_code c =? code). }
  unfold consistent. cbn [classrooms students]. repeat split.
  - now rewrite Hsame.
  - exact Hids.
  - intros s Hs. apply has_classroom_In. cbn [classrooms].
    rewrite Hsame. apply has_classroom_In. auto.
  - intros c Hc. apply in_map_iff in Hc as [c' [<- Hc']].
    destruct (class_code c' =? code); cbn; auto.
Qed.

Lemma consistent_add_answer (row : answer) db :
  consistent db -> consistent (add_answer_row row db).
Proof. intros H. exact H. Qed.

Section GatewayInvariant.
Context `{Builtins}.

(** X1: tables whose class codes and student ids are unique, whose
    students all name a classroom of the table and whose classrooms are
    all [active] stay so under [create_classroom], [add_student],
    [update_classroom_question] and [save_answer], whatever the
    arguments and the storage faults; the reading methods leave the
    tables as they are. *)
Theorem gateway_keeps_consistent db script :
  consistent db ->
  (forall code teacher q now,
      consistent (snd (create_classroom code teacher q now db script))) /\
  (forall id code now,
      consistent (snd (add_student id code now db script))) /\
  (forall code q,
      consistent (snd (update_classroom_question code q db script))) /\
  (forall id code q text ev now,
      consistent (snd (save_answer id code q text ev now db script))) /\
  (forall code, snd (get_classroom_info code db script) = db) /\
  (forall code, snd (get_classroom_students code db script) = db) /\
  (forall code, snd (get_classroom_data code db script) = db) /\
  (forall code q, snd (get_answers_for_question code q db script) = db).
Proof.
  intros Hdb.
  split; [|split; [|split; [|split; [|split; [|split; [|split]]]]]].
  - intros code teacher q now.
    destruct (final_tables false _
                (create_classroom_catches code teacher q now) db script)
      as [Hsame | Hrun]; [unfold create_classroom; now rewrite Hsame|].
    unfold create_classroom at 1. rewrite Hrun.
    fold (create_classroom code teacher q now db []).
    rewrite create_classroom_no_fault.
    destruct (classroom_of code db) eqn:E; [exact Hdb|].
    apply consistent_add_classroom; auto. now apply classroom_of_None.
  - intros id code now.
    destruct (final_tables false _ (add_student_catches id code now) db script)
      as [Hsame | Hrun]; [unfold add_student; now rewrite Hsame|].
    unfold add_student at 1. rewrite Hrun.
    fold (add_student id code now db []).
    rewrite add_student_no_fault.
    destruct (classroom_of code db) as [c|] eqn:E; [|exact Hdb].
    destruct (status c =? "active"); [|exact Hdb].
    destruct (has_student id db) eqn:Es; [exact Hdb|].
    cbn [andb negb snd]. apply consistent_add_student; auto.
    cbn [student_class_code].
    destruct (has_classroom code db) eqn:Ec; [reflexivity|].
    apply classroom_of_None in Ec. congruence.
  - intros code q.
    destruct (final_tables false _
                (update_classroom_question_catches code q) db script)
      as [Hsame | Hrun]; [unfold update_classroom_question; now rewrite Hsame|].
    unfold update_classroom_question at 1. rewrite Hrun.
    fold (update_classroom_question code q db []).
    rewrite update_classroom_question_no_fault.
    now apply consistent_update.
  - intros id code q text ev now.
    destruct (final_tables false _
                (save_answer_catches id code q text ev now) db script)
      as [Hsame | Hrun]; [unfold save_answer; now rewrite Hsame|].
    unfold save_answer at 1. rewrite Hrun.
    fold (save_answer id code q text ev now db []).
    rewrite save_answer_no_fault. exact Hdb.
  - intros code.
    destruct (final_tables None _ (get_classroom_info_catches code) db script)
      as [Hsame | Hrun]; [exact Hsame|].
    unfold get_classroom_info at 1. rewrite Hrun.
    fold (get_classroom_info code db []).
    now rewrite get_classroom_info_no_fault.
  - intros code. unfold get_classroom_students.
    fault script; [reflexivity | reflexivity .. | ];
      try (fault script; reflexivity).
  - intros code.
    destruct (final_tables [] _ (get_classroom_data_catches code) db script)
      as [Hsame | Hrun]; [exact Hsame|].
    unfold get_classroom_data at 1. rewrite Hrun. reflexivity.
  - intros code q.
    destruct (final_tables [] _
                (get_answers_for_question_catches code q) db script)
      as [Hsame | Hrun]; [exact Hsame|].
    unfold get_answers_for_question at 1. rewrite Hrun. reflexivity.
Qed.

End GatewayInvariant.

Lemma one_classroom_consistent : consistent one_classroom.
Proof.
  unfold consistent, one_classroom. cbn [classrooms students map].
  repeat split.
  - repeat constructor; simpl; tauto.
  - repeat constructor; simpl; tauto.
  - intros s [<- | []]. reflexivity.
  - intros c [<- | []]. reflexivity.
Qed.

Lemma gateway_keeps_consistent_witness :
  consistent
    (snd (add_student "S-0002" "AB12" 5%Z one_classroom
            [None; None; Some OperationalError])).
Proof.
  exact (proj1 (proj2 (gateway_keeps_consistent
                         (H := reference_builtins) one_classroom
                         [None; None; Some OperationalError]
                         one_classroom_consistent))
           "S-0002" "AB12" 5%Z).
Defined.

(** X2: in consistent tables and without storage faults, [add_student]
    returns [True] exactly when a classroom has the code and no student
    has the id yet. *)
Theorem add_student_succeeds_iff id code now db :
  consistent db ->
  (fst (add_student id code now db []) = Returned true <->
   has_classroom code db = true /\ has_student id db = false).
Proof.
  intros (_ & _ & _ & Hactive).
  rewrite add_student_no_fault.
  destruct (classroom_of code db) as [c|] eqn:Eclass.
  - destruct (classroom_of_Some _ _ _ Eclass) as [Hin Hcode].
    assert (Hhas : has_classroom code db = true).
    { destruct (has_classroom code db) eqn:E; [reflexivity|].
      apply classroom_of_None in E. congruence. }
    rewrite (Hactive c Hin), Hhas. cbn [String.eqb andb].
    replace ("active" =? "active") with true by reflexivity.
    destruct (has_student id db); cbn [andb negb fst];
      split; try tauto; try discriminate; intros [_ ?]; discriminate.
  - apply classroom_of_None in Eclass. rewrite Eclass. cbn [fst].
    split; [discriminate | intros [? _]; discriminate].
Qed.

Lemma add_student_succeeds_iff_witness :
  fst (add_student "S-0002" "AB12" 5%Z one_classroom []) = Returned true <->
  has_classroom "AB12" one_classroom = true /\
  has_student "S-0002" one_classroom = false.
Proof.
  exact (add_student_succeeds_iff "S-0002" "AB12" 5%Z one_classroom
           one_classroom_consistent).
Defined.

Lemma find_map_question code code' q (l : list classroom) :
  List.find (fun c => class_code c =? code')
    (map (fun c => if class_code c =? code then with_question c q else c) l)
  = if code' =? code
    then option_map (fun c => with_question c q)
           (List.find (fun c => class_code c =? code) l)
    else List.find (fun c => class_code c =? code') l.
Proof.
  induction l as [|c l IH]; cbn [map List.find].
  - now destruct (code' =? code).
  - destruct (class_code c =? code) eqn:Ec.
    + apply String.eqb_eq in Ec. cbn [with_question class_code].
      rewrite Ec, (String.eqb_sym code code').
      destruct (code' =? code) eqn:E; [reflexivity | exact IH].
    + destruct (code' =? code) eqn:E.
      * apply String.eqb_eq in E. subst code'. rewrite Ec. exact IH.
      * destruct (class_code c =? code'); [reflexivity | exact IH].
Qed.

(** X3: without faults [update_classroom_question] returns [True],
    also for a code that no classroom has, in which case the tables do
    not change; [get_classroom_info] then returns the classroom with the
    new question and its other columns as they were, the classrooms of
    other codes, the students and the answers are untouched. *)
Theorem update_then_get_classroom_info code q db :
  fst (update_classroom_question code q db []) = Returned true /\
  fst (get_classroom_info code
         (snd (update_classroom_question code q db [])) [])
  = Returned (option_map (fun c => with_question c q)
                (classroom_of code db)) /\
  (forall code', code' <> code ->
     fst (get_classroom_info code'
            (snd (update_classroom_question code q db [])) [])
     = fst (get_classroom_info code' db [])) /\
  students (snd (update_classroom_question code q db [])) = students db /\
  answers (snd (update_classroom_question code q db [])) = answers db /\
  (classroom_of code db = None ->
   snd (update_classroom_question code q db []) = db).
Proof.
  rewrite update_classroom_question_no_fault. cbn [fst snd students answers].
  split; [reflexivity|].
  split; [|split; [|split; [reflexivity | split; [reflexivity|]]]].
  - rewrite get_classroom_info_no_fault. cbn [fst].
    unfold classroom_of. cbn [classrooms].
    rewrite find_map_question, String.eqb_refl. reflexivity.
  - intros code' Hne. rewrite !get_classroom_info_no_fault. cbn [fst].
    unfold classroom_of. cbn [classrooms]. rewrite find_map_question.
    destruct (code' =? code) eqn:E; [|reflexivity].
    apply String.eqb_eq in E. contradiction.
  - intros Hnone. unfold classroom_of in Hnone.
    destruct db as [cs ss ans]. cbn [classrooms students answers] in *.
    f_equal. rewrite <- (map_id cs) at 2. apply map_ext_in.
    intros c Hc. now rewrite (find_none _ _ Hnone c Hc).
Qed.

(** X4: after [add_student] has returned [True], the student is the
    last entry that [get_classroom_students] returns for that class
    code, after the entries it returned before, with the time of the
    call; the lists of other class codes are as before. *)
Theorem add_student_then_listed id code now db db' :
  add_student id code now db [] = (Returned true, db') ->
  get_classroom_students code db' []
  = (Returned (select_students code db ++ [(id, now)]), db') /\
  get_classroom_students code db []
  = (Returned (select_students code db), db) /\
  (forall code', code' <> code ->
     fst (get_classroom_students code' db' [])
     = fst (get_classroom_students code' db [])).
Proof.
  rewrite add_student_no_fault.
  destruct (classroom_of code db) as [c|]; [|discriminate].
  destruct ((status c =? "active") && negb (has_student id db));
    [|discriminate].
  intros E. injection E as <-.
  rewrite !get_classroom_students_no_fault.
  split; [|split; [reflexivity|]].
  - f_equal. f_equal.
    unfold select_students, add_student_row. cbn [students].
    rewrite filter_app, map_app. cbn [filter student_class_code].
    rewrite String.eqb_refl. reflexivity.
  - intros code' Hne. rewrite !get_classroom_students_no_fault. cbn [fst].
    f_equal. unfold select_students, add_student_row. cbn [students].
    rewrite filter_app, map_app. cbn [filter student_class_code].
    destruct (code =? code') eqn:E.
    + apply String.eqb_eq in E. congruence.
    + cbn [map]. now rewrite app_nil_r.
Qed.

Lemma add_student_then_listed_witness :
  get_classroom_students "AB12"
    (add_student_row
       {| student_id := "S-0002"; student_class_code := "AB12";
          joined_at := 5%Z |} one_classroom) []
  = (Returned (select_students "AB12" one_classroom ++ [("S-0002", 5%Z)]),
     add_student_row
       {| student_id := "S-0002"; student_class_code := "AB12";
          joined_at := 5%Z |} one_classroom).
Proof.
  exact (proj1 (add_student_then_listed "S-0002" "AB12" 5%Z one_classroom
                  _ eq_refl)).
Defined.

(** *** The order and the number of the answers read *)

Lemma insert_sorted_Permutation {A} (before : A -> A -> bool) x (l : list A) :
  Permutation (insert_sorted before x l) (x :: l).
Proof.
  induction l as [|y l IH]; cbn [insert_sorted]; [reflexivity|].
  destruct (before y x); [|reflexivity].
  rewrite IH. apply perm_swap.
Qed.

Lemma order_by_Permutation {A} (before : A -> A -> bool) (l : list A) :
  Permutation (order_by before l) l.
Proof.
  unfold order_by. induction l as [|x l IH]; cbn [fold_right]; [reflexivity|].
  rewrite insert_sorted_Permutation. now constructor.
Qed.

Lemma insert_sorted_sorted {A} (before : A -> A -> bool)
  (R : A -> A -> Prop) :
  (forall a b, before a b = true -> R a b) ->
  (forall a b, before a b = false -> R b a) ->
  (forall a b c, R a b -> R b c -> R a c) ->
  forall x l, StronglySorted R l -> StronglySorted R (insert_sorted before x l).
Proof.
  intros Htrue Hfalse Htrans x l Hl.
  induction Hl as [|y l Hl IH Hy]; cbn [insert_sorted].
  - repeat constructor.
  - destruct (before y x) eqn:E.
    + constructor; [exact IH|].
      apply Forall_forall. intros z Hz.
      apply insert_sorted_In in Hz as [-> | Hz]; [now apply Htrue|].
      rewrite Forall_forall in Hy. auto.
    + constructor; [now constructor|].
      constructor; [now apply Hfalse|].
      rewrite Forall_forall in Hy |- *. intros z Hz.
      apply (Htrans _ y); [now apply Hfalse | auto].
Qed.

Lemma order_by_sorted {A} (before : A -> A -> bool) (R : A -> A -> Prop) :
  (forall a b, before a b = true -> R a b) ->
  (forall a b, before a b = false -> R b a) ->
  (forall a b c, R a b -> R b c -> R a c) ->
  forall l, StronglySorted R (order_by before l).
Proof.
  intros Htrue Hfalse Htrans l. unfold order_by.
  induction l as [|x l IH]; cbn [fold_right]; [constructor|].
  now apply insert_sorted_sorted.
Qed.

Lemma StronglySorted_map {A B} (f : A -> B) (R : B -> B -> Prop)
  (l : list A) :
  StronglySorted (fun a b => R (f a) (f b)) l -> StronglySorted R (map f l).
Proof.
  induction 1 as [|x l Hl IH Hx]; cbn [map]; constructor; [exact IH|].
  rewrite Forall_forall in Hx |- *. intros y Hy.
  apply in_map_iff in Hy as [a [<- Ha]]. auto.
Qed.

Lemma select_answers_sorted code q db :
  StronglySorted (fun a b => (submitted_at b <= submitted_at a)%Z)
    (select_answers code q db).
Proof.
  unfold select_answers. apply order_by_sorted.
  - intros a b E. apply Z.ltb_lt in E. lia.
  - intros a b E. apply Z.ltb_ge in E. lia.
  - intros a b c. lia.
Qed.

Lemma select_classroom_data_sorted code db :
  StronglySorted oldest_first (select_classroom_data code db).
Proof.
  unfold select_classroom_data, oldest_first. apply order_by_sorted.
  - intros a b E. apply Z.ltb_lt in E. lia.
  - intros a b E. apply Z.ltb_ge in E. lia.
  - intros a b c. lia.
Qed.

(** The rows of the join for one more answer. *)
Lemma join_students_snoc rows row db :
  join_students (rows ++ [row]) (add_answer_row row db)
  = join_students rows db
    ++ map (fun _ => row)
         (filter (fun s => answer_student_id row =? student_id s)
                 (students db)).
Proof.
  unfold join_students, add_answer_row. cbn [students].
  rewrite flat_map_app. cbn [flat_map]. now rewrite app_nil_r.
Qed.

Lemma join_students_same rows row db :
  join_students rows (add_answer_row row db) = join_students rows db.
Proof. reflexivity. Qed.

Lemma filter_no_student id db :
  has_student id db = false ->
  filter (fun s => id =? student_id s) (students db) = [].
Proof.
  unfold has_student. intros Hnone.
  induction (students db) as [|s l IH]; [reflexivity|].
  cbn [existsb] in Hnone. apply orb_false_iff in Hnone as [Hs Hl].
  cbn [filter]. rewrite String.eqb_sym, Hs. auto.
Qed.

Lemma filter_one_student id db :
  NoDup (map student_id (students db)) ->
  has_student id db = true ->
  exists s, filter (fun s => id =? student_id s) (students db) = [s].
Proof.
  unfold has_student.
  induction (students db) as [|s l IH]; cbn [map existsb filter];
    [discriminate|].
  intros Hnodup Hsome. inversion Hnodup as [|x xs Hnotin Hrest]; subst.
  rewrite (String.eqb_sym id (student_id s)).
  destruct (student_id s =? id) eqn:E.
  - exists s. f_equal. apply String.eqb_eq in E. subst id.
    clear -Hnotin. induction l as [|t l IH]; [reflexivity|].
    cbn [filter map] in *.
    destruct (student_id s =? student_id t) eqn:Et.
    + apply String.eqb_eq in Et. exfalso. apply Hnotin. left. congruence.
    + apply IH. intros Hin. apply Hnotin. now right.
  - cbn [orb] in Hsome. apply IH; assumption.
Qed.

Section AnswersRead.
Context `{Builtins}.

(** X5: [get_answers_for_question] returns its answers newest first and
    [get_classroom_data] its rows oldest first, under every fault
    script. *)
Theorem answers_are_ordered :
  (forall code q db script views,
      fst (get_answers_for_question code q db script) = Returned views ->
      StronglySorted newest_first views) /\
  (forall code db script rows,
      fst (get_classroom_data code db script) = Returned rows ->
      StronglySorted oldest_first rows).
Proof.
  split.
  - intros code q db script views Hrun.
    destruct (final_tables [] _
                (get_answers_for_question_catches code q) db script)
      as [Hsame | Hsame].
    + destruct (opens script) eqn:Hopen.
      * destruct (get_answers_for_question_catches code q db script Hopen)
          as [_ [Hn | Hn]].
        -- rewrite Hn in Hrun. injection Hrun as <-. constructor.
        -- rewrite Hn, get_answers_for_question_no_fault in Hrun.
           injection Hrun as <-.
           apply StronglySorted_map. apply select_answers_sorted.
      * destruct (not_opens script Hopen) as [e [rest ->]].
        unfold get_answers_for_question in Hrun.
        rewrite connect_fault in Hrun. discriminate.
    + unfold get_answers_for_question in Hrun at 1. rewrite Hsame in Hrun.
      injection Hrun as <-.
      apply StronglySorted_map. apply select_answers_sorted.
  - intros code db script rows Hrun.
    destruct (opens script) eqn:Hopen.
    + destruct (get_classroom_data_catches code db script Hopen)
        as [_ [Hn | Hn]].
      * rewrite Hn in Hrun. injection Hrun as <-. constructor.
      * rewrite Hn, get_classroom_data_no_fault in Hrun.
        injection Hrun as <-. apply select_classroom_data_sorted.
    + destruct (not_opens script Hopen) as [e [rest ->]].
      unfold get_classroom_data in Hrun.
      rewrite connect_fault in Hrun. discriminate.
Qed.

(** X6: in consistent tables, for a student who has joined and without
    faults, [save_answer] adds exactly one answer to what
    [get_answers_for_question] returns for that classroom and question:
    the new list is the old one with the view of the new row put in,
    nothing else added, dropped or repeated, also when the same student
    has answered the question before.  What is returned for another
    classroom or question does not change. *)
Theorem save_answer_adds_one_view id code q text ev now db :
  consistent db ->
  has_student id db = true ->
  exists db' old views written,
    get_answers_for_question code q db [] = (Returned old, db) /\
    save_answer id code q text ev now db [] = (Returned true, db') /\
    get_answers_for_question code q db' [] = (Returned views, db') /\
    Permutation views (written :: old) /\
    view_student_id written = id /\ view_answer written = text /\
    view_submitted_at written = now /\
    (forall code' q',
        code' <> code \/ q' <> q ->
        fst (get_answers_for_question code' q' db' [])
        = fst (get_answers_for_question code' q' db [])).
Proof.
  intros (_ & Hids & _ & _) Hjoined.
  set (row := {| answer_student_id := id; answer_class_code := code;
                 answer_question := q; answer_text := text;
                 answer_score := score ev; answer_feedback := feedback ev;
                 answer_suggestions :=
                   json_dumps (JList (map JStr (suggestions ev)));
                 submitted_at := now |}).
  exists (add_answer_row row db), (map view_of (select_answers code q db)),
    (map view_of (select_answers code q (add_answer_row row db))),
    (view_of row).
  split; [apply get_answers_for_question_no_fault|].
  split; [apply save_answer_no_fault|].
  split; [apply get_answers_for_question_no_fault|].
  split; [|split; [reflexivity | split; [reflexivity | split;
             [reflexivity|]]]].
  - rewrite <- map_cons. apply Permutation_map.
    unfold select_answers. rewrite !order_by_Permutation.
    cbn [add_answer_row answers]. rewrite filter_app.
    cbn [filter row answer_class_code answer_question].
    rewrite !String.eqb_refl. cbn [andb].
    change (join_students
              (filter (fun a => (answer_class_code a =? code)
                                && (answer_question a =? q)) (answers db)
               ++ [row])
              {| classrooms := classrooms db; students := students db;
                 answers := answers db ++ [row] |})
      with (join_students
              (filter (fun a => (answer_class_code a =? code)
                                && (answer_question a =? q)) (answers db)
               ++ [row])
              (add_answer_row row db)).
    rewrite join_students_snoc.
    destruct (filter_one_student id db Hids Hjoined) as [s Hs].
    cbn [row answer_student_id]. rewrite Hs. cbn [map].
    symmetry. apply Permutation_cons_append.
  - intros code' q' Hother.
    rewrite !get_answers_for_question_no_fault. cbn [fst]. f_equal. f_equal.
    unfold select_answers. cbn [add_answer_row answers].
    rewrite filter_app. cbn [filter row answer_class_code answer_question].
    assert (Hno : (code =? code') && (q =? q') = false).
    { apply andb_false_iff.
      destruct Hother as [Hc | Hq]; [left | right];
        apply String.eqb_neq; congruence. }
    rewrite Hno, app_nil_r. reflexivity.
Qed.

(** X7: [save_answer] does not look the student up (foreign keys are
    off on its connection): for an id that is not in [students] it
    returns [True] and stores the row, and that answer is returned by
    no call of [get_answers_for_question] or [get_classroom_data], which
    return what they returned before. *)
Theorem save_answer_unknown_student id code q text ev now db :
  has_student id db = false ->
  exists db',
    save_answer id code q text ev now db [] = (Returned true, db') /\
    List.length (answers db') = S (List.length (answers db)) /\
    (forall code' q',
        fst (get_answers_for_question code' q' db' [])
        = fst (get_answers_for_question code' q' db [])) /\
    (forall code',
        fst (get_classroom_data code' db' [])
        = fst (get_classroom_data code' db [])).
Proof.
  intros Hunknown.
  set (row := {| answer_student_id := id; answer_class_code := code;
                 answer_question := q; answer_text := text;
                 answer_score := score ev; answer_feedback := feedback ev;
                 answer_suggestions :=
                   json_dumps (JList (map JStr (suggestions ev)));
                 submitted_at := now |}).
  assert (Hjoin : forall rows,
            join_students (rows ++ [row]) (add_answer_row row db)
            = join_students rows db).
  { intros rows. rewrite join_students_snoc.
    cbn [row answer_student_id].
    rewrite (filter_no_student id db Hunknown). cbn [map].
    apply app_nil_r. }
  exists (add_answer_row row db).
  split; [apply save_answer_no_fault|].
  split; [cbn [add_answer_row answers]; rewrite length_app; simpl; lia|].
  split.
  - intros code' q'. rewrite !get_answers_for_question_no_fault.
    cbn [fst]. f_equal. f_equal. unfold select_answers.
    cbn [add_answer_row answers]. rewrite filter_app. cbn [filter].
    destruct ((answer_class_code row =? code')
              && (answer_question row =? q')).
    + f_equal. apply Hjoin.
    + rewrite app_nil_r. reflexivity.
  - intros code'. rewrite !get_classroom_data_no_fault.
    cbn [fst]. f_equal. unfold select_classroom_data.
    cbn [add_answer_row answers]. rewrite filter_app. cbn [filter].
    destruct (answer_class_code row =? code').
    + f_equal. apply Hjoin.
    + rewrite app_nil_r. reflexivity.
Qed.

End AnswersRead.

Lemma answers_are_ordered_witness :
  StronglySorted newest_first
    (map (view_of (H := reference_builtins))
         (select_answers "AB12" "Why is X?" two_answers)).
Proof.
  exact (proj1 (answers_are_ordered (H := reference_builtins))
           "AB12" "Why is X?" two_answers [] _ eq_refl).
Defined.

Lemma save_answer_adds_one_view_witness :
  exists db' old views written,
    get_answers_for_question (H := reference_builtins)
      "AB12" "Why is X?" one_classroom [] = (Returned old, one_classroom) /\
    save_answer (H := reference_builtins)
      "S-0001" "AB12" "Why is X?" "Because of Y." simple_eval 9%Z
      one_classroom [] = (Returned true, db') /\
    get_answers_for_question (H := reference_builtins)
      "AB12" "Why is X?" db' [] = (Returned views, db') /\
    Permutation views (written :: old) /\
    view_student_id written = "S-0001" /\
    view_answer written = "Because of Y." /\
    view_submitted_at written = 9%Z /\
    (forall code' q',
        code' <> "AB12" \/ q' <> "Why is X?" ->
        fst (get_answers_for_question (H := reference_builtins)
               code' q' db' [])
        = fst (get_answers_for_question (H := reference_builtins)
                 code' q' one_classroom [])).
Proof.
  exact (save_answer_adds_one_view (H := reference_builtins)
           "S-0001" "AB12" "Why is X?" "Because of Y." simple_eval 9%Z
           one_classroom one_classroom_consistent eq_refl).
Defined.

Lemma save_answer_unknown_student_witness :
  exists db',
    save_answer (H := reference_builtins)
      "S-9999" "AB12" "Why is X?" "Because of Y." simple_eval 9%Z
      one_classroom [] = (Returned true, db').
Proof.
  destruct (save_answer_unknown_student (H := reference_builtins)
              "S-9999" "AB12" "Why is X?" "Because of Y." simple_eval 9%Z
              one_classroom eq_refl) as [db' [Hsaved _]].
  exists db'. exact Hsaved.
Defined.

(* ================================================================== *)
(** ** The export *)

(** X8: [export_to_csv] never changes the tables.  Whatever it writes is
    the rows of [get_classroom_data] without faults, not empty and
    oldest first, and then it returns what [os.path.exists] answers,
    so [True] is returned only after such a write.  For a classroom
    without answers of students who have joined it returns [False] and
    writes nothing, and once the connection is open it always
    returns. *)
Theorem export_to_csv_result code to_csv_raises exists_after db script :
  let run := export_to_csv code to_csv_raises exists_after db script in
  snd run = db /\
  (forall rows,
      snd (fst run) = Written rows ->
      rows = select_classroom_data code db /\ rows <> [] /\
      StronglySorted oldest_first rows /\
      to_csv_raises = false /\
      fst (fst run) = Returned exists_after) /\
  (fst (fst run) = Returned true ->
   snd (fst run) = Written (select_classroom_data code db)) /\
  (select_classroom_data code db = [] ->
   opens script = true ->
   fst run = (Returned false, NotWritten)) /\
  (opens script = true -> exists b, fst (fst run) = Returned b).
Proof.
  cbv zeta. unfold export_to_csv.
  pose proof (select_classroom_data_sorted code db) as Hsorted.
  destruct (opens script) eqn:Hopen.
  - destruct (get_classroom_data_catches code db script Hopen)
      as [_ [Hrun | Hrun]]; rewrite Hrun.
    + cbn. split; [reflexivity|]. split; [discriminate|].
      split; [discriminate|]. split; [reflexivity|]. eauto.
    + rewrite get_classroom_data_no_fault.
      destruct (select_classroom_data code db) as [|row rows] eqn:Hrows.
      * cbn. split; [reflexivity|]. split; [discriminate|].
        split; [discriminate|]. split; [reflexivity|]. eauto.
      * destruct to_csv_raises; cbn.
        -- split; [reflexivity|]. split; [discriminate|].
           split; [discriminate|]. split; [discriminate|]. eauto.
        -- split; [reflexivity|].
           split; [|split; [reflexivity|split; [discriminate|eauto]]].
           intros rows' Hw. injection Hw as <-.
           repeat split; auto. discriminate.
  - destruct (not_opens script Hopen) as [e [rest ->]].
    unfold get_classroom_data. rewrite connect_fault. cbn.
    split; [reflexivity|]. split; [discriminate|].
    split; [discriminate|]. split; discriminate.
Qed.

(* ================================================================== *)
(** ** The padding loop over any defaults *)

Import AIService.

Lemma pad_from_O defaults (current : list string) :
  pad_from defaults 0 current =
  if (List.length current <? 3)%nat then None else Some current.
Proof. reflexivity. Qed.

Lemma pad_from_S defaults (fuel : nat) (current : list string) :
  pad_from defaults (S fuel) current =
  if (List.length current <? 3)%nat then
    let current' :=
      match List.find (fun d => negb (mem d current)) defaults with
      | Some d => current ++ [d]
      | None => current
      end in
    if (3 <=? List.length current')%nat then Some current'
    else pad_from defaults fuel current'
  else Some current.
Proof. reflexivity. Qed.

(** The loop of [evaluate_answer] is the loop over its defaults. *)
Lemma pad_suggestions_pad_from (fuel : nat) :
  forall current,
    pad_suggestions fuel current = pad_from default_suggestions fuel current.
Proof.
  induction fuel as [|fuel IH]; intros current; [reflexivity|].
  rewrite pad_suggestions_S, pad_from_S. unfold first_missing.
  destruct (List.length current <? 3)%nat; [|reflexivity].
  cbv zeta.
  destruct (List.find _ default_suggestions) as [d|];
    destruct (3 <=? _)%nat; auto.
Qed.

Lemma missing_count defaults current :
  NoDup defaults ->
  List.length defaults <= List.length current + List.length (missing defaults current).
Proof.
  intros Hnd. unfold missing.
  pose proof (filter_length (fun d => mem d current) defaults) as Hsplit.
  assert (Hle : List.length (filter (fun d => mem d current) defaults)
                <= List.length current).
  { apply NoDup_incl_length.
    - now apply NoDup_filter.
    - intros d Hd. apply filter_In in Hd as [_ Hd].
      now apply mem_true_iff. }
  lia.
Qed.

Lemma missing_next defaults current d rest :
  NoDup defaults ->
  missing defaults current = d :: rest ->
  missing defaults (current ++ [d]) = rest.
Proof.
  unfold missing. intros Hnd. revert rest.
  induction defaults as [|x defaults IH]; intros rest; simpl; [discriminate|].
  inversion Hnd as [|? ? Hx Hnd']; subst.
  assert (Hmem : forall y, mem y (current ++ [d])
                           = mem y current || (y =? d)).
  { intros y. unfold mem. rewrite existsb_app. simpl.
    now rewrite orb_false_r. }
  destruct (mem x current) eqn:Ex; simpl.
  - rewrite Hmem, Ex. simpl. apply IH; assumption.
  - intros E. injection E as -> Hrest.
    rewrite Hmem, Ex, String.eqb_refl. simpl.
    rewrite <- Hrest. apply filter_ext_in.
    intros y Hy. rewrite Hmem.
    destruct (String.eqb_spec y d) as [-> | _]; [contradiction|].
    now rewrite orb_false_r.
Qed.

(** With three defaults or more, all different, the loop stops within
    [3 - len] rounds and what it returns is what it was given followed
    by the first defaults that were missing. *)
Lemma pad_from_exact defaults (fuel : nat) :
  NoDup defaults -> 3 <= List.length defaults ->
  forall current,
    3 <= fuel + List.length current ->
    pad_from defaults fuel current
    = Some (current
              ++ firstn (3 - List.length current) (missing defaults current)).
Proof.
  intros Hnd Hthree.
  induction fuel as [|fuel IH]; intros current Hfuel.
  - rewrite pad_from_O.
    destruct (List.length current <? 3)%nat eqn:E.
    + apply Nat.ltb_lt in E. simpl in Hfuel. lia.
    + apply Nat.ltb_ge in E.
      replace (3 - List.length current) with 0 by lia.
      now rewrite app_nil_r.
  - rewrite pad_from_S.
    destruct (List.length current <? 3)%nat eqn:E.
    + apply Nat.ltb_lt in E.
      pose proof (missing_count defaults current Hnd) as Hcount.
      rewrite find_hd_filter. fold (missing defaults current).
      destruct (missing defaults current) as [|d rest] eqn:Em;
        [simpl in Hcount; lia|].
      cbn [hd_error]. cbv zeta.
      pose proof (missing_next _ _ _ _ Hnd Em) as Hnext.
      replace (3 - List.length current)
        with (S (3 - List.length (current ++ [d])))
        by (rewrite length_app; change (List.length [d]) with 1; lia).
      cbn [firstn].
      destruct (3 <=? List.length (current ++ [d]))%nat eqn:E3.
      * apply Nat.leb_le in E3.
        replace (3 - List.length (current ++ [d])) with 0 by lia.
        reflexivity.
      * apply Nat.leb_gt in E3.
        rewrite IH, Hnext, <- app_assoc; [reflexivity|].
        rewrite length_app. change (List.length [d]) with 1. lia.
    + apply Nat.ltb_ge in E.
      replace (3 - List.length current) with 0 by lia.
      now rewrite app_nil_r.
Qed.

Lemma pad_from_length defaults current :
  NoDup defaults -> 3 <= List.length defaults ->
  List.length current <= 3 ->
  List.length
    (current ++ firstn (3 - List.length current) (missing defaults current))
  = 3.
Proof.
  intros Hnd Hthree Hlen.
  pose proof (missing_count defaults current Hnd) as Hcount.
  rewrite length_app, length_firstn. lia.
Qed.

Lemma missing_In defaults current d :
  In d (missing defaults current) <-> In d defaults /\ ~ In d current.
Proof.
  unfold missing. rewrite filter_In, negb_true_iff, mem_false_iff. tauto.
Qed.

(* ================================================================== *)
(** ** The evaluation normaliser: the score and the order of the
    suggestions *)

Section NormaliserValues.
Context `{Builtins}.

Lemma clamp_fin (q : Q) :
  (q <= 0 -> clamp (FFin q) = FFin 0)%Q /\
  (0 < q < 1 -> clamp (FFin q) = FFin q)%Q /\
  (1 <= q -> clamp (FFin q) = FFin 1)%Q.
Proof.
  unfold clamp, py_min, py_max, float_lt.
  split; [|split].
  - intros Hq. destruct (Qlt_le_dec q 1) as [Hlt | Hge].
    + destruct (Qlt_le_dec 0 q) as [Hpos | _]; [|reflexivity].
      exfalso. exact (Qlt_not_le _ _ Hpos Hq).
    + exfalso. apply (Qlt_not_le 0 1); [reflexivity|].
      exact (Qle_trans _ _ _ Hge Hq).
  - intros [Hpos Hlt]. destruct (Qlt_le_dec q 1) as [_ | Hge].
    + destruct (Qlt_le_dec 0 q) as [_ | Hle]; [reflexivity|].
      exfalso. exact (Qlt_not_le _ _ Hpos Hle).
    + exfalso. exact (Qlt_not_le _ _ Hlt Hge).
  - intros Hq. destruct (Qlt_le_dec q 1) as [Hlt | _].
    + exfalso. exact (Qlt_not_le _ _ Hlt Hq).
    + destruct (Qlt_le_dec 0 1) as [_ | Hle]; [reflexivity|].
      exfalso. apply (Qlt_not_le 0 1); [reflexivity | exact Hle].
Qed.

(** X9: the score of the result, by what the parsed object holds under
    [score].  A float of [0,1] is kept, one outside is moved to the
    nearer bound, and [nan] becomes [1.0], as [inf] does; a [bool] counts
    as [0] or [1]; an [int] becomes [0.0] or [1.0], unless it is too
    large for a float, which gives the error result; everything else (no
    such key, [null], a string, a list, an object) gives [0.5]. *)
Theorem score_by_cases fuel content d ev :
  extract_json (str_strip content) = Some (JDict d) ->
  evaluate_answer fuel (Some content) = Some ev ->
  match dict_get d "score" with
  | Some (JFloat FNaN) | Some (JFloat FInf) => score ev = FFin 1
  | Some (JFloat FNegInf) => score ev = FFin 0
  | Some (JFloat (FFin q)) =>
      (q <= 0 -> score ev = FFin 0)%Q /\
      (0 < q < 1 -> score ev = FFin q)%Q /\
      (1 <= q -> score ev = FFin 1)%Q
  | Some (JBool b) => score ev = FFin (if b then 1 else 0)
  | Some (JInt z) =>
      (Z.abs z < 2 ^ 1024 - 2 ^ 970 ->
       score ev = FFin (if z <=? 0 then 0 else 1))%Z /\
      (2 ^ 1024 - 2 ^ 970 <= Z.abs z -> ev = error_evaluation)%Z
  | _ => score ev = half
  end.
Proof.
  intros Hparsed. unfold evaluate_answer. rewrite Hparsed.
  unfold normalise, coerce_score.
  assert (Hscore : forall sc,
    match coerce_suggestions fuel d with
    | Some sugg =>
        Some {| score := sc; feedback := coerce_feedback d;
                suggestions := sugg |}
    | None => None
    end = Some ev -> score ev = sc).
  { intros sc. destruct (coerce_suggestions fuel d); [|discriminate].
    intros E. injection E as <-. reflexivity. }
  destruct (dict_get d "score") as [[| b | z | [| | | q] | s | l | d']|];
    cbn [option_map]; intros Hrun; try (apply Hscore in Hrun);
    try exact Hrun.
  - rewrite Hrun. now destruct b.
  - unfold float_of_int in Hrun.
    set (bound := (2 ^ 1024 - 2 ^ 970)%Z) in *.
    destruct (bound <=? Z.abs z)%Z eqn:Ebig; cbn [option_map] in Hrun.
    + apply Z.leb_le in Ebig. split; [lia|].
      intros _. now injection Hrun as <-.
    + apply Z.leb_gt in Ebig. split; [|lia].
      intros _. apply Hscore in Hrun. rewrite Hrun.
      destruct (z <=? 0)%Z eqn:Ez.
      * apply Z.leb_le in Ez. apply (proj1 (clamp_fin (inject_Z z))).
        rewrite (Zle_Qle z 0) in Ez. exact Ez.
      * apply Z.leb_gt in Ez. apply (proj2 (proj2 (clamp_fin (inject_Z z)))).
        assert (Hz : (1 <= z)%Z) by lia.
        rewrite (Zle_Qle 1 z) in Hz. exact Hz.
  - destruct (clamp_fin q) as [Hlow [Hmid Hhigh]].
    rewrite Hrun. repeat split; assumption.
Qed.

(** X10: when the parsed object holds a list under [suggestions], the
    suggestions of the result are the first three that pass the filter,
    stripped and in the order of the list, followed by the first
    defaults that are not among them, in the order of the defaults; they
    are the three defaults when none passes. *)
Theorem suggestions_in_order fuel content d l :
  3 <= fuel ->
  extract_json (str_strip content) = Some (JDict d) ->
  dict_get d "suggestions" = Some (JList l) ->
  coerce_score d <> None ->
  exists ev,
    evaluate_answer fuel (Some content) = Some ev /\
    suggestions ev =
    match firstn 3 (clean_suggestions l) with
    | [] => default_suggestions
    | kept =>
        kept ++ firstn (3 - List.length kept)
                  (missing default_suggestions kept)
    end.
Proof.
  intros Hfuel Hparsed Hlist Hscore.
  unfold evaluate_answer. rewrite Hparsed. unfold normalise.
  destruct (coerce_score d) as [sc|]; [|contradiction].
  unfold coerce_suggestions. rewrite Hlist.
  rewrite pad_suggestions_pad_from.
  rewrite (pad_from_exact default_suggestions fuel
             default_suggestions_NoDup);
    [|simpl; lia|lia].
  eexists. split; [reflexivity|]. cbn [suggestions].
  destruct (clean_suggestions l) as [|x xs]; reflexivity.
Qed.

End NormaliserValues.

Lemma score_by_cases_witness : score result_markup = FFin 1.
Proof.
  pose proof (score_by_cases (H := reference_builtins) 3 reply_markup
                [("score", JInt 7); ("feedback", JStr "ok");
                 ("suggestions",
                  JList [JStr "Use <b>bold</b> headings";
                         JStr "click the refresh button";
                         JStr "Add dates"])]
                result_markup) as Hcase.
  cbn [dict_get String.eqb Ascii.eqb Bool.eqb] in Hcase.
  apply Hcase; vm_compute; reflexivity.
Defined.

Lemma suggestions_in_order_witness :
  exists ev,
    evaluate_answer (H := reference_builtins) 3 (Some reply_markup) = Some ev /\
    suggestions ev =
    [ "Use <b>bold</b> headings"; "Add dates";
      "Focus on addressing the main points of the question" ].
Proof.
  destruct (suggestions_in_order (H := reference_builtins) 3 reply_markup
              [("score", JInt 7); ("feedback", JStr "ok");
               ("suggestions",
                JList [JStr "Use <b>bold</b> headings";
                       JStr "click the refresh button";
                       JStr "Add dates"])]
              [JStr "Use <b>bold</b> headings";
               JStr "click the refresh button";
               JStr "Add dates"])
    as [ev [Hrun Hsugg]].
  - repeat constructor.
  - vm_compute; reflexivity.
  - reflexivity.
  - vm_compute. discriminate.
  - exists ev. split; [exact Hrun|]. rewrite Hsugg. vm_compute. reflexivity.
Defined.

(* ================================================================== *)
(** ** The evaluation normaliser: code fences *)

Lemma contains_eq (sub s : string) :
  contains sub s =
  prefix sub s
  || match s with
     | EmptyString => false
     | String _ s' => contains sub s'
     end.
Proof. destruct s; reflexivity. Qed.

Lemma find_from_eq (sub s : string) (i : Z) :
  find_from sub s i =
  if prefix sub s then i
  else match s with
       | EmptyString => (-1)%Z
       | String _ s' => find_from sub s' (i + 1)%Z
       end.
Proof. destruct s; reflexivity. Qed.

Lemma rfind_from_eq (sub s : string) (i best : Z) :
  rfind_from sub s i best =
  let best' := if prefix sub s then i else best in
  match s with
  | EmptyString => best'
  | String _ s' => rfind_from sub s' (i + 1)%Z best'
  end.
Proof. destruct s; reflexivity. Qed.

Lemma prefix_app (sub rest : string) : prefix sub (sub ++ rest) = true.
Proof.
  induction sub as [|c sub IH]; simpl; [now destruct rest|].
  destruct (ascii_dec c c); [assumption | contradiction].
Qed.

Lemma contains_app (sub pre rest : string) :
  contains sub (pre ++ sub ++ rest) = true.
Proof.
  induction pre as [|c pre IH]; rewrite contains_eq.
  - cbn [append]. now rewrite prefix_app.
  - cbn [append]. rewrite IH. apply orb_true_r.
Qed.

Lemma append_length (a b : string) :
  String.length (a ++ b) = String.length a + String.length b.
Proof. induction a as [|c a IH]; simpl; [reflexivity | now rewrite IH]. Qed.

Lemma append_assoc (a b c : string) : ((a ++ b) ++ c = a ++ b ++ c)%string.
Proof. induction a as [|x a IH]; simpl; [reflexivity | now rewrite IH]. Qed.

Lemma substring_all (b r : string) :
  substring 0 (String.length b) (b ++ r) = b.
Proof.
  induction b as [|c b IH]; simpl; [now destruct r | now rewrite IH].
Qed.

Lemma substring_middle (a b r : string) :
  substring (String.length a) (String.length b) (a ++ b ++ r) = b.
Proof.
  induction a as [|c a IH]; simpl; [apply substring_all | exact IH].
Qed.

(** A text without the first character of [marker] is skipped by
    [find]. *)
Lemma find_from_skip (c : ascii) (marker pre rest : string) :
  contains (String c "") pre = false ->
  forall i,
    find_from (String c marker) (pre ++ String c marker ++ rest) i
    = (i + Z.of_nat (String.length pre))%Z.
Proof.
  induction pre as [|x pre IH]; intros Hno i; rewrite find_from_eq.
  - cbn [append]. change (String c (marker ++ rest))
      with (String c marker ++ rest)%string.
    rewrite prefix_app. simpl. lia.
  - rewrite contains_eq in Hno. apply orb_false_iff in Hno as [Hx Hpre].
    cbn [append prefix] in *.
    destruct (ascii_dec c x) as [-> | Hne].
    + destruct pre; discriminate Hx.
    + rewrite (IH Hpre). cbn [String.length]. lia.
Qed.

Lemma rfind_from_none (sub s : string) :
  contains sub s = false ->
  forall i best, rfind_from sub s i best = best.
Proof.
  induction s as [|c s IH]; intros Hno i best;
    rewrite rfind_from_eq; rewrite contains_eq in Hno;
    apply orb_false_iff in Hno as [Hp Hs]; rewrite Hp; cbv zeta.
  - reflexivity.
  - now apply IH.
Qed.

(** The last place where [sub] starts. *)
Lemma rfind_from_last (sub a t : string) :
  prefix sub t = true ->
  match t with
  | EmptyString => True
  | String _ t' => contains sub t' = false
  end ->
  forall i best,
    rfind_from sub (a ++ t) i best = (i + Z.of_nat (String.length a))%Z.
Proof.
  intros Hp Hlast.
  induction a as [|c a IH]; intros i best.
  - cbn [append String.length]. rewrite rfind_from_eq, Hp. cbv zeta.
    destruct t as [|c t']; [simpl; lia|].
    rewrite (rfind_from_none _ _ Hlast). simpl. lia.
  - cbn [append]. rewrite rfind_from_eq. cbv zeta.
    rewrite IH. cbn [String.length]. lia.
Qed.

Lemma no_tick_no_fence (s : string) :
  contains "`" s = false -> contains "```" s = false.
Proof.
  induction s as [|c s IH]; intros Hno; [reflexivity|].
  rewrite contains_eq in Hno. apply orb_false_iff in Hno as [Hc Hs].
  rewrite contains_eq, (IH Hs), orb_false_r.
  cbn [prefix] in *. destruct (ascii_dec "`" c); [|reflexivity].
  destruct s; discriminate Hc.
Qed.

Lemma no_fence_after (post : string) :
  contains "`" post = false -> contains "```" ("``" ++ post) = false.
Proof.
  intros Hno.
  assert (Hhead : forall rest, prefix (String "`" rest) post = false).
  { intros rest. destruct post as [|c post]; [reflexivity|].
    rewrite contains_eq in Hno. apply orb_false_iff in Hno as [Hc _].
    cbn [prefix] in *. destruct (ascii_dec "`" c); [|reflexivity].
    destruct post; discriminate Hc. }
  cbn [append]. rewrite contains_eq.
  cbn [prefix]. destruct (ascii_dec "`" "`"); [|contradiction].
  rewrite (Hhead ""), orb_false_l.
  rewrite contains_eq. cbn [prefix].
  destruct (ascii_dec "`" "`"); [|contradiction].
  rewrite (Hhead "`"), orb_false_l.
  now apply no_tick_no_fence.
Qed.

Section Fences.
Context `{Builtins}.

(** The text between a marker that starts with a backtick and the
    closing fence, when no backtick comes before or after them. *)
Lemma fenced_between (marker pre body post : string) :
  contains "`" pre = false ->
  contains "`" post = false ->
  fenced (pre ++ String "`" marker ++ body ++ "```" ++ post)
         (String "`" marker)
  = str_strip body.
Proof.
  intros Hpre Hpost. unfold fenced, find, rfind.
  rewrite (find_from_skip "`" marker pre _ Hpre).
  replace (pre ++ String "`" marker ++ body ++ "```" ++ post)%string
    with ((pre ++ String "`" marker ++ body) ++ "```" ++ post)%string
    by (now rewrite !append_assoc).
  rewrite (rfind_from_last "```" _ ("```" ++ post));
    [|apply prefix_app|exact (no_fence_after post Hpost)].
  set (start := (0 + Z.of_nat (String.length pre)
                 + Z.of_nat (String.length (String "`" marker)))%Z).
  set (stop := (0 + Z.of_nat (String.length
                               (pre ++ String "`" marker ++ body)))%Z).
  assert (Hstart : (0 <= start)%Z) by (subst start; lia).
  assert (Hstop : stop = (start + Z.of_nat (String.length body))%Z).
  { subst start stop. rewrite !append_length. lia. }
  destruct (start =? -1)%Z eqn:E1; [apply Z.eqb_eq in E1; lia|].
  destruct (stop =? -1)%Z eqn:E2; [apply Z.eqb_eq in E2; lia|].
  cbn [negb andb]. f_equal.
  unfold slice, slice_bound.
  set (text := ((pre ++ String "`" marker ++ body) ++ "```" ++ post)%string).
  assert (Hlen : (stop <= Z.of_nat (String.length text))%Z).
  { subst text stop. rewrite (append_length (pre ++ _)). lia. }
  destruct (start <? 0)%Z eqn:E3; [apply Z.ltb_lt in E3; lia|].
  destruct (stop <? 0)%Z eqn:E4; [apply Z.ltb_lt in E4; lia|].
  rewrite !Z.min_l by lia.
  replace (Z.to_nat (stop - start)) with (String.length body) by lia.
  replace (Z.to_nat start)
    with (String.length (pre ++ String "`" marker))
    by (subst start; rewrite append_length; lia).
  subst text.
  replace ((pre ++ String "`" marker ++ body) ++ "```" ++ post)%string
    with ((pre ++ String "`" marker) ++ body ++ "```" ++ post)%string
    by (now rewrite !append_assoc).
  apply substring_middle.
Qed.

(** X11: a reply that holds its JSON between a fence [```json] (or a
    plain fence [```], when the reply has no [```json]) and a closing
    fence, with text before and after that has no backtick, is
    evaluated as the stripped text between the fences: when that text
    is JSON, the result is the normalised value. *)
Theorem fenced_reply_unwrapped fuel content marker pre body post :
  str_strip content = (pre ++ marker ++ body ++ "```" ++ post)%string ->
  contains "`" pre = false ->
  contains "`" post = false ->
  marker = "```json" \/
  (marker = "```" /\ contains "```json" (str_strip content) = false) ->
  unfence (str_strip content) = str_strip body /\
  forall parsed,
    json_loads (str_strip body) = Some parsed ->
    evaluate_answer fuel (Some content) = normalise fuel parsed.
Proof.
  intros Htext Hpre Hpost Hmarker.
  assert (Hunfence : unfence (str_strip content) = str_strip body).
  { unfold unfence. destruct Hmarker as [-> | [-> Hplain]].
    - rewrite Htext, contains_app. now apply fenced_between.
    - rewrite Hplain, Htext, contains_app. now apply fenced_between. }
  split; [exact Hunfence|].
  intros parsed Hloads. unfold evaluate_answer, extract_json.
  now rewrite Hunfence, Hloads.
Qed.

End Fences.

Lemma fenced_reply_unwrapped_witness :
  evaluate_answer (H := reference_builtins) 3 (Some reply_markup)
  = normalise (H := reference_builtins) 3
      (JDict [("score", JInt 7); ("feedback", JStr "ok");
              ("suggestions",
               JList [JStr "Use <b>bold</b> headings";
                      JStr "click the refresh button";
                      JStr "Add dates"])]).
Proof.
  refine (proj2 (fenced_reply_unwrapped (H := reference_builtins) 3
                   reply_markup "```json" "Here you are: "
                   (Reference.json_text
                      " {'score': 7, 'feedback': 'ok', 'suggestions': ['Use <b>bold</b> headings', 'click the refresh button', 'Add dates']} ")
                   "" _ _ _ _) _ _).
  - vm_compute. reflexivity.
  - vm_compute. reflexivity.
  - reflexivity.
  - left. reflexivity.
  - vm_compute. reflexivity.
Defined.

(* ================================================================== *)
(** ** [get_simple_suggestions], [_extract_json] and [generate_quiz] *)

Lemma simple_default_suggestions_NoDup : NoDup simple_default_suggestions.
Proof.
  unfold simple_default_suggestions.
  repeat constructor; simpl; intuition discriminate.
Qed.

Lemma no_char_cons (sep c : ascii) (s : string) :
  contains (String sep "") (String c s) = false ->
  Ascii.eqb c sep = false /\ contains (String sep "") s = false.
Proof.
  rewrite contains_eq. intros Hno.
  apply orb_false_iff in Hno as [Hc Hs]. split; [|exact Hs].
  cbn [prefix] in Hc. destruct (ascii_dec sep c) as [-> | Hne].
  - destruct s; discriminate Hc.
  - apply Ascii.eqb_neq. congruence.
Qed.

Lemma split_on_none (sep : ascii) (a : string) :
  contains (String sep "") a = false -> split_on sep a = [a].
Proof.
  induction a as [|c a IH]; intros Hno; [reflexivity|].
  apply no_char_cons in Hno as [Hc Ha].
  cbn [split_on]. now rewrite Hc, (IH Ha).
Qed.

Lemma split_on_app (sep : ascii) (a b : string) :
  contains (String sep "") a = false ->
  split_on sep (a ++ String sep b) = a :: split_on sep b.
Proof.
  induction a as [|c a IH]; intros Hno.
  - cbn [append split_on]. now rewrite Ascii.eqb_refl.
  - apply no_char_cons in Hno as [Hc Ha].
    cbn [append split_on]. now rewrite Hc, (IH Ha).
Qed.

(** Splitting at newlines what was joined with newlines. *)
Lemma split_on_join (sep : ascii) (lines : list string) :
  lines <> [] ->
  Forall (fun line => contains (String sep "") line = false) lines ->
  split_on sep (join (String sep "") lines) = lines.
Proof.
  induction lines as [|line lines IH]; intros Hne Hall; [contradiction|].
  inversion Hall as [|? ? Hline Hrest]; subst.
  destruct lines as [|next lines].
  - cbn [join]. now apply split_on_none.
  - change (join (String sep "") (line :: next :: lines))
      with (line ++ String sep (join (String sep "") (next :: lines)))%string.
    rewrite (split_on_app _ _ _ Hline), IH; [reflexivity|discriminate|exact Hrest].
Qed.

Section SimpleSuggestionsFacts.
Context `{Builtins}.
Variable char_isdigit : string -> bool.

Lemma simple_suggestions_kept (lines : list string) :
  Forall (fun line => simple_suggestion char_isdigit line = Some line) lines ->
  simple_suggestions char_isdigit lines = lines.
Proof.
  induction 1 as [|line lines Hline _ IH]; [reflexivity|].
  cbn [simple_suggestions]. now rewrite Hline, IH.
Qed.

(** X12: for every reply, and when obtaining the reply raised,
    [get_simple_suggestions] returns (its padding loop stops within
    three rounds) exactly three suggestions: the first three that its
    lines give, followed by the first of its defaults that are not among
    them. *)
Theorem get_simple_suggestions_three fuel response :
  3 <= fuel ->
  exists l,
    get_simple_suggestions char_isdigit fuel response = Some l /\
    List.length l = 3 /\
    match response with
    | None => l = simple_default_suggestions
    | Some content =>
        let kept :=
          firstn 3 (simple_suggestions char_isdigit
                      (split_on newline (str_strip content))) in
        l = kept ++ firstn (3 - List.length kept)
                      (missing simple_default_suggestions kept)
    end.
Proof.
  intros Hfuel. unfold get_simple_suggestions.
  destruct response as [content|].
  - set (kept := firstn 3 _).
    assert (Hkept : List.length kept <= 3).
    { subst kept. rewrite length_firstn. lia. }
    rewrite (pad_from_exact simple_default_suggestions fuel
               simple_default_suggestions_NoDup); [|simpl; lia|lia].
    pose proof (pad_from_length simple_default_suggestions kept
                  simple_default_suggestions_NoDup) as Hlen.
    cbn [option_map]. eexists. split; [reflexivity|].
    rewrite firstn_all2 by (rewrite Hlen; simpl; lia).
    split; [apply Hlen; simpl; lia | reflexivity].
  - exists simple_default_suggestions. repeat split.
Qed.

(** X13: a reply of three lines or more, each of them stripped, not
    empty and without a number in front, comes back as its first three
    lines, unchanged: no filter is applied to them. *)
Theorem get_simple_suggestions_lines fuel content lines :
  str_strip content = join (String newline "") lines ->
  3 <= List.length lines ->
  Forall (fun line => contains (String newline "") line = false) lines ->
  Forall (fun line => simple_suggestion char_isdigit line = Some line) lines ->
  get_simple_suggestions char_isdigit fuel (Some content)
  = Some (firstn 3 lines).
Proof.
  intros Htext Hlen Hnl Hkept. unfold get_simple_suggestions.
  rewrite Htext, split_on_join; [|intros ->; simpl in Hlen; lia|exact Hnl].
  rewrite (simple_suggestions_kept lines Hkept).
  assert (Hthree : List.length (firstn 3 lines) = 3).
  { rewrite length_firstn. lia. }
  destruct fuel as [|fuel].
  - rewrite pad_from_O, Hthree. cbn [Nat.ltb Nat.leb option_map].
    now rewrite firstn_firstn.
  - rewrite pad_from_S, Hthree. cbn [Nat.ltb Nat.leb option_map].
    now rewrite firstn_firstn.
Qed.

Lemma find_from_none (sub s : string) :
  contains sub s = false -> forall i, find_from sub s i = (-1)%Z.
Proof.
  induction s as [|c s IH]; intros Hno i;
    rewrite find_from_eq; rewrite contains_eq in Hno;
    apply orb_false_iff in Hno as [Hp Hs]; rewrite Hp.
  - reflexivity.
  - now apply IH.
Qed.

(** X14: [_extract_json] returns the text from the first [[] to the
    last []] with both brackets, and the text of an empty list when
    either bracket is missing; [generate_quiz] returns whatever that
    text parses to, and an empty list when it does not parse. *)
Theorem extract_json_brackets :
  (forall pre body post,
      contains "[" pre = false ->
      contains "]" post = false ->
      _extract_json (pre ++ "[" ++ body ++ "]" ++ post)
      = ("[" ++ body ++ "]")%string /\
      generate_quiz (Some (pre ++ "[" ++ body ++ "]" ++ post)%string)
      = match json_loads ("[" ++ body ++ "]") with
        | Some questions => questions
        | None => JList []
        end) /\
  (forall text,
      contains "[" text = false \/ contains "]" text = false ->
      _extract_json text = "[]").
Proof.
  split.
  - intros pre body post Hpre Hpost.
    assert (Hextract :
      _extract_json (pre ++ "[" ++ body ++ "]" ++ post)
      = ("[" ++ body ++ "]")%string).
    { unfold _extract_json, find, rfind.
      rewrite (find_from_skip "[" "" pre _ Hpre).
      replace (pre ++ "[" ++ body ++ "]" ++ post)%string
        with ((pre ++ "[" ++ body) ++ "]" ++ post)%string
        by (now rewrite !append_assoc).
      rewrite (rfind_from_last "]" _ ("]" ++ post));
        [|apply prefix_app|exact Hpost].
      set (text := ((pre ++ "[" ++ body) ++ "]" ++ post)%string).
      set (start := (0 + Z.of_nat (String.length pre))%Z).
      set (stop := (0 + Z.of_nat (String.length (pre ++ "[" ++ body)) + 1)%Z).
      assert (Hstop : stop
                      = (start + Z.of_nat (String.length ("[" ++ body ++ "]")))%Z).
      { subst start stop. rewrite !append_length. cbn [String.length]. lia. }
      assert (Hlen : (stop <= Z.of_nat (String.length text))%Z).
      { subst text stop. rewrite (append_length (pre ++ _)).
        cbn [append String.length]. lia. }
      destruct (start =? -1)%Z eqn:E1; [apply Z.eqb_eq in E1; lia|].
      destruct (stop =? 0)%Z eqn:E2; [apply Z.eqb_eq in E2; lia|].
      cbn [negb andb]. unfold slice, slice_bound.
      destruct (start <? 0)%Z eqn:E3; [apply Z.ltb_lt in E3; lia|].
      destruct (stop <? 0)%Z eqn:E4; [apply Z.ltb_lt in E4; lia|].
      rewrite !Z.min_l by lia.
      replace (Z.to_nat (stop - start))
        with (String.length ("[" ++ body ++ "]")) by lia.
      replace (Z.to_nat start) with (String.length pre) by lia.
      subst text.
      replace ((pre ++ "[" ++ body) ++ "]" ++ post)%string
        with (pre ++ ("[" ++ body ++ "]") ++ post)%string
        by (now rewrite !append_assoc).
      apply substring_middle. }
    split; [exact Hextract|].
    unfold generate_quiz. now rewrite Hextract.
  - intros text [Hno | Hno]; unfold _extract_json, find, rfind.
    + rewrite (find_from_none _ _ Hno). reflexivity.
    + rewrite (rfind_from_none _ _ Hno).
      destruct (find_from "[" text 0 =? -1)%Z; reflexivity.
Qed.

End SimpleSuggestionsFacts.

Lemma get_simple_suggestions_three_witness :
  get_simple_suggestions (H := reference_builtins) Reference.ascii_isdigit 3
    (Some simple_reply)
  = Some [ "Add dates"; "Quote the text";
           "Focus on addressing the main question more directly." ].
Proof.
  destruct (get_simple_suggestions_three (H := reference_builtins)
              Reference.ascii_isdigit 3 (Some simple_reply))
    as [l [Hrun [_ Hl]]].
  - repeat constructor.
  - rewrite Hrun, Hl. vm_compute. reflexivity.
Defined.

Lemma get_simple_suggestions_lines_witness :
  get_simple_suggestions (H := reference_builtins) Reference.ascii_isdigit 0
    (Some (join (String newline "") plain_lines))
  = Some [ "Add <b>dates</b>"; "Quote the text"; "Name your sources" ].
Proof.
  apply (get_simple_suggestions_lines (H := reference_builtins)
           Reference.ascii_isdigit 0
           (join (String newline "") plain_lines) plain_lines).
  - vm_compute. reflexivity.
  - vm_compute. repeat constructor.
  - repeat constructor.
  - repeat constructor.
Defined.

(* ================================================================== *)
(** ** app.py: the suggestions that are put on the page *)

Lemma render_default_suggestions_NoDup : NoDup App.render_default_suggestions.
Proof.
  unfold App.render_default_suggestions.
  repeat constructor; simpl; intuition discriminate.
Qed.

Lemma render_defaults_checked :
  forallb passes_render App.render_default_suggestions = true.
Proof. vm_compute. reflexivity. Qed.

Lemma existsb_false_forall {A} (p : A -> bool) (l : list A) :
  existsb p l = false -> forall x, In x l -> p x = false.
Proof.
  intros Hno x Hin. destruct (p x) eqn:E; [|reflexivity].
  rewrite <- Hno. symmetry. apply existsb_exists. eauto.
Qed.

Section RenderFacts.
Context `{Builtins}.

Lemma passes_render_sound (s : string) :
  passes_render s = true -> fit_to_render s.
Proof.
  unfold passes_render. intros Hp.
  repeat (apply andb_true_iff in Hp as [Hp ?]).
  rewrite forallb_forall in *.
  repeat split.
  - apply eqb_empty_false. now apply negb_true_iff.
  - now apply negb_true_iff.
  - now apply negb_true_iff.
  - intros char Hin. apply negb_true_iff. auto.
  - intros phrase Hin. rewrite (lower_ascii_text s Hp).
    apply negb_true_iff. auto.
Qed.

Lemma render_clean_fit (v : json) (s : string) :
  App.render_clean v = Some s -> fit_to_render s.
Proof.
  unfold App.render_clean. destruct v as [| | | | raw | |]; try discriminate.
  cbv zeta.
  destruct (str_strip raw =? "") eqn:Eempty; [discriminate|].
  destruct (existsb _ App.render_deny_chars) eqn:Echars; [discriminate|].
  destruct (contains "<" (str_strip raw)) eqn:Elt; [discriminate|].
  destruct (contains ">" (str_strip raw)) eqn:Egt; [discriminate|].
  cbn [orb].
  destruct (existsb _ App.render_deny_phrases) eqn:Ephrases; [discriminate|].
  intros E. injection E as <-.
  repeat split; auto.
  - now apply eqb_empty_false.
  - exact (existsb_false_forall _ _ Echars).
  - exact (existsb_false_forall _ _ Ephrases).
Qed.

Lemma render_clean_all_fit (l : list json) :
  Forall fit_to_render (App.render_clean_all l).
Proof.
  induction l as [|v l IH]; [constructor|].
  cbn [App.render_clean_all].
  destruct (App.render_clean v) as [s|] eqn:E; [|exact IH].
  constructor; [exact (render_clean_fit v s E) | exact IH].
Qed.

Lemma render_defaults_fit :
  Forall fit_to_render App.render_default_suggestions.
Proof.
  apply Forall_forall. intros s Hin.
  pose proof render_defaults_checked as Hall.
  rewrite forallb_forall in Hall.
  apply passes_render_sound. auto.
Qed.

(** What [render_ai_feedback] does with the suggestions of a [dict]. *)
Lemma page_suggestions_fit fuel raw_suggestions :
  3 <= fuel ->
  exists l,
    App.page_suggestions fuel raw_suggestions = Some l /\
    List.length l = 3 /\
    Forall fit_to_render l /\
    l = match firstn 3 (App.render_clean_all
                          match raw_suggestions with
                          | JList items => items
                          | _ => []
                          end) with
        | [] => App.render_default_suggestions
        | kept =>
            kept ++ firstn (3 - List.length kept)
                      (missing App.render_default_suggestions kept)
        end.
Proof.
  intros Hfuel. unfold App.page_suggestions.
  set (clean := App.render_clean_all _).
  pose proof (render_clean_all_fit
                match raw_suggestions with JList items => items | _ => [] end)
    as Hclean.
  fold clean in Hclean.
  rewrite (pad_from_exact App.render_default_suggestions fuel
             render_default_suggestions_NoDup); [|simpl; lia|lia].
  eexists. split; [reflexivity|].
  assert (Hfit : forall kept,
    Forall fit_to_render kept ->
    Forall fit_to_render
      (kept ++ firstn (3 - List.length kept)
                 (missing App.render_default_suggestions kept))).
  { intros kept Hkept. apply Forall_app. split; [exact Hkept|].
    apply Forall_forall. intros s Hs. apply in_firstn in Hs.
    apply missing_In in Hs as [Hs _].
    pose proof render_defaults_fit as Hd.
    rewrite Forall_forall in Hd. auto. }
  split; [|split].
  - apply pad_from_length;
      [apply render_default_suggestions_NoDup | simpl; lia|].
    rewrite length_firstn. lia.
  - apply Hfit. destruct clean as [|x xs].
    + exact render_defaults_fit.
    + apply Forall_forall. intros s Hs. apply in_firstn in Hs.
      rewrite Forall_forall in Hclean. auto.
  - destruct clean as [|x xs]; reflexivity.
Qed.

Context `{FB : FloatBuiltins}.

Lemma page_score_range d score :
  App.page_score d = inr score -> (0 <= score <= 100)%Z.
Proof.
  unfold App.page_score.
  destruct (dict_get d "score") as [v|]; [|intros E; injection E as <-; lia].
  assert (Hfifty : inr 50%Z = (inr score : py_error + Z) ->
                   (0 <= score <= 100)%Z).
  { intros E. injection E as <-. lia. }
  destruct v; try exact Hfifty; cbv zeta;
    match goal with
    | |- context [match ?c with inr _ => _ | inl _ => _ end] =>
        destruct c as [[| |]|z']
    end;
    try exact Hfifty; try discriminate;
    intros E; injection E as <-; lia.
Qed.

Lemma page_score_error d e :
  App.page_score d = inl e -> e = PyOverflowError.
Proof.
  unfold App.page_score.
  destruct (dict_get d "score") as [v|]; [|discriminate].
  destruct v; try discriminate; cbv zeta;
    match goal with
    | |- context [match ?c with inr _ => _ | inl _ => _ end] =>
        destruct c as [[| |]|z']
    end;
    try discriminate; intros E; now injection E as <-.
Qed.

(** X15: [render_ai_feedback] always ends (its padding loop stops
    within three rounds) in one of four ways: the notice that no
    evaluation is available, for a falsy value; the error of an invalid
    format, for a value that is not a [dict]; the assessment; or, when
    the conversion of the score raises [OverflowError] (a score that is
    an infinite float or an [int] too large for a float), the error of
    its outer handler, and then nothing of the evaluation is put on the
    page.  An assessment has a score from 0 to 100 and exactly three
    suggestions: the first three under [suggestions] that pass the
    checks, stripped and in their order, then the first of the defaults
    that are not among them; none of the three is empty, none has [<] or
    [>], and none has a character or a phrase of the two lists. *)
Theorem render_ai_feedback_shown fuel evaluation_result :
  3 <= fuel ->
  (exists shown,
      App.render_ai_feedback fuel evaluation_result = Some shown /\
      match shown with
      | App.NotAvailable => truthy evaluation_result = false
      | App.InvalidFormat =>
          truthy evaluation_result = true /\
          forall d, evaluation_result <> JDict d
      | App.Problem =>
          exists d,
            evaluation_result = JDict d /\ d <> [] /\
            App.page_score d = inl PyOverflowError
      | App.Assessment score color feedback l =>
          exists d,
            evaluation_result = JDict d /\ d <> [] /\
            App.page_score d = inr score /\
            (0 <= score <= 100)%Z /\
            color = App.score_color score /\
            List.length l = 3 /\
            Forall fit_to_render l /\
            l = match firstn 3 (App.render_clean_all
                                  match dict_get d "suggestions" with
                                  | Some (JList items) => items
                                  | _ => []
                                  end) with
                | [] => App.render_default_suggestions
                | kept =>
                    kept ++ firstn (3 - List.length kept)
                              (missing App.render_default_suggestions kept)
                end
      end) /\
  (forall d,
      evaluation_result = JDict d -> d <> [] ->
      (dict_get d "score" = Some (JFloat FInf) \/
       dict_get d "score" = Some (JFloat FNegInf) \/
       exists z, dict_get d "score" = Some (JInt z) /\
                 (2 ^ 1024 - 2 ^ 970 <= Z.abs z)%Z) ->
      App.render_ai_feedback fuel evaluation_result = Some App.Problem).
Proof.
  intros Hfuel. split.
  - unfold App.render_ai_feedback.
    destruct (truthy evaluation_result) eqn:Htruthy; cbn [negb];
      [|exists App.NotAvailable; split; reflexivity].
    destruct evaluation_result as [| b | z | f | s | l | d];
      try (exists App.InvalidFormat;
           split; [reflexivity
                  | split; [first [exact Htruthy | reflexivity]
                           | discriminate]]).
    assert (Hne : d <> []) by (intros ->; discriminate Htruthy).
    destruct (App.page_score d) as [e | score] eqn:Hscore.
    + exists App.Problem. split; [reflexivity|].
      exists d. repeat split; auto.
      now rewrite <- (page_score_error d e Hscore).
    + destruct (page_suggestions_fit fuel
                  match dict_get d "suggestions" with
                  | Some v => v
                  | None => JList []
                  end Hfuel) as [l [Hrun [Hlen [Hfit Hl]]]].
      rewrite Hrun. eexists. split; [reflexivity|].
      exists d. repeat split; auto; try apply (page_score_range d score Hscore).
      rewrite Hl. destruct (dict_get d "suggestions") as [[]|]; reflexivity.
  - intros d -> Hne Hscore. unfold App.render_ai_feedback.
    destruct d as [|item d]; [contradiction|]. cbn [truthy negb].
    assert (Hover : App.page_score (item :: d) = inl PyOverflowError).
    { unfold App.page_score.
      destruct Hscore as [-> | [-> | [z [-> Hbig]]]]; cbn [App.py_float].
      - cbv zeta. now rewrite hundred_inf.
      - cbv zeta. now rewrite hundred_neg_inf.
      - unfold float_of_int.
        destruct (2 ^ 1024 - 2 ^ 970 <=? Z.abs z)%Z eqn:E;
          [reflexivity|].
        apply Z.leb_gt in E. lia. }
    now rewrite Hover.
Qed.

End RenderFacts.

Lemma render_ai_feedback_shown_witness :
  exists shown,
    App.render_ai_feedback (H := reference_builtins) (FB := reference_floats)
      3 page_evaluation = Some shown.
Proof.
  destruct (render_ai_feedback_shown (H := reference_builtins)
              (FB := reference_floats) 3 page_evaluation)
    as [[shown [Hrun _]] _].
  - repeat constructor.
  - exists shown. exact Hrun.
Defined.

(** The same evaluation on the page, and one with an infinite score. *)
Lemma render_ai_feedback_examples :
  App.render_ai_feedback (H := reference_builtins) (FB := reference_floats)
    3 page_evaluation
  = Some (App.Assessment 70 "#FFC107" "ok"
            [ "Add dates";
              "Focus on addressing the main points of the question";
              "Focus on addressing the question directly" ]) /\
  App.render_ai_feedback (H := reference_builtins) (FB := reference_floats)
    3 (JDict [("score", JFloat FInf); ("suggestions", JList [JStr "Add dates"])])
  = Some App.Problem.
Proof. split; vm_compute; reflexivity. Qed.

Lemma sanitize_defaults_checked :
  forallb
    (fun s => forallb (fun x => negb (contains x s)) App.sanitize_deny)
    App.sanitize_default_suggestions = true.
Proof. vm_compute. reflexivity. Qed.

Lemma sanitize_defaults_fit :
  Forall fit_to_list App.sanitize_default_suggestions.
Proof.
  apply Forall_forall. intros s Hs x Hx.
  pose proof sanitize_defaults_checked as Hall.
  rewrite forallb_forall in Hall. specialize (Hall s Hs).
  rewrite forallb_forall in Hall. apply negb_true_iff. auto.
Qed.

Lemma sanitize_items_fit (l : list json) :
  Forall fit_to_list (App.sanitize_items l).
Proof.
  induction l as [|v l IH]; [constructor|].
  cbn [App.sanitize_items].
  destruct (App.sanitize_item v) as [s|] eqn:E; [|exact IH].
  constructor; [|exact IH].
  unfold App.sanitize_item in E.
  destruct v as [| | | | raw | |]; try discriminate.
  destruct (existsb _ App.sanitize_deny) eqn:Edeny; [discriminate|].
  injection E as <-. exact (existsb_false_forall _ _ Edeny).
Qed.

Lemma sanitize_items_kept (l : list string) :
  Forall fit_to_list l -> App.sanitize_items (map JStr l) = l.
Proof.
  induction 1 as [|s l Hs _ IH]; [reflexivity|].
  cbn [map App.sanitize_items App.sanitize_item].
  destruct (existsb _ App.sanitize_deny) eqn:Edeny.
  - apply existsb_exists in Edeny as [x [Hx Hc]].
    rewrite (Hs x Hx) in Hc. discriminate.
  - now rewrite IH.
Qed.

(** X16: [debug_sanitize_suggestions] never returns an empty list, and
    none of what it returns has one of its four texts.  A list of
    strings that is not empty and has none of them comes back as it is,
    empty strings included, so sanitizing twice is sanitizing once. *)
Theorem debug_sanitize_suggestions_result :
  (forall suggestions,
      App.debug_sanitize_suggestions suggestions <> [] /\
      Forall fit_to_list (App.debug_sanitize_suggestions suggestions) /\
      App.debug_sanitize_suggestions
        (JList (map JStr (App.debug_sanitize_suggestions suggestions)))
      = App.debug_sanitize_suggestions suggestions) /\
  (forall items,
      items <> [] -> Forall fit_to_list items ->
      App.debug_sanitize_suggestions (JList (map JStr items)) = items).
Proof.
  assert (Hkept : forall items,
    items <> [] -> Forall fit_to_list items ->
    App.debug_sanitize_suggestions (JList (map JStr items)) = items).
  { intros items Hne Hfit. unfold App.debug_sanitize_suggestions.
    rewrite (sanitize_items_kept items Hfit).
    destruct items; [contradiction | reflexivity]. }
  assert (Hresult : forall suggestions,
    App.debug_sanitize_suggestions suggestions <> [] /\
    Forall fit_to_list (App.debug_sanitize_suggestions suggestions)).
  { intros suggestions. unfold App.debug_sanitize_suggestions.
    destruct suggestions as [| | | | |l|];
      try (split; [discriminate | exact sanitize_defaults_fit]).
    pose proof (sanitize_items_fit l) as Hfit.
    destruct (App.sanitize_items l) as [|x xs].
    - split; [discriminate | exact sanitize_defaults_fit].
    - split; [discriminate | exact Hfit]. }
  split; [|exact Hkept].
  intros suggestions. destruct (Hresult suggestions) as [Hne Hfit].
  repeat split; auto.
Qed.

(* ================================================================== *)
(** ** app.py: the question list of the teacher page *)

Section TeacherFacts.
Import TeacherView.

Lemma set_nth_length (l : list string) i x :
  List.length (set_nth l i x) = List.length l.
Proof.
  revert i. induction l as [|y l IH]; intros [|i]; simpl; auto.
Qed.

Lemma set_nth_same (l : list string) i x :
  i < List.length l -> nth_error (set_nth l i x) i = Some x.
Proof.
  revert i. induction l as [|y l IH]; intros [|i]; simpl; try lia; auto.
  intros Hi. apply IH. lia.
Qed.

Lemma set_nth_other (l : list string) i j x :
  i <> j -> nth_error (set_nth l i x) j = nth_error l j.
Proof.
  revert i j. induction l as [|y l IH]; intros [|i] [|j]; simpl; auto; try lia.
Qed.

Lemma swap_length (l : list string) i j :
  List.length (swap l i j) = List.length l.
Proof.
  unfold swap. destruct (nth_error l i), (nth_error l j); auto.
  now rewrite !set_nth_length.
Qed.

Lemma swap_nth (l : list string) i j k :
  i < List.length l -> j < List.length l ->
  nth_error (swap l i j) k
  = if (k =? j)%nat then nth_error l i
    else if (k =? i)%nat then nth_error l j
    else nth_error l k.
Proof.
  intros Hi Hj. unfold swap.
  destruct (nth_error l i) as [x|] eqn:Ex;
    [|apply nth_error_None in Ex; lia].
  destruct (nth_error l j) as [y|] eqn:Ey;
    [|apply nth_error_None in Ey; lia].
  destruct (Nat.eqb_spec k j) as [-> | Hkj].
  - apply set_nth_same. now rewrite set_nth_length.
  - rewrite set_nth_other by auto.
    destruct (Nat.eqb_spec k i) as [-> | Hki].
    + now apply set_nth_same.
    + now rewrite set_nth_other by auto.
Qed.

Lemma pop_length (l : list string) i :
  i < List.length l -> S (List.length (pop l i)) = List.length l.
Proof.
  revert i. induction l as [|y l IH]; intros [|i]; simpl; try lia.
  intros Hi. rewrite IH; lia.
Qed.

Lemma pop_nth (l : list string) i k :
  nth_error (pop l i) k
  = if (k <? i)%nat then nth_error l k else nth_error l (S k).
Proof.
  revert i k. induction l as [|y l IH]; intros i k.
  - destruct i, k; cbn [pop nth_error]; now destruct (_ <? _)%nat.
  - destruct i as [|i], k as [|k]; cbn [pop nth_error]; try reflexivity.
    rewrite IH. reflexivity.
Qed.

Lemma py_get_position (l : list string) (i : Z) :
  (0 <= i)%Z -> py_get l i = nth_error l (Z.to_nat i).
Proof.
  intros Hi. unfold py_get.
  destruct (0 <=? i)%Z eqn:E; [reflexivity|]. apply Z.leb_gt in E. lia.
Qed.

Lemma nth_error_position (l : list string) n :
  n < List.length l -> exists q, nth_error l n = Some q.
Proof.
  intros Hn. destruct (nth_error l n) as [q|] eqn:E; [eauto|].
  apply nth_error_None in E. lia.
Qed.

Lemma pointer_ok_same st st' :
  same_list st st' -> pointer_ok st -> pointer_ok st'.
Proof.
  intros [Hq [Hc Hi]]. unfold pointer_ok. now rewrite Hq, Hc, Hi.
Qed.

Lemma push_question_kept code st rest db script :
  pointer_ok st ->
  same_list st (rest st) ->
  (confirm_ok st \/ confirm_ok (rest st)) ->
  confirm_ok (rest st) ->
  well_kept (push_question code st rest db script).
Proof.
  intros Hp Hsame _ Hconfirm. unfold push_question, well_kept.
  destruct (update_classroom_question code (current_question st) db script)
    as [[b | e] db']; cbn.
  - split; [discriminate|]. split; [|auto].
    exact (pointer_ok_same _ _ Hsame Hp).
  - split; [discriminate|]. split; [exact Hp | discriminate].
Qed.

Lemma unchanged_kept st db :
  pointer_ok st -> confirm_ok st -> well_kept (Ended, st, db).
Proof.
  intros Hp Hc. split; [discriminate|]. split; [exact Hp | auto].
Qed.

Lemma add_question_kept text st :
  pointer_ok st -> confirm_ok st ->
  pointer_ok (add_question text st) /\ confirm_ok (add_question text st).
Proof.
  intros Hp Hc. unfold add_question.
  destruct (Utils.validate_input text 0 None); [|auto].
  split.
  - destruct Hp as [[Hq [Hcur Hi]] | [q [Hi [Hq Hcur]]]].
    + right. exists text. cbn. rewrite Hq. cbn. repeat split. lia.
    + right. exists q. cbn. rewrite Hcur, orb_false_r.
      assert (Hlen : Z.to_nat (current_question_index st)
                     < List.length (questions st)).
      { apply nth_error_Some. congruence. }
      rewrite length_app. cbn [List.length].
      destruct (List.length (questions st) + 1 =? 1)%nat eqn:E;
        [apply Nat.eqb_eq in E; lia|].
      repeat split; auto.
      rewrite nth_error_app1; assumption.
  - intros i Hi. cbn in *. rewrite length_app. specialize (Hc i Hi). lia.
Qed.

Lemma exchange_kept i j st :
  i < List.length (questions st) -> j < List.length (questions st) ->
  i <> j ->
  pointer_ok st -> confirm_ok st ->
  pointer_ok (exchange i j st) /\ confirm_ok (exchange i j st).
Proof.
  intros Hi Hj Hij Hp Hc. split.
  - destruct Hp as [[Hq _] | [q [Hpos [Hq Hcur]]]].
    + rewrite Hq in Hi. simpl in Hi. lia.
    + right. exists q. unfold exchange. cbn.
      destruct (Z.of_nat i =? current_question_index st)%Z eqn:Ei.
      * apply Z.eqb_eq in Ei. rewrite <- Ei, Nat2Z.id in Hq.
        repeat split; [lia| |exact Hcur].
        rewrite Nat2Z.id, swap_nth by assumption.
        now rewrite Nat.eqb_refl.
      * apply Z.eqb_neq in Ei.
        destruct (Z.of_nat j =? current_question_index st)%Z eqn:Ej.
        -- apply Z.eqb_eq in Ej. rewrite <- Ej, Nat2Z.id in Hq.
           repeat split; [lia| |exact Hcur].
           rewrite Nat2Z.id, swap_nth by assumption.
           destruct (Nat.eqb_spec i j); [contradiction|].
           now rewrite Nat.eqb_refl.
        -- apply Z.eqb_neq in Ej.
           repeat split; [exact Hpos| |exact Hcur].
           rewrite swap_nth by assumption.
           destruct (Nat.eqb_spec (Z.to_nat (current_question_index st)) j);
             [lia|].
           destruct (Nat.eqb_spec (Z.to_nat (current_question_index st)) i);
             [lia|].
           exact Hq.
  - intros k Hk. unfold exchange in *. cbn in *.
    rewrite swap_length. auto.
Qed.

Lemma move_up_kept i st :
  pointer_ok st -> confirm_ok st ->
  pointer_ok (move_up i st) /\ confirm_ok (move_up i st).
Proof.
  intros Hp Hc. unfold move_up.
  destruct (i <? List.length (questions st))%nat eqn:Ei; [|auto].
  destruct (negb _); [|auto].
  destruct (0 <? i)%nat eqn:E0; [|auto]. cbn [andb].
  apply Nat.ltb_lt in Ei, E0. apply exchange_kept; auto; lia.
Qed.

Lemma move_down_kept i st :
  pointer_ok st -> confirm_ok st ->
  pointer_ok (move_down i st) /\ confirm_ok (move_down i st).
Proof.
  intros Hp Hc. unfold move_down.
  destruct (i <? List.length (questions st))%nat eqn:Ei; [|auto].
  destruct (negb _); [|auto].
  destruct (Z.of_nat i <? Z.of_nat (List.length (questions st)) - 1)%Z eqn:E0;
    [|auto].
  cbn [andb]. apply Nat.ltb_lt in Ei. apply Z.ltb_lt in E0.
  apply exchange_kept; auto; lia.
Qed.

Lemma request_delete_kept i st :
  pointer_ok st -> confirm_ok st ->
  pointer_ok (request_delete i st) /\ confirm_ok (request_delete i st).
Proof.
  intros Hp Hc. unfold request_delete.
  destruct (i <? List.length (questions st))%nat eqn:Ei; [|auto].
  destruct (negb _); [|auto]. cbn [andb]. apply Nat.ltb_lt in Ei.
  split; [exact Hp|]. intros k Hk. cbn in *. now injection Hk as <-.
Qed.

Lemma save_edit_kept i edited st db script :
  pointer_ok st -> confirm_ok st ->
  well_kept (save_edit i edited st db script).
Proof.
  intros Hp Hc. unfold save_edit.
  destruct (i <? List.length (questions st))%nat eqn:Ei;
    [|now apply unchanged_kept].
  destruct (editing_question_index st =? Z.of_nat i)%Z;
    [|now apply unchanged_kept].
  destruct (Utils.validate_input edited 0 None);
    [|now apply unchanged_kept].
  cbn [andb]. apply Nat.ltb_lt in Ei.
  destruct (Z.of_nat i =? current_question_index st)%Z eqn:Ecur.
  - apply Z.eqb_eq in Ecur.
    set (st' := {| questions := set_nth (questions st) i edited;
                   current_question := Some edited;
                   current_question_index := current_question_index st;
                   editing_question_index := editing_question_index st;
                   delete_confirm := delete_confirm st;
                   class_code := class_code st |}).
    assert (Hp' : pointer_ok st').
    { right. exists edited. subst st'. cbn. rewrite <- Ecur, Nat2Z.id.
      repeat split; [lia|]. now apply set_nth_same. }
    assert (Hc' : confirm_ok (with_editing (-1) st')).
    { intros k Hk. subst st'. cbn in *. rewrite set_nth_length. auto. }
    destruct (open_class st') as [code|].
    + apply push_question_kept; auto. repeat split.
    + split; [discriminate|]. split; [|auto].
      apply (pointer_ok_same st'); [repeat split | exact Hp'].
  - apply Z.eqb_neq in Ecur.
    split; [discriminate|]. split.
    + destruct Hp as [[Hq _] | [q [Hpos [Hq Hcur]]]].
      * rewrite Hq in Ei. simpl in Ei. lia.
      * right. exists q. cbn. repeat split; auto.
        rewrite set_nth_other; [exact Hq | lia].
    + intros _ k Hk. cbn in *. rewrite set_nth_length. auto.
Qed.

Lemma go_to_kept index code st db script :
  (0 <= index < Z.of_nat (List.length (questions st)))%Z ->
  confirm_ok st ->
  well_kept (go_to index code st db script).
Proof.
  intros Hindex Hc. unfold go_to.
  rewrite py_get_position by lia.
  destruct (nth_error_position (questions st) (Z.to_nat index)) as [q Hq];
    [lia|].
  rewrite Hq. apply push_question_kept.
  - right. exists q. cbn. repeat split; [lia | exact Hq].
  - repeat split.
  - right. exact Hc.
  - exact Hc.
Qed.

Lemma pointer_in_list st :
  pointer_ok st -> questions st <> [] ->
  (0 <= current_question_index st
   < Z.of_nat (List.length (questions st)))%Z.
Proof.
  intros [[Hq _] | [q [Hpos [Hq _]]]] Hne; [contradiction|].
  assert (Z.to_nat (current_question_index st) < List.length (questions st)).
  { apply nth_error_Some. congruence. }
  lia.
Qed.

Lemma navigation_kept st db script :
  pointer_ok st -> confirm_ok st ->
  (forall k, well_kept (select_question k st db script)) /\
  well_kept (previous_question st db script) /\
  well_kept (next_question st db script).
Proof.
  intros Hp Hc.
  assert (Hin : questions st <> [] ->
                (0 <= current_question_index st
                 < Z.of_nat (List.length (questions st)))%Z).
  { now apply pointer_in_list. }
  unfold select_question, previous_question, next_question.
  destruct (open_class st) as [code|];
    [|repeat split; try discriminate; auto].
  destruct (questions st) as [|q0 qs] eqn:Eq;
    [repeat split; try discriminate; auto|].
  rewrite <- Eq in *.
  assert (Hne : questions st <> []) by (rewrite Eq; discriminate).
  specialize (Hin Hne).
  split; [|split].
  - intros k.
    destruct (k <? List.length (questions st))%nat eqn:Ek;
      [|now apply unchanged_kept].
    destruct (negb _); [|now apply unchanged_kept].
    cbn [andb]. apply Nat.ltb_lt in Ek. apply go_to_kept; [lia | exact Hc].
  - destruct (0 <? current_question_index st)%Z eqn:E;
      [|now apply unchanged_kept].
    apply Z.ltb_lt in E. apply go_to_kept; [lia | exact Hc].
  - destruct (current_question_index st
              <? Z.of_nat (List.length (questions st)) - 1)%Z eqn:E;
      [|now apply unchanged_kept].
    apply Z.ltb_lt in E. apply go_to_kept; [lia | exact Hc].
Qed.

Lemma confirm_delete_kept st db script :
  pointer_ok st -> confirm_ok st ->
  well_kept (confirm_delete st db script).
Proof.
  intros Hp Hc. unfold confirm_delete.
  destruct (questions st) as [|q0 qs] eqn:Eq; [now apply unchanged_kept|].
  destruct (delete_confirm st) as [i|] eqn:Ed; [|now apply unchanged_kept].
  rewrite <- Eq in *.
  assert (Hne : questions st <> []) by (rewrite Eq; discriminate).
  pose proof (Hc i Ed) as Hi.
  pose proof (pointer_in_list st Hp Hne) as Hin.
  destruct (i <? List.length (questions st))%nat eqn:Ei;
    [|apply Nat.ltb_ge in Ei; lia].
  pose proof (pop_length (questions st) i Hi) as Hlen.
  destruct (Z.of_nat i =? current_question_index st)%Z eqn:Ecur.
  - destruct (pop (questions st) i) as [|p0 ps] eqn:Epop.
    + split; [discriminate|]. split.
      * left. cbn. auto.
      * intros _ k Hk. discriminate Hk.
    + rewrite <- Epop in *.
      set (new_index := Z.min (Z.of_nat i)
                          (Z.of_nat (List.length (pop (questions st) i)) - 1)).
      assert (Hnew : (0 <= new_index
                      < Z.of_nat (List.length (pop (questions st) i)))%Z).
      { subst new_index. rewrite Epop in *. cbn [List.length] in *. lia. }
      rewrite py_get_position by lia.
      destruct (nth_error_position (pop (questions st) i)
                  (Z.to_nat new_index)) as [q Hq]; [lia|].
      rewrite Hq.
      set (st' := {| questions := pop (questions st) i;
                     current_question := Some q;
                     current_question_index := new_index;
                     editing_question_index := editing_question_index st;
                     delete_confirm := Some i;
                     class_code := class_code st |}).
      assert (Hp' : pointer_ok st').
      { right. exists q. subst st'. cbn. repeat split; [lia | exact Hq]. }
      assert (Hc' : confirm_ok (with_delete_confirm None st')).
      { intros k Hk. discriminate Hk. }
      destruct (open_class st') as [code|].
      * apply push_question_kept; auto. repeat split.
      * split; [discriminate|]. split; [|auto].
        apply (pointer_ok_same st'); [repeat split | exact Hp'].
  - apply Z.eqb_neq in Ecur.
    split; [discriminate|]. split; [|intros _ k Hk; discriminate Hk].
    destruct Hp as [[Hq _] | [q [Hpos [Hq Hcur]]]]; [contradiction|].
    right. exists q. cbn.
    destruct (Z.of_nat i <? current_question_index st)%Z eqn:Elt.
    + apply Z.ltb_lt in Elt. repeat split; [lia| |exact Hcur].
      rewrite pop_nth.
      destruct (Nat.ltb_spec (Z.to_nat (current_question_index st - 1)) i);
        [lia|].
      replace (S (Z.to_nat (current_question_index st - 1)))
        with (Z.to_nat (current_question_index st)) by lia.
      exact Hq.
    + apply Z.ltb_ge in Elt. repeat split; [exact Hpos| |exact Hcur].
      rewrite pop_nth.
      destruct (Nat.ltb_spec (Z.to_nat (current_question_index st)) i);
        [exact Hq | lia].
Qed.

Lemma create_class_kept new_code now st db script :
  pointer_ok st -> confirm_ok st ->
  well_kept (create_class new_code now st db script).
Proof.
  intros Hp Hc. unfold create_class.
  destruct (open_class st); [now apply unchanged_kept|].
  destruct (questions st) eqn:Eq; [now apply unchanged_kept|].
  destruct (create_classroom _ _ _ _ _ _) as [[[|] | e] db'].
  - split; [discriminate|]. split.
    + apply (pointer_ok_same st); [repeat split; cbn; congruence | exact Hp].
    + intros _ k Hk. specialize (Hc k Hk). rewrite Eq in Hc. exact Hc.
  - now apply unchanged_kept.
  - split; [discriminate|]. split; [exact Hp | discriminate].
Qed.


(** X17: the handlers of the question list keep the index on the
    current question.  From a session in which the index points at the
    current question (or there is no question at all) and the row
    awaiting confirmation is a row of the list, no handler ends in
    [IndexError], every handler leaves the index on the current
    question, also when the gateway raised, and every handler that runs
    to its end leaves the row awaiting confirmation in the list. *)
Theorem teacher_list_kept st db script :
  pointer_ok st -> confirm_ok st ->
  (forall text,
      pointer_ok (add_question text st) /\
      confirm_ok (add_question text st)) /\
  (forall i, pointer_ok (move_up i st) /\ confirm_ok (move_up i st)) /\
  (forall i, pointer_ok (move_down i st) /\ confirm_ok (move_down i st)) /\
  (forall i,
      pointer_ok (request_delete i st) /\
      confirm_ok (request_delete i st)) /\
  (forall i edited, well_kept (save_edit i edited st db script)) /\
  well_kept (confirm_delete st db script) /\
  (forall k, well_kept (select_question k st db script)) /\
  well_kept (previous_question st db script) /\
  well_kept (next_question st db script) /\
  (forall new_code now, well_kept (create_class new_code now st db script)).
Proof.
  intros Hp Hc.
  destruct (navigation_kept st db script Hp Hc) as [Hselect [Hprev Hnext]].
  split; [intros; now apply add_question_kept|].
  split; [intros; now apply move_up_kept|].
  split; [intros; now apply move_down_kept|].
  split; [intros; now apply request_delete_kept|].
  split; [intros; now apply save_edit_kept|].
  split; [now apply confirm_delete_kept|].
  split; [exact Hselect|].
  split; [exact Hprev|].
  split; [exact Hnext|].
  intros. now apply create_class_kept.
Qed.

Lemma swap_involutive (l : list string) i j :
  i < List.length l -> j < List.length l ->
  swap (swap l i j) j i = l.
Proof.
  intros Hi Hj. apply nth_error_ext. intros k.
  rewrite swap_nth by (now rewrite swap_length).
  rewrite !swap_nth by assumption.
  rewrite !Nat.eqb_refl.
  destruct (Nat.eqb_spec k i) as [-> | Hki].
  - destruct (Nat.eqb_spec j i) as [-> | _]; reflexivity.
  - destruct (Nat.eqb_spec k j) as [-> | Hkj]; [|reflexivity].
    destruct (Nat.eqb_spec i j) as [-> | _]; reflexivity.
Qed.

(** X18: "Move Up" on a row and then "Move Down" on the row above give
    the session back: the list and the index of the current question are
    as they were. *)
Theorem move_up_then_down i st :
  0 < i < List.length (questions st) ->
  editing_question_index st <> Z.of_nat i ->
  editing_question_index st <> Z.of_nat (i - 1) ->
  move_down (i - 1) (move_up i st) = st.
Proof.
  intros [Hpos Hi] Hedit Hedit'.
  unfold move_up.
  destruct (Nat.ltb_spec i (List.length (questions st))); [|lia].
  destruct (Z.eqb_spec (editing_question_index st) (Z.of_nat i));
    [contradiction|].
  destruct (Nat.ltb_spec 0 i); [|lia].
  cbn [negb andb]. unfold move_down, exchange.
  cbn [questions editing_question_index current_question_index].
  rewrite swap_length.
  destruct (Nat.ltb_spec (i - 1) (List.length (questions st))); [|lia].
  destruct (Z.eqb_spec (editing_question_index st) (Z.of_nat (i - 1)));
    [contradiction|].
  destruct (Z.ltb_spec (Z.of_nat (i - 1))
              (Z.of_nat (List.length (questions st)) - 1)); [|lia].
  cbn [negb andb].
  cbn [questions editing_question_index current_question_index
       current_question delete_confirm class_code].
  replace (i - 1 + 1) with i by lia.
  rewrite swap_involutive by lia.
  destruct st as [l cur idx editing confirm code]. cbn in *.
  f_equal.
  destruct (Z.eqb_spec (Z.of_nat i) idx) as [<- | Hne].
  - rewrite Z.eqb_refl. reflexivity.
  - destruct (Z.eqb_spec (Z.of_nat (i - 1)) idx) as [<- | Hne'].
    + destruct (Z.eqb_spec (Z.of_nat (i - 1)) (Z.of_nat i)); [lia|].
      now rewrite Z.eqb_refl.
    + destruct (Z.eqb_spec (Z.of_nat (i - 1)) idx); [contradiction|].
      destruct (Z.eqb_spec (Z.of_nat i) idx); [contradiction|].
      reflexivity.
Qed.

Lemma classroom_of_updated code q db c :
  classroom_of code (snd (update_classroom_question code q db [])) = Some c ->
  question c = q.
Proof.
  rewrite update_classroom_question_no_fault. unfold classroom_of. cbn.
  rewrite find_map_question, String.eqb_refl.
  destruct (List.find _ (classrooms db)) as [c0|]; [|discriminate].
  cbn. intros E. injection E as <-. reflexivity.
Qed.

Lemma push_question_mirrored code st rest db :
  open_class st = Some code ->
  open_class (rest st) = open_class st ->
  current_question (rest st) = current_question st ->
  ends_mirrored (push_question code st rest db []).
Proof.
  intros Hopen Hrest Hcur. unfold push_question.
  pose proof (classroom_of_updated code (current_question st) db) as Hq.
  rewrite update_classroom_question_no_fault in *.
  split; [reflexivity|].
  intros code' c Hopen' Hc. cbn in *.
  rewrite Hrest, Hopen in Hopen'. injection Hopen' as <-.
  rewrite Hcur. exact (Hq c Hc).
Qed.

Lemma unchanged_mirrored st db :
  mirrored st db -> ends_mirrored (Ended, st, db).
Proof. intros Hm. split; [reflexivity | exact Hm]. Qed.

Lemma go_to_mirrored index code st db :
  (0 <= index < Z.of_nat (List.length (questions st)))%Z ->
  open_class st = Some code ->
  ends_mirrored (go_to index code st db []).
Proof.
  intros Hindex Hopen. unfold go_to.
  rewrite py_get_position by lia.
  destruct (nth_error_position (questions st) (Z.to_nat index)) as [q Hq];
    [lia|].
  rewrite Hq. apply push_question_mirrored; auto.
Qed.

(** X19: from a teacher session in which the index points at the
    current question, the row awaiting confirmation is a row of the
    list and the classroom that is open holds the current question, and
    while the storage does not fault, the classroom that is open still
    holds the current question after every handler that moves to
    another question (select, previous, next), after an edit, after
    reordering, after adding a question to a list that is not empty and
    after a deletion that leaves a question; creating a class, when none
    is open, stores the current question with it.  "End Class", the
    deletion of the last question and the addition of a first question
    while a class is open are not among them: they leave the two
    apart. *)
Theorem navigation_is_mirrored st db :
  pointer_ok st -> confirm_ok st -> mirrored st db ->
  (forall k, ends_mirrored (select_question k st db [])) /\
  ends_mirrored (previous_question st db []) /\
  ends_mirrored (next_question st db []) /\
  (forall i edited, ends_mirrored (save_edit i edited st db [])) /\
  (forall i, mirrored (move_up i st) db /\ mirrored (move_down i st) db) /\
  (forall text, questions st <> [] -> mirrored (add_question text st) db) /\
  (2 <= List.length (questions st) ->
   ends_mirrored (confirm_delete st db [])) /\
  (forall new_code now,
      open_class st = None ->
      ends_mirrored (create_class new_code now st db [])).
Proof.
  intros Hp Hc Hm.
  assert (Hin : questions st <> [] ->
                (0 <= current_question_index st
                 < Z.of_nat (List.length (questions st)))%Z).
  { now apply pointer_in_list. }
  split; [|split; [|split; [|split; [|split; [|split; [|split]]]]]].
  - intros k. unfold select_question.
    destruct (open_class st) as [code|] eqn:Hopen;
      [|now apply unchanged_mirrored].
    destruct (questions st) as [|q0 qs] eqn:Eq;
      [now apply unchanged_mirrored|].
    rewrite <- Eq in *.
    destruct (k <? List.length (questions st))%nat eqn:Ek;
      [|now apply unchanged_mirrored].
    destruct (negb _); [|now apply unchanged_mirrored].
    cbn [andb]. apply Nat.ltb_lt in Ek. apply go_to_mirrored; [lia | exact Hopen].
  - unfold previous_question.
    destruct (open_class st) as [code|] eqn:Hopen;
      [|now apply unchanged_mirrored].
    destruct (questions st) as [|q0 qs] eqn:Eq;
      [now apply unchanged_mirrored|].
    rewrite <- Eq in *.
    assert (Hne : questions st <> []) by (rewrite Eq; discriminate).
    specialize (Hin Hne).
    destruct (0 <? current_question_index st)%Z eqn:E;
      [|now apply unchanged_mirrored].
    apply Z.ltb_lt in E. apply go_to_mirrored; [lia | exact Hopen].
  - unfold next_question.
    destruct (open_class st) as [code|] eqn:Hopen;
      [|now apply unchanged_mirrored].
    destruct (questions st) as [|q0 qs] eqn:Eq;
      [now apply unchanged_mirrored|].
    rewrite <- Eq in *.
    assert (Hne : questions st <> []) by (rewrite Eq; discriminate).
    specialize (Hin Hne).
    destruct (current_question_index st
              <? Z.of_nat (List.length (questions st)) - 1)%Z eqn:E;
      [|now apply unchanged_mirrored].
    apply Z.ltb_lt in E. apply go_to_mirrored; [lia | exact Hopen].
  - intros i edited. unfold save_edit.
    destruct (i <? List.length (questions st))%nat;
      [|now apply unchanged_mirrored].
    destruct (editing_question_index st =? Z.of_nat i)%Z;
      [|now apply unchanged_mirrored].
    destruct (Utils.validate_input edited 0 None);
      [|now apply unchanged_mirrored].
    cbn [andb].
    destruct (Z.of_nat i =? current_question_index st)%Z.
    + set (st' := {| questions := set_nth (questions st) i edited;
                     current_question := Some edited;
                     current_question_index := current_question_index st;
                     editing_question_index := editing_question_index st;
                     delete_confirm := delete_confirm st;
                     class_code := class_code st |}).
      destruct (open_class st') as [code|] eqn:Hopen.
      * apply push_question_mirrored; auto.
      * split; [reflexivity|]. intros code c Hopen'.
        unfold session_of in Hopen'. cbn [fst snd] in Hopen'.
        change (open_class (with_editing (-1) st')) with (open_class st')
          in Hopen'.
        congruence.
    + split; [reflexivity|]. exact Hm.
  - intros i. split.
    + unfold move_up. destruct (_ && _); [|exact Hm]. exact Hm.
    + unfold move_down. destruct (_ && _); [|exact Hm]. exact Hm.
  - intros text Hne. unfold add_question.
    destruct (Utils.validate_input text 0 None); [|exact Hm].
    destruct Hp as [[Hq _] | [q [_ [Hq Hcur]]]]; [contradiction|].
    intros code c Hopen Hc'. cbn in *.
    rewrite Hcur, orb_false_r, length_app. cbn [List.length].
    destruct (questions st) as [|q0 qs]; [contradiction|].
    cbn [List.length].
    destruct (S (List.length qs) + 1 =? 1)%nat eqn:E;
      [apply Nat.eqb_eq in E; lia|].
    rewrite <- Hcur. exact (Hm code c Hopen Hc').
  - intros Htwo. unfold confirm_delete.
    destruct (questions st) as [|q0 qs] eqn:Eq;
      [now apply unchanged_mirrored|].
    destruct (delete_confirm st) as [i|] eqn:Ed;
      [|now apply unchanged_mirrored].
    rewrite <- Eq in *.
    pose proof (Hc i Ed) as Hi.
    destruct (i <? List.length (questions st))%nat eqn:Ei;
      [|apply Nat.ltb_ge in Ei; lia].
    pose proof (pop_length (questions st) i Hi) as Hlen.
    destruct (Z.of_nat i =? current_question_index st)%Z.
    + destruct (pop (questions st) i) as [|p0 ps] eqn:Epop;
        [cbn [List.length] in Hlen; lia|].
      rewrite <- Epop in *.
      set (new_index := Z.min (Z.of_nat i)
                          (Z.of_nat (List.length (pop (questions st) i)) - 1)).
      assert (Hnew : (0 <= new_index
                      < Z.of_nat (List.length (pop (questions st) i)))%Z).
      { subst new_index. lia. }
      rewrite py_get_position by lia.
      destruct (nth_error_position (pop (questions st) i)
                  (Z.to_nat new_index)) as [q Hq]; [lia|].
      rewrite Hq.
      set (st' := {| questions := pop (questions st) i;
                     current_question := Some q;
                     current_question_index := new_index;
                     editing_question_index := editing_question_index st;
                     delete_confirm := Some i;
                     class_code := class_code st |}).
      destruct (open_class st') as [code|] eqn:Hopen.
      * apply push_question_mirrored; auto.
      * split; [reflexivity|]. intros code c Hopen'.
        unfold session_of in Hopen'. cbn [fst snd] in Hopen'.
        change (open_class (with_delete_confirm None st'))
          with (open_class st') in Hopen'.
        congruence.
    + split; [reflexivity|]. exact Hm.
  - intros new_code now Hclosed. unfold create_class. rewrite Hclosed.
    destruct (questions st) as [|q0 qs] eqn:Eq;
      [now apply unchanged_mirrored|].
    rewrite create_classroom_no_fault.
    destruct (classroom_of new_code db) as [c0|] eqn:Efresh;
      [now apply unchanged_mirrored|].
    split; [reflexivity|].
    intros code c Hopen Hc'. unfold session_of, tables_of in *.
    cbn [fst snd] in *. unfold open_class in Hopen. cbn [class_code] in Hopen.
    destruct (new_code =? ""); [discriminate|]. injection Hopen as <-.
    pose proof (classroom_of_added
                  {| Database.class_code := new_code; created_at := now;
                     teacher_id := "teacher-1";
                     question := current_question st;
                     status := "active" |} db Efresh) as Hadded.
    cbn [Database.class_code] in Hadded.
    rewrite Hadded in Hc'. injection Hc' as <-. reflexivity.
Qed.

(** X20: when the classroom that is open holds the teacher's current
    question, a student of that classroom has that question as the
    current one once a pass over the student page has run its check of
    lines 613-620, and also after the handler of the refresh button in
    the same pass; both return, without storage faults. *)
Theorem student_sees_teacher_question st db code c sst :
  mirrored st db ->
  open_class st = Some code ->
  classroom_of code db = Some c ->
  App.class_code sst = Some code ->
  (exists sst',
      App.check_question db [] sst = Returned sst' /\
      App.current_question sst' = current_question st) /\
  (exists sst',
      App.refresh_pass db [] [] sst = Returned sst' /\
      App.current_question sst' = current_question st).
Proof.
  intros Hm Hopen Hc Hjoined.
  specialize (Hm code c Hopen Hc).
  assert (Hcode : code <> "").
  { unfold open_class in Hopen. destruct (class_code st) as [x|];
      [|discriminate].
    destruct (x =? "") eqn:E; [discriminate|].
    injection Hopen as <-. now apply eqb_empty_false. }
  assert (Hin : forall s, App.class_code s = Some code ->
                          App.joined_class s = Some code).
  { intros s Hs. unfold App.joined_class. rewrite Hs.
    destruct (code =? "") eqn:E; [|reflexivity].
    apply String.eqb_eq in E. contradiction. }
  assert (Hcheck : App.current_question (App.question_check (Some c) sst)
                   = question c).
  { unfold App.question_check.
    destruct (App.differs (question c) (App.current_question sst)) eqn:E;
      [reflexivity|].
    unfold App.differs in E.
    destruct (question c) as [x|], (App.current_question sst) as [y|];
      try discriminate; [|reflexivity].
    apply negb_false_iff, String.eqb_eq in E. now subst. }
  assert (Hsame : App.class_code (App.question_check (Some c) sst)
                  = Some code).
  { unfold App.question_check. now destruct (App.differs _ _). }
  assert (Hrun : App.check_question db [] sst
                 = Returned (App.question_check (Some c) sst)).
  { unfold App.check_question.
    now rewrite (Hin sst Hjoined), get_classroom_info_no_fault, Hc. }
  split.
  - eexists. split; [exact Hrun|]. now rewrite Hcheck.
  - unfold App.refresh_pass. rewrite Hrun. unfold App.press_refresh.
    rewrite (Hin _ Hsame), get_classroom_info_no_fault, Hc. cbn [fst].
    eexists. split; [reflexivity|].
    unfold App.refresh_question.
    destruct (question c) as [q|] eqn:Eq; [|now rewrite Hcheck].
    destruct (q =? ""); [now rewrite Hcheck, Hm|].
    rewrite Hcheck. cbn [App.differs]. rewrite String.eqb_refl. cbn [negb].
    now rewrite Hcheck.
Qed.

End TeacherFacts.

Lemma teaching_session_ok :
  pointer_ok teaching_session /\ confirm_ok teaching_session.
Proof.
  split.
  - right. exists "Why is X?". repeat split. discriminate.
  - intros i Hi. discriminate Hi.
Qed.

Lemma teaching_session_mirrored : mirrored teaching_session one_classroom.
Proof.
  intros code c Hopen Hc. vm_compute in Hopen. injection Hopen as <-.
  vm_compute in Hc. injection Hc as <-. reflexivity.
Qed.

Lemma teacher_list_kept_witness :
  well_kept (TeacherView.next_question teaching_session one_classroom []).
Proof.
  exact (proj1 (proj2 (proj2 (proj2 (proj2 (proj2 (proj2 (proj2 (proj2
           (teacher_list_kept teaching_session one_classroom []
              (proj1 teaching_session_ok)
              (proj2 teaching_session_ok))))))))))).
Defined.

Lemma move_up_then_down_witness :
  TeacherView.move_down 0 (TeacherView.move_up 1 teaching_session)
  = teaching_session.
Proof.
  apply (move_up_then_down 1 teaching_session).
  - vm_compute. split; repeat constructor.
  - discriminate.
  - discriminate.
Defined.

Lemma navigation_is_mirrored_witness :
  ends_mirrored (TeacherView.next_question teaching_session one_classroom []).
Proof.
  exact (proj1 (proj2 (proj2
           (navigation_is_mirrored teaching_session one_classroom
              (proj1 teaching_session_ok) (proj2 teaching_session_ok)
              teaching_session_mirrored)))).
Defined.

(** What is not covered above: after "End Class", "Generate Class Code"
    and the addition of a question, the index is on the first question
    while the current question is the new one, and the new classroom
    holds no question. *)
Remark end_class_leaves_apart :
  let ended := TeacherView.end_class teaching_session in
  let created := TeacherView.create_class "CD34" 7%Z ended one_classroom [] in
  let added := TeacherView.add_question "Why is Z?" (session_of created) in
  ending_of created = TeacherView.Ended /\
  TeacherView.class_code added = Some "CD34" /\
  TeacherView.current_question added = Some "Why is Z?" /\
  TeacherView.current_question_index added = 0%Z /\
  nth_error (TeacherView.questions added) 0 = Some "Why is X?" /\
  option_map Database.question (classroom_of "CD34" (tables_of created))
  = Some None /\
  ~ pointer_ok added /\
  ~ mirrored added (tables_of created).
Proof.
  cbv zeta.
  split; [vm_compute; reflexivity|].
  split; [vm_compute; reflexivity|].
  split; [vm_compute; reflexivity|].
  split; [vm_compute; reflexivity|].
  split; [vm_compute; reflexivity|].
  split; [vm_compute; reflexivity|].
  split.
  - intros [[Hq _] | [q [_ [Hq Hcur]]]].
    + vm_compute in Hq. discriminate Hq.
    + vm_compute in Hq, Hcur. congruence.
  - intros Hm.
    specialize (Hm "CD34"
                  {| Database.class_code := "CD34";
                     Database.created_at := 7%Z;
                     Database.teacher_id := "teacher-1";
                     Database.question := None;
                     Database.status := "active" |}).
    vm_compute in Hm. specialize (Hm eq_refl eq_refl). discriminate Hm.
Qed.

Lemma student_sees_teacher_question_witness :
  (exists sst',
      App.check_question one_classroom [] answered_session = Returned sst' /\
      App.current_question sst' = Some "Why is X?") /\
  (exists sst',
      App.refresh_pass one_classroom [] [] answered_session
      = Returned sst' /\
      App.current_question sst' = Some "Why is X?").
Proof.
  exact (student_sees_teacher_question teaching_session one_classroom
           "AB12" (classroom_AB12 "Why is X?") answered_session
           teaching_session_mirrored eq_refl eq_refl eq_refl).
Defined.

(* ================================================================== *)
(** ** utils.py *)

Lemma chars_checked :
  forallb
    (fun k =>
       match String.get k Utils.chars with
       | Some c => upper_or_digit c
       | None => false
       end)
    (seq 0 36) = true.
Proof. vm_compute. reflexivity. Qed.

Lemma choice_chars (draw : nat) :
  upper_or_digit (Utils.choice Utils.chars draw) = true.
Proof.
  unfold Utils.choice.
  pose proof chars_checked as Hall. rewrite forallb_forall in Hall.
  specialize (Hall (draw mod String.length Utils.chars)).
  assert (Hin : In (draw mod String.length Utils.chars) (seq 0 36)).
  { apply in_seq. change (String.length Utils.chars) with 36.
    pose proof (Nat.mod_upper_bound draw 36). lia. }
  specialize (Hall Hin).
  destruct (String.get _ Utils.chars); [exact Hall | discriminate].
Qed.

Lemma string_of_list_length (l : list ascii) :
  String.length (string_of_list_ascii l) = List.length l.
Proof. induction l as [|c l IH]; simpl; [reflexivity | now rewrite IH]. Qed.

(** X21: whatever the random generator draws, a class code has as many
    characters as asked for (none for a negative length), each of them
    an upper-case ASCII letter or a digit, and a student id is [S-]
    followed by four such characters. *)
Theorem generated_codes (draws : nat -> nat) :
  (forall length,
      String.length (Utils.generate_class_code length draws)
      = Z.to_nat length /\
      forallb upper_or_digit
        (list_ascii_of_string (Utils.generate_class_code length draws))
      = true) /\
  String.length (Utils.generate_student_id draws) = 6 /\
  exists code,
    Utils.generate_student_id draws = ("S-" ++ code)%string /\
    String.length code = 4 /\
    forallb upper_or_digit (list_ascii_of_string code) = true.
Proof.
  assert (Hcode : forall length,
    String.length (Utils.random_code length draws) = Z.to_nat length /\
    forallb upper_or_digit
      (list_ascii_of_string (Utils.random_code length draws)) = true).
  { intros length. unfold Utils.random_code. split.
    - now rewrite string_of_list_length, length_map, length_seq.
    - rewrite list_ascii_of_string_of_list_ascii.
      apply forallb_forall. intros c Hc.
      apply in_map_iff in Hc as [k [<- _]]. apply choice_chars. }
  split; [exact Hcode|].
  destruct (Hcode 4%Z) as [Hlen Hall].
  split.
  - unfold Utils.generate_student_id. cbn [append String.length].
    now rewrite Hlen.
  - exists (Utils.random_code 4 draws). repeat split; assumption.
Qed.

Lemma try_ports_result bind max_port (fuel : nat) :
  forall port,
    (max_port - port <= Z.of_nat fuel)%Z ->
    (forall p, (port <= p < max_port)%Z -> bind p <> Utils.RaisesOther) ->
    exists found,
      Utils.try_ports bind fuel port max_port = Some (Some found) /\
      (((port <= found < max_port)%Z /\ bind found = Utils.Bound /\
        forall p, (port <= p < found)%Z -> bind p = Utils.RaisesOSError) \/
       (found = 8501%Z /\
        forall p, (port <= p < max_port)%Z -> bind p = Utils.RaisesOSError)).
Proof.
  induction fuel as [|fuel IH]; intros port Hfuel Hother.
  - cbn [Utils.try_ports].
    destruct (Z.ltb_spec port max_port); [lia|].
    exists 8501%Z. split; [reflexivity|]. right. split; [reflexivity|].
    intros p Hp. lia.
  - cbn [Utils.try_ports].
    destruct (Z.ltb_spec port max_port) as [Hlt | Hge].
    + destruct (bind port) eqn:Ebind.
      * exists port. split; [reflexivity|]. left.
        repeat split; [lia | assumption | exact Ebind |].
        intros p Hp. lia.
      * destruct (IH (port + 1)%Z) as [found [Hrun Hfound]].
        { lia. }
        { intros p Hp. apply Hother. lia. }
        exists found. split; [exact Hrun|].
        destruct Hfound as [[Hrange [Hbound Hbusy]] | [-> Hbusy]].
        -- left. repeat split; [lia | lia | exact Hbound |].
           intros p Hp. destruct (Z.eq_dec p port) as [-> | Hne];
             [exact Ebind | apply Hbusy; lia].
        -- right. split; [reflexivity|].
           intros p Hp. destruct (Z.eq_dec p port) as [-> | Hne];
             [exact Ebind | apply Hbusy; lia].
      * exfalso. apply (Hother port); [lia | exact Ebind].
    + exists 8501%Z. split; [reflexivity|]. right. split; [reflexivity|].
      intros p Hp. lia.
Qed.

(** X22: when binding raises nothing but [OSError],
    [find_available_port] returns within a hundred rounds: the lowest of
    the hundred ports from [start_port] on that can be bound, or 8501,
    without having tried it, when none of them can. *)
Theorem find_available_port_result bind fuel start_port :
  100 <= fuel ->
  (forall p, (start_port <= p < start_port + 100)%Z ->
             bind p <> Utils.RaisesOther) ->
  exists port,
    Utils.find_available_port bind fuel start_port = Some (Some port) /\
    (((start_port <= port < start_port + 100)%Z /\
      bind port = Utils.Bound /\
      forall p, (start_port <= p < port)%Z -> bind p = Utils.RaisesOSError) \/
     (port = 8501%Z /\
      forall p, (start_port <= p < start_port + 100)%Z ->
                bind p = Utils.RaisesOSError)).
Proof.
  intros Hfuel Hother. unfold Utils.find_available_port.
  apply try_ports_result; [lia | exact Hother].
Qed.

Lemma find_available_port_result_witness :
  exists port,
    Utils.find_available_port
      (fun p => if (p <? 8003)%Z then Utils.RaisesOSError else Utils.Bound)
      100 8000
    = Some (Some port).
Proof.
  destruct (find_available_port_result
              (fun p => if (p <? 8003)%Z then Utils.RaisesOSError
                        else Utils.Bound) 100 8000)
    as [port [Hrun _]].
  - repeat constructor.
  - intros p _. destruct (p <? 8003)%Z; discriminate.
  - exists port. exact Hrun.
Defined.

(* ================================================================== *)
(** ** app.py: the check and the refresh button of the student page *)

Lemma differs_false (a b : option string) : App.differs a b = false -> a = b.
Proof.
  destruct a as [x|], b as [y|]; cbn; try discriminate; [|reflexivity].
  intros E. apply negb_false_iff, String.eqb_eq in E. now subst.
Qed.

Lemma question_check_current info st :
  App.current_question (App.question_check (Some info) st) = question info.
Proof.
  unfold App.question_check.
  destruct (App.differs (question info) (App.current_question st)) eqn:E;
    [reflexivity|].
  symmetry. now apply differs_false.
Qed.

Lemma refresh_question_current info st :
  App.current_question st = question info ->
  App.refresh_question (Some info) st = st.
Proof.
  intros Hcur. unfold App.refresh_question.
  destruct (question info) as [q|]; [|reflexivity].
  destruct (q =? ""); [reflexivity|].
  now rewrite Hcur, differs_same.
Qed.

Lemma question_check_current_same info st :
  App.current_question st = question info ->
  App.question_check (Some info) st = st.
Proof.
  intros Hcur. unfold App.question_check. now rewrite Hcur, differs_same.
Qed.

Lemma question_check_class_code db_info st :
  App.class_code (App.question_check db_info st) = App.class_code st.
Proof.
  unfold App.question_check. destruct db_info as [info|]; [|reflexivity].
  now destruct (App.differs _ _).
Qed.

Lemma refresh_question_class_code db_info st :
  App.class_code (App.refresh_question db_info st) = App.class_code st.
Proof.
  unfold App.refresh_question. destruct db_info as [info|]; [|reflexivity].
  destruct (question info) as [q|]; [|reflexivity].
  destruct (q =? ""); [reflexivity|].
  now destruct (App.differs _ _).
Qed.

(** X23: over the same tables and without storage faults, the handler
    of "Refresh Question" changes nothing that the check of lines
    613-620 has not done before it in the same pass: lines 613-645 of a
    pass started by the button leave the session exactly as the check
    alone leaves it, so the reset of lines 632-638 is not reached.  The
    check returns with the session on the question of the classroom, and
    run again over the same tables it changes nothing. *)
Theorem refresh_adds_nothing db st :
  App.refresh_pass db [] [] st = App.check_question db [] st /\
  exists st',
    App.check_question db [] st = Returned st' /\
    App.check_question db [] st' = Returned st' /\
    (forall code c,
        App.joined_class st = Some code ->
        classroom_of code db = Some c ->
        App.current_question st' = question c).
Proof.
  unfold App.refresh_pass, App.press_refresh, App.check_question.
  destruct (App.joined_class st) as [code|] eqn:Hjoined.
  - rewrite get_classroom_info_no_fault. cbn [fst].
    assert (Hjoined' :
      App.joined_class (App.question_check (classroom_of code db) st)
      = Some code).
    { unfold App.joined_class in *.
      now rewrite question_check_class_code. }
    rewrite Hjoined', get_classroom_info_no_fault. cbn [fst].
    assert (Hrefresh :
      App.refresh_question (classroom_of code db)
        (App.question_check (classroom_of code db) st)
      = App.question_check (classroom_of code db) st).
    { destruct (classroom_of code db) as [c|]; [|reflexivity].
      apply refresh_question_current, question_check_current. }
    rewrite Hrefresh. split; [reflexivity|].
    eexists. split; [reflexivity|].
    split;
      [rewrite Hjoined', get_classroom_info_no_fault; cbn [fst];
       now rewrite question_check_idempotent|].
    intros code' c Hcode Hc. injection Hcode as <-. rewrite Hc.
    apply question_check_current.
  - rewrite Hjoined. split; [reflexivity|].
    exists st. split; [reflexivity|]. rewrite Hjoined.
    split; [reflexivity|].
    intros code c Hcode. discriminate Hcode.
Qed.
